(** * Vision Calibrator: the recommendation engine and the config serializer

    A shallow embedding of [src/lib/calculator.ts]:
      - [calculateRecommendations], the layered rule sequence that turns
        visual conditions, a colour-vision type, an optional prescription
        and optional current settings into a [Recommendation];
      - [generateEditorConfig], which renders a [Recommendation] for one of
        five editors;
      - [getRecommendationSummary], the one-line summary;
    and of the state updates of the calibrator form that decide what the
    engine receives ([toggleCondition], [parsedPrescription],
    [handleGenerate]).

    Modelling choices.
      - A JavaScript [number] is an IEEE-754 binary64 value: Rocq's primitive
        [float], whose [+], [-], [*], [/] and comparisons are the machine's.
        [Math.max], [Math.round], [Number.prototype.toFixed] and the
        number-to-string conversion are written out below from ECMA-262.
      - A JavaScript string is a Rocq [string], read as the UTF-8 bytes of the
        text.  [toLowerCase] and the [\s] class are modelled on ASCII.
      - [undefined] (the first element of an empty array) is [None].
      - The in-place writes to [conditions] are returned as a second result.
*)

From Stdlib Require Import ZArith List String Ascii Bool Lia.
From Stdlib Require Import Floats.
From Stdlib Require Uint63.
Import ListNotations.

Set Warnings "-inexact-float,-register-all".

Local Open Scope string_scope.

(* ================================================================== *)
(** * JavaScript numbers *)
(* ================================================================== *)

Module JS.

(** [x] written as [(-1)^sign * mant * 2^expo], for a finite non-zero [x]. *)
Definition decompose (x : float) : option (bool * positive * Z) :=
  match Prim2SF x with
  | S754_finite s m e => Some (s, m, e)
  | _ => None
  end.

(** The float of an integer [0 <= n < 2^63] (exact below [2^53]). *)
Definition float_of_Z (n : Z) : float :=
  if (n <? 0)%Z then (- of_uint63 (Uint63.of_Z (- n)))%float
  else of_uint63 (Uint63.of_Z n).

(** [Math.max(a, b)]: NaN when either is NaN, and [+0] above [-0]. *)
Definition Math_max (a b : float) : float :=
  if is_nan a then a
  else if is_nan b then b
  else if (a <? b)%float then b
  else if (b <? a)%float then a
  else if get_sign a then b else a.

(** [Math.abs]. *)
Definition Math_abs (x : float) : float := abs x.

(** [Math.round(x)]: the integer nearest to [x], a tie going up; NaN,
    infinities and zeros are returned as they are, and a result that is
    zero keeps the sign of [x]. *)
Definition Math_round (x : float) : float :=
  match decompose x with
  | None => x
  | Some (s, m, e) =>
      if (0 <=? e)%Z then x
      else
        let sm := if s then Z.neg m else Z.pos m in
        (* floor (x + 1/2) = floor ((2 * sm + 2^-e) / 2^(1-e)) *)
        let n := Z.shiftr (2 * sm + Z.shiftl 1 (- e)) (1 - e) in
        if (n =? 0)%Z then (if s then neg_zero else zero)
        else float_of_Z n
  end.

(* ------------------------------------------------------------------ *)
(** ** Decimal text of integers *)

Definition digit_char (d : Z) : ascii := ascii_of_N (Z.to_N (48 + d)).

Fixpoint digits_fuel (fuel : nat) (n : Z) (acc : string) : string :=
  match fuel with
  | O => acc
  | S fuel' =>
      let acc' := String (digit_char (n mod 10)) acc in
      if (n <? 10)%Z then acc' else digits_fuel fuel' (n / 10) acc'
  end.

(** The decimal digits of [n >= 0], most significant first. *)
Definition digits_of_Z (n : Z) : string :=
  digits_fuel (S (Z.to_nat (Z.log2 n))) n EmptyString.

Fixpoint zeros (n : nat) : string :=
  match n with
  | O => EmptyString
  | S n' => String "0" (zeros n')
  end.

(** [take n s] and [drop n s]: the first [n] characters and the rest. *)
Fixpoint take (n : nat) (s : string) : string :=
  match n, s with
  | S n', String c s' => String c (take n' s')
  | _, _ => EmptyString
  end.

Fixpoint drop (n : nat) (s : string) : string :=
  match n, s with
  | S n', String _ s' => drop n' s'
  | _, _ => s
  end.

(* ------------------------------------------------------------------ *)
(** ** Number::toString (ECMA-262, radix 10) *)

(** Comparison of [s * 10^q] with [a * 2^b], all four integers. *)
Definition cmp_dec_bin (s q a b : Z) : comparison :=
  (s * 10 ^ Z.max q 0 * 2 ^ Z.max (- b) 0
   ?= a * 2 ^ Z.max b 0 * 10 ^ Z.max (- q) 0)%Z.

(** The reals that round (to nearest, ties to even) to [m * 2^e] form an
    interval: [lo] and [hi] are its ends, as [(a, b)] for [a * 2^b]; the
    ends belong to it when [m] is even. *)
Definition round_lo (m : positive) (e : Z) : Z * Z :=
  if ((Z.pos m =? 2 ^ 52) && (-1074 <? e))%bool%Z
  then (4 * Z.pos m - 1, e - 2)%Z
  else (2 * Z.pos m - 1, e - 1)%Z.

Definition round_hi (m : positive) (e : Z) : Z * Z :=
  (2 * Z.pos m + 1, e - 1)%Z.

Definition rounds_to (m : positive) (e : Z) (s q : Z) : bool :=
  let closed := Z.even (Z.pos m) in
  let '(la, lb) := round_lo m e in
  let '(ha, hb) := round_hi m e in
  let above_lo :=
    match cmp_dec_bin s q la lb with
    | Gt => true | Eq => closed | Lt => false
    end in
  let below_hi :=
    match cmp_dec_bin s q ha hb with
    | Lt => true | Eq => closed | Gt => false
    end in
  above_lo && below_hi.

(** [floor (m * 2^e / 10^q)]. *)
Definition scaled_floor (m : positive) (e q : Z) : Z :=
  (Z.pos m * 2 ^ Z.max e 0 * 10 ^ Z.max (- q) 0
   / (2 ^ Z.max (- e) 0 * 10 ^ Z.max q 0))%Z.

Fixpoint dec_exponent_fuel (fuel : nat) (m : positive) (e n : Z) : Z :=
  match fuel with
  | O => n
  | S fuel' =>
      match cmp_dec_bin 1 n (Z.pos m) e with
      | Gt => n
      | _ => dec_exponent_fuel fuel' m e (n + 1)
      end
  end.

(** The [n] with [10^(n-1) <= m * 2^e < 10^n]. *)
Definition dec_exponent (m : positive) (e : Z) : Z :=
  let bits := (Z.log2 (Z.pos m) + 1 + e)%Z in
  dec_exponent_fuel 8 m e ((bits - 1) * 30103 / 100000 - 1).

(** The candidate with [k] digits: [(s, n)] with [s * 10^(n-k)] rounding to
    [m * 2^e]; of two, the one nearer to it (the even one on a tie). *)
Definition candidate (m : positive) (e : Z) (k : Z) : option (Z * Z) :=
  let n0 := dec_exponent m e in
  let q := (n0 - k)%Z in
  let s_lo := scaled_floor m e q in
  let s_hi := (s_lo + 1)%Z in
  let ok_lo := ((10 ^ (k - 1) <=? s_lo)%Z && rounds_to m e s_lo q)%bool in
  let ok_hi := rounds_to m e s_hi q in
  let out (s : Z) :=
    if (s =? 10 ^ k)%Z then Some (10 ^ (k - 1), n0 + 1)%Z else Some (s, n0) in
  match ok_lo, ok_hi with
  | false, false => None
  | true, false => out s_lo
  | false, true => out s_hi
  | true, true =>
      (* 2x against s_lo + s_hi, in units of 10^q *)
      match cmp_dec_bin (s_lo + s_hi) q (Z.pos m) (e + 1) with
      | Gt => out s_lo
      | Lt => out s_hi
      | Eq => if Z.even s_lo then out s_lo else out s_hi
      end
  end.

Fixpoint shortest_fuel (fuel : nat) (m : positive) (e : Z) (k : Z)
  : option (Z * Z * Z) :=
  match fuel with
  | O => None
  | S fuel' =>
      match candidate m e k with
      | Some (s, n) => Some (s, n, k)
      | None => shortest_fuel fuel' m e (k + 1)
      end
  end.

(** The shortest digits [(s, n, k)] of [m * 2^e]: seventeen always suffice
    for a binary64 value. *)
Definition shortest_digits (m : positive) (e : Z) : option (Z * Z * Z) :=
  shortest_fuel 17 m e 1.

(** The text of [s * 10^(n-k)], [s] having [k] digits. *)
Definition format_digits (s n k : Z) : string :=
  let ds := digits_of_Z s in
  if ((k <=? n) && (n <=? 21))%bool%Z then
    ds ++ zeros (Z.to_nat (n - k))
  else if ((0 <? n) && (n <=? 21))%bool%Z then
    take (Z.to_nat n) ds ++ "." ++ drop (Z.to_nat n) ds
  else if ((-6 <? n) && (n <=? 0))%bool%Z then
    "0." ++ zeros (Z.to_nat (- n)) ++ ds
  else
    let ex := (n - 1)%Z in
    let sign := if (ex <? 0)%Z then "-" else "+" in
    let mant := if (k =? 1)%Z then ds else take 1 ds ++ "." ++ drop 1 ds in
    mant ++ "e" ++ sign ++ digits_of_Z (Z.abs ex).

Definition Number_toString (x : float) : string :=
  match Prim2SF x with
  | S754_nan => "NaN"
  | S754_zero _ => "0"
  | S754_infinity s => if s then "-Infinity" else "Infinity"
  | S754_finite s m e =>
      let body :=
        match shortest_digits m e with
        | Some (d, n, k) => format_digits d n k
        | None => "NaN"
        end in
      if s then "-" ++ body else body
  end.

(** [String(x)] and a template literal's [${x}] on a number. *)
Definition String_of_number (x : float) : string := Number_toString x.

(* ------------------------------------------------------------------ *)
(** ** Number.prototype.toFixed *)

(** [x.toFixed(f)] for [0 <= f]: the integer [n] with [n / 10^f] nearest to
    [|x|] (the larger on a tie), with a decimal point before its last [f]
    digits; [Number::toString] from [1e21] on and for NaN and infinities. *)
Definition toFixed (x : float) (f : nat) : string :=
  match Prim2SF x with
  | S754_finite s m e =>
      if (x <? 1e21)%float && (-1e21 <? x)%float then
        let zf := Z.of_nat f in
        (* floor (|x| * 10^f + 1/2) *)
        let n := ((2 * Z.pos m * 2 ^ Z.max e 0 * 10 ^ zf + 2 ^ Z.max (- e) 0)
                  / (2 * 2 ^ Z.max (- e) 0))%Z in
        let ds := digits_of_Z n in
        let ds := zeros (S f - String.length ds) ++ ds in
        let k := (String.length ds - f)%nat in
        let body :=
          match f with
          | O => ds
          | _ => take k ds ++ "." ++ drop k ds
          end in
        if s then "-" ++ body else body
      else Number_toString x
  | S754_zero _ =>
      match f with
      | O => "0"
      | _ => "0." ++ zeros f
      end
  | _ => Number_toString x
  end.

End JS.

(* ================================================================== *)
(** * The data model *)
(* ================================================================== *)

Record Eye := {
  sphere : float;    (* negative = myopia, positive = hyperopia *)
  cylinder : float;  (* astigmatism power *)
  axis : float       (* astigmatism axis, degrees *)
}.

Record Prescription := {
  rightEye : Eye;
  leftEye : Eye
}.

Record VisualConditions := {
  myopia : bool;
  hyperopia : bool;
  astigmatism : bool;
  eyeStrain : bool;
  blurOrGhosting : bool;
  lightSensitivity : bool;
  visualCrowding : bool
}.

Inductive ColorVisionType :=
  | normal
  | deuteranopia
  | protanopia
  | tritanopia
  | achromatopsia.

Module CurrentSettings.
Record t := {
  fontSize : float;
  lineHeight : float;
  fontWeight : float
}.
End CurrentSettings.

Inductive CursorStyle := bar | block | underline.

Record ResearchCitation := {
  finding : string;
  source : string;
  year : float
}.

Record Recommendation := {
  fontSize : float;
  lineHeight : float;
  fontWeight : float;
  cursorStyle : CursorStyle;
  suggestedFonts : list string;
  suggestedThemes : list string;
  explanations : list string;
  research : list ResearchCitation
}.

(** The text of the enumeration values. *)
Definition ColorVisionType_text (c : ColorVisionType) : string :=
  match c with
  | normal => "normal"
  | deuteranopia => "deuteranopia"
  | protanopia => "protanopia"
  | tritanopia => "tritanopia"
  | achromatopsia => "achromatopsia"
  end.

Definition CursorStyle_text (c : CursorStyle) : string :=
  match c with
  | bar => "bar"
  | block => "block"
  | underline => "underline"
  end.

Definition CursorStyle_eqb (a b : CursorStyle) : bool :=
  match a, b with
  | bar, bar | block, block | underline, underline => true
  | _, _ => false
  end.

(* ------------------------------------------------------------------ *)
(** ** The fixed tables *)

Definition ASTIGMATISM_FRIENDLY_FONTS : list string :=
  [ "IBM Plex Mono";
    "JetBrains Mono";
    "Fira Code";
    "Input Mono";
    "Atkinson Hyperlegible Mono";
    "Source Code Pro" ].

Record ThemeEntry := {
  themes : list string;
  rationale : string
}.

Definition COLOR_VISION_THEMES (c : ColorVisionType) : ThemeEntry :=
  match c with
  | normal =>
      {| themes := [];
         rationale := "No specific theme requirements for normal color vision." |}
  | deuteranopia =>
      {| themes := ["Solarized Dark"; "Solarized Light"; "One Dark";
                    "GitHub Dark"; "Catppuccin Mocha"];
         rationale := "Blue/yellow color schemes work best as the blue cone pathway is intact. Avoid themes that rely on red/green distinctions for syntax highlighting." |}
  | protanopia =>
      {| themes := ["Solarized Dark"; "Solarized Light"; "Nord"; "Tokyo Night"];
         rationale := "Blue-dominant themes work well. Reds will appear very dark, so themes with strong blue/cyan accents are preferred." |}
  | tritanopia =>
      {| themes := ["Monokai"; "Dracula"; "Gruvbox"; "Material Theme"];
         rationale := "Warm color schemes (red/green/orange) work best as these cones are intact. Avoid themes with blue/yellow as primary differentiators." |}
  | achromatopsia =>
      {| themes := ["High Contrast"; "GitHub Light"; "Paper"];
         rationale := "Maximum luminance contrast between syntax elements is critical. Monochrome or near-monochrome themes with strong brightness differences." |}
  end.

(* ================================================================== *)
(** * The recommendation engine *)
(* ================================================================== *)

(** ** The working variables

    [calculateRecommendations] keeps its result in eight local variables
    ([fontSize], ..., [research]); a [Recommendation] holds them between
    rules.  The setters below are the assignments and the [push] calls. *)

Definition set_fontSize (d : Recommendation) (v : float) : Recommendation :=
  {| fontSize := v; lineHeight := lineHeight d; fontWeight := fontWeight d;
     cursorStyle := cursorStyle d; suggestedFonts := suggestedFonts d;
     suggestedThemes := suggestedThemes d; explanations := explanations d;
     research := research d |}.

Definition set_lineHeight (d : Recommendation) (v : float) : Recommendation :=
  {| fontSize := fontSize d; lineHeight := v; fontWeight := fontWeight d;
     cursorStyle := cursorStyle d; suggestedFonts := suggestedFonts d;
     suggestedThemes := suggestedThemes d; explanations := explanations d;
     research := research d |}.

Definition set_fontWeight (d : Recommendation) (v : float) : Recommendation :=
  {| fontSize := fontSize d; lineHeight := lineHeight d; fontWeight := v;
     cursorStyle := cursorStyle d; suggestedFonts := suggestedFonts d;
     suggestedThemes := suggestedThemes d; explanations := explanations d;
     research := research d |}.

Definition set_cursorStyle (d : Recommendation) (v : CursorStyle) : Recommendation :=
  {| fontSize := fontSize d; lineHeight := lineHeight d; fontWeight := fontWeight d;
     cursorStyle := v; suggestedFonts := suggestedFonts d;
     suggestedThemes := suggestedThemes d; explanations := explanations d;
     research := research d |}.

Definition set_suggestedFonts (d : Recommendation) (v : list string) : Recommendation :=
  {| fontSize := fontSize d; lineHeight := lineHeight d; fontWeight := fontWeight d;
     cursorStyle := cursorStyle d; suggestedFonts := v;
     suggestedThemes := suggestedThemes d; explanations := explanations d;
     research := research d |}.

Definition set_suggestedThemes (d : Recommendation) (v : list string) : Recommendation :=
  {| fontSize := fontSize d; lineHeight := lineHeight d; fontWeight := fontWeight d;
     cursorStyle := cursorStyle d; suggestedFonts := suggestedFonts d;
     suggestedThemes := v; explanations := explanations d;
     research := research d |}.

Definition push_explanation (d : Recommendation) (s : string) : Recommendation :=
  {| fontSize := fontSize d; lineHeight := lineHeight d; fontWeight := fontWeight d;
     cursorStyle := cursorStyle d; suggestedFonts := suggestedFonts d;
     suggestedThemes := suggestedThemes d; explanations := explanations d ++ [s];
     research := research d |}.

Definition push_research (d : Recommendation) (c : ResearchCitation) : Recommendation :=
  {| fontSize := fontSize d; lineHeight := lineHeight d; fontWeight := fontWeight d;
     cursorStyle := cursorStyle d; suggestedFonts := suggestedFonts d;
     suggestedThemes := suggestedThemes d; explanations := explanations d;
     research := research d ++ [c] |}.

(** The base values. *)
Definition initial : Recommendation :=
  {| fontSize := 16; lineHeight := 1.5; fontWeight := 400;
     cursorStyle := bar; suggestedFonts := []; suggestedThemes := [];
     explanations := []; research := [] |}.

(* ------------------------------------------------------------------ *)
(** ** Processing the prescription *)

(** What the prescription block leaves in [avgSphere],
    [hasSignificantAstigmatism] and [astigmatismAxis]. *)
Record Refraction := {
  avgSphere : float;
  hasSignificantAstigmatism : bool;
  astigmatismAxis : float
}.

Definition avgCylinder (p : Prescription) : float :=
  JS.Math_abs ((cylinder (rightEye p) + cylinder (leftEye p)) / 2).

Definition refraction (prescription : option Prescription) : Refraction :=
  match prescription with
  | None =>
      {| avgSphere := 0; hasSignificantAstigmatism := false;
         astigmatismAxis := 0 |}
  | Some p =>
      {| avgSphere := (sphere (rightEye p) + sphere (leftEye p)) / 2;
         hasSignificantAstigmatism := (0.5 <=? avgCylinder p)%float;
         astigmatismAxis := (axis (rightEye p) + axis (leftEye p)) / 2 |}
  end.

Definition set_myopia (c : VisualConditions) (v : bool) : VisualConditions :=
  {| myopia := v; hyperopia := hyperopia c; astigmatism := astigmatism c;
     eyeStrain := eyeStrain c; blurOrGhosting := blurOrGhosting c;
     lightSensitivity := lightSensitivity c;
     visualCrowding := visualCrowding c |}.

Definition set_hyperopia (c : VisualConditions) (v : bool) : VisualConditions :=
  {| myopia := myopia c; hyperopia := v; astigmatism := astigmatism c;
     eyeStrain := eyeStrain c; blurOrGhosting := blurOrGhosting c;
     lightSensitivity := lightSensitivity c;
     visualCrowding := visualCrowding c |}.

Definition set_astigmatism (c : VisualConditions) (v : bool) : VisualConditions :=
  {| myopia := myopia c; hyperopia := hyperopia c; astigmatism := v;
     eyeStrain := eyeStrain c; blurOrGhosting := blurOrGhosting c;
     lightSensitivity := lightSensitivity c;
     visualCrowding := visualCrowding c |}.

(** The writes to the caller's [conditions] object: the conditions as the
    caller sees them after the call. *)
Definition autoDetect (conditions : VisualConditions)
    (prescription : option Prescription) : VisualConditions :=
  match prescription with
  | None => conditions
  | Some p =>
      let r := refraction (Some p) in
      let c := conditions in
      let c := if (avgSphere r <? -0.5)%float && negb (myopia c)
               then set_myopia c true else c in
      let c := if (0.5 <? avgSphere r)%float && negb (hyperopia c)
               then set_hyperopia c true else c in
      let c := if hasSignificantAstigmatism r && negb (astigmatism c)
               then set_astigmatism c true else c in
      c
  end.

(* ------------------------------------------------------------------ *)
(** ** The rules, in the order of the source

    Each rule is one [if] block of [calculateRecommendations]; it reads the
    conditions as amended by [autoDetect] and the values kept from the
    prescription, and updates the working variables. *)

Definition MYOPIA_CITATION : ResearchCitation :=
  {| finding := "Font sizes below 16pt cause viewing distances under 33cm, associated with eye strain";
     source := "Wang K, et al. BMJ Open Ophthalmology";
     year := 2023 |}.

Definition rule_myopia (c : VisualConditions) (r : Refraction)
    (d : Recommendation) : Recommendation :=
  if myopia c then
    let d :=
      if (avgSphere r <=? -6)%float then
        push_explanation (set_fontSize d 20)
          ("High myopia (" ++ JS.toFixed (avgSphere r) 2
           ++ "D): Font size increased to 20px. "
           ++ "Research shows high myopes benefit from larger text to maintain comfortable viewing distance.")
      else if (avgSphere r <=? -3)%float then
        push_explanation (set_fontSize d 18)
          ("Moderate myopia (" ++ JS.toFixed (avgSphere r) 2
           ++ "D): Font size set to 18px for optimal acuity reserve.")
      else
        push_explanation (set_fontSize d 17)
          ("Mild myopia detected: Font size set to 17px, exceeding the 16pt minimum "
           ++ "recommended by Peking University research for maintaining >33cm viewing distance.") in
    let d := set_cursorStyle d block in
    let d := push_explanation d
          ("Block cursor recommended: Higher visibility helps with line tracking, "
           ++ "particularly beneficial for myopic users who may have reduced contrast sensitivity.") in
    push_research d MYOPIA_CITATION
  else d.

Definition rule_hyperopia (c : VisualConditions) (r : Refraction)
    (d : Recommendation) : Recommendation :=
  if hyperopia c then
    let d := set_fontSize d (JS.Math_max (fontSize d) 17) in
    let d := set_lineHeight d (JS.Math_max (lineHeight d) 1.6) in
    push_explanation d
      "Hyperopia detected: Increased font size and line height reduce accommodation demand for near work."
  else d.

Definition WITH_THE_RULE_NOTE : string :=
  " Your with-the-rule astigmatism (horizontal axis) causes less degradation for Roman letters.".

Definition AGAINST_THE_RULE_NOTE : string :=
  " Against-the-rule astigmatism may cause more difficulty with vertical letter strokes.".

Definition OBLIQUE_NOTE : string :=
  " Oblique astigmatism can cause the most letter recognition difficulty.".

Definition axisNote (astigmatismAxis : float) : string :=
  if ((160 <=? astigmatismAxis)%float || (astigmatismAxis <=? 20)%float)%bool then
    WITH_THE_RULE_NOTE
  else if ((70 <=? astigmatismAxis)%float && (astigmatismAxis <=? 110)%float)%bool then
    AGAINST_THE_RULE_NOTE
  else
    OBLIQUE_NOTE.

Definition astigmatism_explanation (note : string) : string :=
  "Astigmatism: Line height increased to 1.6× to reduce line-to-line blur."
  ++ note ++ " "
  ++ "Fonts with clear letterforms and wider spacing recommended.".

Definition ASTIGMATISM_CITATION_1 : ResearchCitation :=
  {| finding := "Astigmatic blur interacts with typography - letter shape and axis orientation affect readability";
     source := "PMC6181807 - Astigmatic axis and visual acuity";
     year := 2018 |}.

Definition ASTIGMATISM_CITATION_2 : ResearchCitation :=
  {| finding := "0.5-1.0D uncorrected astigmatism significantly increases digital eye strain symptoms";
     source := "Rosenfield M. Ophthalmic and Physiological Optics";
     year := 2016 |}.

Definition rule_astigmatism (c : VisualConditions) (r : Refraction)
    (d : Recommendation) : Recommendation :=
  if astigmatism c then
    let d := set_lineHeight d (JS.Math_max (lineHeight d) 1.6) in
    let d := set_suggestedFonts d ASTIGMATISM_FRIENDLY_FONTS in
    let d := push_explanation d
               (astigmatism_explanation (axisNote (astigmatismAxis r))) in
    let d := push_research d ASTIGMATISM_CITATION_1 in
    push_research d ASTIGMATISM_CITATION_2
  else d.

Definition EYE_STRAIN_CITATION : ResearchCitation :=
  {| finding := "Larger font sizes significantly reduce accommodation lag and improve eye function";
     source := "Nanotechnology Perceptions - Font Size and Accommodation";
     year := 2024 |}.

Definition rule_eyeStrain (c : VisualConditions) (r : Refraction)
    (d : Recommendation) : Recommendation :=
  if eyeStrain c then
    let d := set_fontSize d (JS.Math_max (fontSize d) (fontSize d + 1)) in
    let d := set_lineHeight d (JS.Math_max (lineHeight d) 1.6) in
    let d := push_explanation d
          ("Eye strain: Larger font sizes reduce accommodation lag, a primary cause of eye strain. "
           ++ "Research shows accommodation lag is worse with smaller fonts.") in
    push_research d EYE_STRAIN_CITATION
  else d.

Definition rule_blurOrGhosting (c : VisualConditions) (r : Refraction)
    (d : Recommendation) : Recommendation :=
  if blurOrGhosting c then
    let d := set_fontSize d (JS.Math_max (fontSize d) (fontSize d + 1)) in
    let d := set_cursorStyle d block in
    if negb (lightSensitivity c) then
      let d := set_fontWeight d 500 in
      push_explanation d
          ("Blur/ghosting: Font weight increased to 500 (medium) for better edge definition. "
           ++ "Block cursor provides clearer position indicator.")
    else
      push_explanation d
          ("Blur/ghosting with light sensitivity: Font weight kept at 400 to avoid "
           ++ "increased brightness from heavier strokes. Block cursor still recommended.")
  else d.

Definition rule_lightSensitivity (c : VisualConditions) (r : Refraction)
    (d : Recommendation) : Recommendation :=
  if lightSensitivity c then
    let d := set_fontWeight d 400 in
    push_explanation d
          ("Light sensitivity: Font weight capped at 400 (regular). Heavier weights "
           ++ "increase perceived brightness and can worsen symptoms.")
  else d.

Definition CROWDING_CITATION : ResearchCitation :=
  {| finding := "Increased line spacing reduces crowding effects and improves reading in peripheral vision";
     source := "Chung STL. Optometry and Vision Science";
     year := 2004 |}.

Definition rule_visualCrowding (c : VisualConditions) (r : Refraction)
    (d : Recommendation) : Recommendation :=
  if visualCrowding c then
    let d := set_lineHeight d (JS.Math_max (lineHeight d) 1.7) in
    let d := if (List.length (suggestedFonts d) =? 0)%nat
             then set_suggestedFonts d (firstn 3 ASTIGMATISM_FRIENDLY_FONTS)
             else d in
    let d := push_explanation d
          ("Visual crowding: Line height increased to 1.7× to reduce interference between lines. "
           ++ "Fonts with wider default spacing recommended.") in
    push_research d CROWDING_CITATION
  else d.

Definition WCAG_CITATION : ResearchCitation :=
  {| finding := "Blue/orange palettes work well for red-green CVD as they rely on intact blue cone pathway";
     source := "WCAG 2.1 / Interaction Design Foundation";
     year := 2023 |}.

Definition rule_colorVision (colorVision : ColorVisionType)
    (d : Recommendation) : Recommendation :=
  match colorVision with
  | normal => d
  | _ =>
      let colorConfig := COLOR_VISION_THEMES colorVision in
      let d := set_suggestedThemes d (themes colorConfig) in
      let d := push_explanation d
                 ("Color vision (" ++ ColorVisionType_text colorVision ++ "): "
                  ++ rationale colorConfig) in
      push_research d WCAG_CITATION
  end.

Definition rule_currentSettings (currentSettings : option CurrentSettings.t)
    (d : Recommendation) : Recommendation :=
  match currentSettings with
  | Some cs =>
      if (CurrentSettings.fontSize cs <? fontSize d)%float then
        push_explanation d
          ("Your current font size ("
           ++ JS.String_of_number (CurrentSettings.fontSize cs)
           ++ "px) is below the recommended "
           ++ JS.String_of_number (fontSize d)
           ++ "px for your conditions. The 3:1 acuity reserve principle suggests "
           ++ "text should be at least 3× larger than your barely-readable threshold for maximum reading speed.")
      else d
  | None => d
  end.

Definition LINE_HEIGHT_CITATION : ResearchCitation :=
  {| finding := "Reading speed and accuracy peak at 1.2-1.5× line height; eye strain reduced at 1.5×+";
     source := "Nielsen Norman Group / Journal of Experimental Psychology";
     year := 2023 |}.

Definition REMINDER : string :=
  "Remember the 20-20-20 rule: Every 20 minutes, look at something 20 feet away for 20 seconds. "
  ++ "Research shows 30-40 minutes of continuous near work without breaks increases eye strain risk.".

Definition rule_always (d : Recommendation) : Recommendation :=
  push_explanation (push_research d LINE_HEIGHT_CITATION) REMINDER.

(** The [return] statement: the two roundings. *)
Definition finish (d : Recommendation) : Recommendation :=
  {| fontSize := JS.Math_round (fontSize d);
     lineHeight := JS.Math_round (lineHeight d * 10) / 10;
     fontWeight := fontWeight d;
     cursorStyle := cursorStyle d;
     suggestedFonts := suggestedFonts d;
     suggestedThemes := suggestedThemes d;
     explanations := explanations d;
     research := research d |}.

(* ------------------------------------------------------------------ *)
(** ** [calculateRecommendations] *)

(** The rule sequence as a list, for statements about every step of it. *)
Definition rules (c : VisualConditions) (r : Refraction)
    (colorVision : ColorVisionType)
    (currentSettings : option CurrentSettings.t)
  : list (Recommendation -> Recommendation) :=
  [ rule_myopia c r;
    rule_hyperopia c r;
    rule_astigmatism c r;
    rule_eyeStrain c r;
    rule_blurOrGhosting c r;
    rule_lightSensitivity c r;
    rule_visualCrowding c r;
    rule_colorVision colorVision;
    rule_currentSettings currentSettings;
    rule_always ].

(** The working variables after the whole rule sequence, before rounding. *)
Definition draft (conditions : VisualConditions)
    (colorVision : ColorVisionType)
    (prescription : option Prescription)
    (currentSettings : option CurrentSettings.t) : Recommendation :=
  let r := refraction prescription in
  let c := autoDetect conditions prescription in
  let d := initial in
  let d := rule_myopia c r d in
  let d := rule_hyperopia c r d in
  let d := rule_astigmatism c r d in
  let d := rule_eyeStrain c r d in
  let d := rule_blurOrGhosting c r d in
  let d := rule_lightSensitivity c r d in
  let d := rule_visualCrowding c r d in
  let d := rule_colorVision colorVision d in
  let d := rule_currentSettings currentSettings d in
  rule_always d.

(** The call: the conditions as the caller finds them afterwards, and the
    returned recommendation. *)
Definition calculateRecommendations (conditions : VisualConditions)
    (colorVision : ColorVisionType)
    (prescription : option Prescription)
    (currentSettings : option CurrentSettings.t)
  : VisualConditions * Recommendation :=
  (autoDetect conditions prescription,
   finish (draft conditions colorVision prescription currentSettings)).

(** The states the working variables go through: before the first rule and
    after each rule. *)
Fixpoint trace (steps : list (Recommendation -> Recommendation))
    (d : Recommendation) : list Recommendation :=
  match steps with
  | [] => [d]
  | f :: steps' => d :: trace steps' (f d)
  end.

(* ================================================================== *)
(** * JSON.stringify *)
(* ================================================================== *)

Module JSON.

(** The values [generateEditorConfig] hands to [JSON.stringify]: numbers,
    strings, [undefined] and object literals, whose members keep the order
    in which they were written. *)
Inductive value :=
  | Undefined
  | Num (x : float)
  | Str (s : string)
  | Obj (members : list (string * value)).

Definition nl : string := String "010" EmptyString.
Definition dquote : string := String "034" EmptyString.

Definition hex_digit (n : N) : ascii :=
  if (n <? 10)%N then ascii_of_N (48 + n) else ascii_of_N (87 + n).

(** QuoteJSONString, one byte at a time. *)
Definition escape_char (c : ascii) : string :=
  let n := N_of_ascii c in
  if (n =? 8)%N then "\b"
  else if (n =? 9)%N then "\t"
  else if (n =? 10)%N then "\n"
  else if (n =? 12)%N then "\f"
  else if (n =? 13)%N then "\r"
  else if (n =? 34)%N then "\" ++ dquote
  else if (n =? 92)%N then "\\"
  else if (n <? 32)%N then
    "\u00" ++ String (hex_digit (n / 16)) (String (hex_digit (n mod 16)) EmptyString)
  else String c EmptyString.

Fixpoint escape (s : string) : string :=
  match s with
  | EmptyString => EmptyString
  | String c s' => escape_char c ++ escape s'
  end.

Definition quote (s : string) : string := dquote ++ escape s ++ dquote.

Fixpoint join (sep : string) (l : list string) : string :=
  match l with
  | [] => EmptyString
  | [x] => x
  | x :: l' => x ++ sep ++ join sep l'
  end.

(** A number in JSON text: [null] for NaN and the infinities. *)
Definition number_text (x : float) : string :=
  if is_finite x then JS.Number_toString x else "null".

(** SerializeJSONProperty with a gap of two spaces; [None] is [undefined]. *)
Fixpoint serialize (indent : string) (v : value) : option string :=
  match v with
  | Undefined => None
  | Num x => Some (number_text x)
  | Str s => Some (quote s)
  | Obj members =>
      let stepback := indent in
      let indent := indent ++ "  " in
      let partial :=
        (fix properties (ms : list (string * value)) : list string :=
           match ms with
           | [] => []
           | (k, v') :: ms' =>
               match serialize indent v' with
               | Some str => (quote k ++ ": " ++ str) :: properties ms'
               | None => properties ms'
               end
           end) members in
      match partial with
      | [] => Some "{}"
      | _ => Some ("{" ++ nl ++ indent ++ join ("," ++ nl ++ indent) partial
                   ++ nl ++ stepback ++ "}")
      end
  end.

(** [JSON.stringify(v, null, 2)] of an object literal. *)
Definition stringify (v : value) : string :=
  match serialize EmptyString v with
  | Some s => s
  | None => EmptyString
  end.

(** The keys that appear in the text of an object. *)
Fixpoint keys (ms : list (string * value)) : list string :=
  match ms with
  | [] => []
  | (_, Undefined) :: ms' => keys ms'
  | (k, _) :: ms' => k :: keys ms'
  end.

End JSON.

(* ================================================================== *)
(** * The config serializer *)
(* ================================================================== *)

(** A string is truthy when it is not empty. *)
Definition truthy (s : string) : bool :=
  match s with
  | EmptyString => false
  | String _ _ => true
  end.

(** [a[0]]: [undefined] on an empty array. *)
Definition first (a : list string) : option string := hd_error a.

(** [suggestedFonts[0] || 'JetBrains Mono']. *)
Definition font_of (r : Recommendation) : string :=
  match first (suggestedFonts r) with
  | Some f => if truthy f then f else "JetBrains Mono"
  | None => "JetBrains Mono"
  end.

(** [suggestedThemes[0]]. *)
Definition theme_of (r : Recommendation) : option string :=
  first (suggestedThemes r).

(** [...(theme && { key: text })]: one member when [theme] is truthy. *)
Definition spread_theme (theme : option string) (key : string)
    (text : string -> string) : list (string * JSON.value) :=
  match theme with
  | Some t => if truthy t then [(key, JSON.Str (text t))] else []
  | None => []
  end.

(** [theme ? text : ''] inside a template literal. *)
Definition theme_line (theme : option string) (text : string -> string) : string :=
  match theme with
  | Some t => if truthy t then text t else EmptyString
  | None => EmptyString
  end.

Definition lower_char (c : ascii) : ascii :=
  let n := N_of_ascii c in
  if ((65 <=? n) && (n <=? 90))%N%bool then ascii_of_N (n + 32) else c.

Fixpoint toLowerCase (s : string) : string :=
  match s with
  | EmptyString => EmptyString
  | String c s' => String (lower_char c) (toLowerCase s')
  end.

Definition is_space (c : ascii) : bool :=
  let n := N_of_ascii c in
  ((n =? 32) || ((9 <=? n) && (n <=? 13)))%N%bool.

(** [s.replace(/\s+/g, '-')]: every run of white space becomes one hyphen.
    [in_run] says that the previous character was white space. *)
Fixpoint hyphenate (in_run : bool) (s : string) : string :=
  match s with
  | EmptyString => EmptyString
  | String c s' =>
      if is_space c then
        if in_run then hyphenate true s' else String "-" (hyphenate true s')
      else String c (hyphenate false s')
  end.

Definition colorscheme_name (theme : string) : string :=
  hyphenate false (toLowerCase theme).

Definition vscode_object (r : Recommendation) : JSON.value :=
  JSON.Obj
    ([ ("editor.fontSize", JSON.Num (fontSize r));
       ("editor.lineHeight", JSON.Num (lineHeight r));
       ("editor.fontWeight", JSON.Str (JS.String_of_number (fontWeight r)));
       ("editor.cursorStyle", JSON.Str (CursorStyle_text (cursorStyle r)));
       ("editor.fontFamily",
        JSON.Str ("'" ++ font_of r ++ "', 'Fira Code', Consolas, monospace")) ]
     ++ spread_theme (theme_of r) "workbench.colorTheme" (fun t => t)).

Definition zed_object (r : Recommendation) : JSON.value :=
  JSON.Obj
    ([ ("buffer_font_size", JSON.Num (fontSize r));
       ("buffer_line_height", JSON.Obj [("custom", JSON.Num (lineHeight r))]);
       ("buffer_font_weight", JSON.Num (fontWeight r));
       ("cursor_shape", JSON.Str (CursorStyle_text (cursorStyle r)));
       ("buffer_font_family", JSON.Str (font_of r)) ]
     ++ spread_theme (theme_of r) "theme" (fun t => t)).

Definition line_padding (r : Recommendation) : float :=
  JS.Math_round ((lineHeight r - 1) * fontSize r / 2).

Definition sublime_object (r : Recommendation) : JSON.value :=
  JSON.Obj
    ([ ("font_face", JSON.Str (font_of r));
       ("font_size", JSON.Num (fontSize r));
       ("line_padding_top", JSON.Num (line_padding r));
       ("line_padding_bottom", JSON.Num (line_padding r));
       ("caret_style",
        JSON.Str (match cursorStyle r with block => "solid" | _ => "smooth" end)) ]
     ++ spread_theme (theme_of r) "color_scheme"
          (fun t => "Packages/Theme/" ++ t ++ ".tmTheme")).

Definition generic_object (r : Recommendation) : JSON.value :=
  JSON.Obj
    [ ("fontSize", JSON.Num (fontSize r));
      ("lineHeight", JSON.Num (lineHeight r));
      ("fontWeight", JSON.Num (fontWeight r));
      ("cursorStyle", JSON.Str (CursorStyle_text (cursorStyle r)));
      ("font", JSON.Str (font_of r));
      ("theme", match theme_of r with
                | Some t => JSON.Str t
                | None => JSON.Undefined
                end) ].

Definition neovim_text (r : Recommendation) : string :=
  "-- Vision-optimized settings" ++ JSON.nl
  ++ "vim.opt.guifont = " ++ JSON.dquote ++ font_of r ++ ":h"
  ++ JS.String_of_number (fontSize r) ++ JSON.dquote ++ JSON.nl
  ++ "vim.opt.linespace = "
  ++ JS.String_of_number (JS.Math_round ((lineHeight r - 1) * fontSize r))
  ++ JSON.nl
  ++ "vim.opt.guicursor = " ++ JSON.dquote ++ "n-v-c:"
  ++ match cursorStyle r with
     | bar => "ver25"
     | c => CursorStyle_text c
     end
  ++ JSON.dquote ++ JSON.nl
  ++ theme_line (theme_of r)
       (fun t => "vim.cmd(" ++ JSON.dquote ++ "colorscheme "
                 ++ colorscheme_name t ++ JSON.dquote ++ ")").

Definition jetbrains_text (r : Recommendation) : string :=
  "// JetBrains IDE Settings" ++ JSON.nl
  ++ "// Settings → Editor → Font" ++ JSON.nl
  ++ "Font: " ++ font_of r ++ JSON.nl
  ++ "Size: " ++ JS.String_of_number (fontSize r) ++ JSON.nl
  ++ "Line spacing: " ++ JS.String_of_number (lineHeight r) ++ JSON.nl
  ++ "// Settings → Editor → Color Scheme" ++ JSON.nl
  ++ theme_line (theme_of r) (fun t => "Theme: " ++ t).

(** [generateEditorConfig]; [editor] is the identifier as the [switch]
    receives it, any string. *)
Definition generateEditorConfig (recommendation : Recommendation)
    (editor : string) : string :=
  if String.eqb editor "vscode" then
    JSON.stringify (vscode_object recommendation)
  else if String.eqb editor "zed" then
    JSON.stringify (zed_object recommendation)
  else if String.eqb editor "neovim" then
    neovim_text recommendation
  else if String.eqb editor "jetbrains" then
    jetbrains_text recommendation
  else if String.eqb editor "sublime" then
    JSON.stringify (sublime_object recommendation)
  else
    JSON.stringify (generic_object recommendation).

(* ================================================================== *)
(** * The summary line *)
(* ================================================================== *)

(** [getRecommendationSummary]: the four settings in one template
    literal. *)
Definition getRecommendationSummary (recommendation : Recommendation)
  : string :=
  "Font: " ++ JS.String_of_number (fontSize recommendation)
  ++ "px | Line Height: " ++ JS.String_of_number (lineHeight recommendation)
  ++ " | Weight: " ++ JS.String_of_number (fontWeight recommendation)
  ++ " | Cursor: " ++ CursorStyle_text (cursorStyle recommendation).

(* ================================================================== *)
(** * The calibrator form, caller of the engine *)
(* ================================================================== *)

(** The [Calibrator] component keeps the conditions and six prescription
    texts as state and calls the engine with them.  Modelled here are the
    state updates that decide what the engine receives: [toggleCondition],
    the [parsedPrescription] memo and the conditions [handleGenerate]
    stores.  [parseFloat] itself is not modelled: the six numbers it
    returns for the six texts are the input ([NaN] for a text with no
    number in front). *)

(** [keyof VisualConditions]. *)
Inductive ConditionKey :=
  | key_myopia
  | key_hyperopia
  | key_astigmatism
  | key_eyeStrain
  | key_blurOrGhosting
  | key_lightSensitivity
  | key_visualCrowding.

(** [prev[key]]. *)
Definition get_condition (c : VisualConditions) (key : ConditionKey) : bool :=
  match key with
  | key_myopia => myopia c
  | key_hyperopia => hyperopia c
  | key_astigmatism => astigmatism c
  | key_eyeStrain => eyeStrain c
  | key_blurOrGhosting => blurOrGhosting c
  | key_lightSensitivity => lightSensitivity c
  | key_visualCrowding => visualCrowding c
  end.

(** [{ ...prev, [key]: v }]. *)
Definition set_condition (c : VisualConditions) (key : ConditionKey)
    (v : bool) : VisualConditions :=
  {| myopia := match key with key_myopia => v | _ => myopia c end;
     hyperopia := match key with key_hyperopia => v | _ => hyperopia c end;
     astigmatism :=
       match key with key_astigmatism => v | _ => astigmatism c end;
     eyeStrain := match key with key_eyeStrain => v | _ => eyeStrain c end;
     blurOrGhosting :=
       match key with key_blurOrGhosting => v | _ => blurOrGhosting c end;
     lightSensitivity :=
       match key with key_lightSensitivity => v | _ => lightSensitivity c end;
     visualCrowding :=
       match key with key_visualCrowding => v | _ => visualCrowding c end |}.

(** The updater [toggleCondition] hands to [setConditions]. *)
Definition toggleCondition (key : ConditionKey) (prev : VisualConditions)
  : VisualConditions :=
  set_condition prev key (negb (get_condition prev key)).

(** ToBoolean of a number: false for NaN, 0 and -0. *)
Definition ToBoolean (x : float) : bool :=
  negb (is_nan x || (x =? 0)%float).

(** [x || y] on numbers. *)
Definition or_else (x y : float) : float := if ToBoolean x then x else y.

(** What [parseFloat] returned for the right and left sphere, cylinder and
    axis texts. *)
Record ParsedFields := {
  rs : float;
  rc : float;
  ra : float;
  ls : float;
  lc : float;
  la : float
}.

(** The [parsedPrescription] memo: [None] is [undefined]. *)
Definition parsedPrescription (f : ParsedFields) : option Prescription :=
  if is_nan (rs f) && is_nan (ls f) then None
  else
    Some {| rightEye := {| sphere := or_else (rs f) 0;
                           cylinder := or_else (rc f) 0;
                           axis := or_else (ra f) 0 |};
            leftEye := {| sphere := or_else (ls f) 0;
                          cylinder := or_else (lc f) 0;
                          axis := or_else (la f) 0 |} |}.

(** The conditions [handleGenerate] hands to [setConditions]. *)
Definition handleGenerate (conditions : VisualConditions) (f : ParsedFields)
  : VisualConditions :=
  let rightSph := or_else (rs f) 0 in
  let leftSph := or_else (ls f) 0 in
  let avgSphere := ((rightSph + leftSph) / 2)%float in
  let rightAxis := or_else (ra f) 0 in
  let leftAxis := or_else (la f) 0 in
  let rightCyl := or_else (rc f) 0 in
  let leftCyl := or_else (lc f) 0 in
  let newConditions := conditions in
  let newConditions :=
    if (avgSphere <? -0.5)%float && negb (myopia conditions)
    then set_myopia newConditions true else newConditions in
  let newConditions :=
    if (0.5 <? avgSphere)%float && negb (hyperopia conditions)
    then set_hyperopia newConditions true else newConditions in
  let newConditions :=
    if ((0 <? rightAxis)%float || (0 <? leftAxis)%float
        || negb (rightCyl =? 0)%float || negb (leftCyl =? 0)%float)
       && negb (astigmatism conditions)
    then set_astigmatism newConditions true else newConditions in
  newConditions.

(** The [recommendations] memo: the engine on the form's state; the form
    always hands over its current settings. *)
Definition recommendations (conditions : VisualConditions)
    (colorVision : ColorVisionType) (f : ParsedFields)
    (currentSettings : CurrentSettings.t)
  : VisualConditions * Recommendation :=
  calculateRecommendations conditions colorVision (parsedPrescription f)
    (Some currentSettings).

(* ================================================================== *)
(** * Reading a configuration back *)
(* ================================================================== *)

(** The source has no parser.  The readers of this module are the parse
    functions of the round-trip properties: they read the four settings
    back from the text written for vscode, for zed and for an unknown
    editor, and from the summary line. *)

Module Read.

(** ** Decimal text to binary64 *)

Definition is_digit (c : ascii) : bool :=
  let n := N_of_ascii c in ((48 <=? n) && (n <=? 57))%N%bool.

(** The characters of a number's text. *)
Definition is_number_char (c : ascii) : bool :=
  is_digit c
  || Ascii.eqb c "." || Ascii.eqb c "e" || Ascii.eqb c "E"
  || Ascii.eqb c "+" || Ascii.eqb c "-".

(** The longest prefix of [s] whose characters satisfy [p], and the rest. *)
Fixpoint span (p : ascii -> bool) (s : string) : string * string :=
  match s with
  | String c s' =>
      if p c then let '(a, b) := span p s' in (String c a, b)
      else (EmptyString, s)
  | EmptyString => (EmptyString, EmptyString)
  end.

(** Every character of [s] satisfies [p]. *)
Fixpoint all (p : ascii -> bool) (s : string) : bool :=
  match s with
  | String c s' => p c && all p s'
  | EmptyString => true
  end.

(** The value of a string of digits, read after [acc]. *)
Fixpoint digits_value (s : string) (acc : Z) : Z :=
  match s with
  | String c s' => digits_value s' (10 * acc + (Z.of_N (N_of_ascii c) - 48))
  | EmptyString => acc
  end.

(** The numerator and denominator of [s * 10^q]. *)
Definition num (s q : Z) : Z := (s * 10 ^ Z.max q 0)%Z.
Definition den (q : Z) : Z := (10 ^ Z.max (- q) 0)%Z.

(** [floor (log2 (n / d))], for [0 < n] and [0 < d]. *)
Definition floor_log2 (n d : Z) : Z :=
  let l0 := (Z.log2 n - Z.log2 d)%Z in
  if (n * 2 ^ Z.max (- l0) 0 <? d * 2 ^ Z.max l0 0)%Z
  then (l0 - 1)%Z else l0.

(** The float [m * 2^e] (an infinity past the largest exponent, a zero for
    [m = 0]), if [s * 10^q] rounds to it. *)
Definition pack (neg : bool) (s q m e : Z) : option float :=
  let '(m, e) := if (m =? 2 ^ 53)%Z then (2 ^ 52, e + 1)%Z else (m, e) in
  match m with
  | Z.pos p =>
      if JS.rounds_to p e s q then
        Some (if (971 <? e)%Z then (if neg then neg_infinity else infinity)
              else SF2Prim (S754_finite neg p e))
      else None
  | _ =>
      match JS.cmp_dec_bin s q 1 (-1075) with
      | Gt => None
      | _ => Some (if neg then neg_zero else zero)
      end
  end.

(** The float nearest to [s * 10^q] (ties to even), for [0 < s]: one of the
    two floats around it. *)
Definition nearest (neg : bool) (s q : Z) : float :=
  let n := num s q in
  let d := den q in
  let e0 := Z.max (floor_log2 n d - 52) (-1074) in
  let m0 := (n * 2 ^ Z.max (- e0) 0 / (d * 2 ^ Z.max e0 0))%Z in
  match pack neg s q m0 e0 with
  | Some x => x
  | None =>
      match pack neg s q (m0 + 1)%Z e0 with
      | Some x => x
      | None => nan
      end
  end.

Definition read_sign (text : string) : bool * string :=
  match text with
  | String "-" t => (true, t)
  | _ => (false, text)
  end.

(** The digits after a point, when there is a point. *)
Definition read_fraction (rest : string) : option (string * string) :=
  match rest with
  | String "." t =>
      let '(f, rest') := span is_digit t in
      match f with
      | EmptyString => None
      | _ => Some (f, rest')
      end
  | _ => Some (EmptyString, rest)
  end.

(** The exponent part, up to the end of the text. *)
Definition read_exponent (rest : string) : option Z :=
  match rest with
  | EmptyString => Some 0%Z
  | String c t =>
      if (Ascii.eqb c "e" || Ascii.eqb c "E")%bool then
        let '(eneg, t) :=
          match t with
          | String "-" t' => (true, t')
          | String "+" t' => (false, t')
          | _ => (false, t)
          end in
        let '(ds, rest') := span is_digit t in
        match ds, rest' with
        | String _ _, EmptyString =>
            Some (if eneg then (- digits_value ds 0)%Z
                  else digits_value ds 0)
        | _, _ => None
        end
      else None
  end.

Definition read_unsigned (neg : bool) (text : string) : option float :=
  let '(int, rest) := span is_digit text in
  match int with
  | EmptyString => None
  | _ =>
      match read_fraction rest with
      | None => None
      | Some (frac, rest) =>
          match read_exponent rest with
          | None => None
          | Some ex =>
              let s := digits_value (int ++ frac) 0 in
              let q := (ex - Z.of_nat (String.length frac))%Z in
              if (s =? 0)%Z then Some (if neg then neg_zero else zero)
              else Some (nearest neg s q)
          end
      end
  end.

(** A JSON number: [-? digits (. digits)? ([eE] [+-]? digits)?]. *)
Definition read_number (text : string) : option float :=
  let '(neg, t) := read_sign text in read_unsigned neg t.

(** ** Readers: a string in, a value and the rest of the string out *)

Definition reader (A : Type) : Type := string -> option (A * string).

Definition ret {A : Type} (a : A) : reader A := fun s => Some (a, s).

Definition fail {A : Type} : reader A := fun _ => None.

Definition bind {A B : Type} (m : reader A) (k : A -> reader B) : reader B :=
  fun s =>
    match m s with
    | Some (a, s') => k a s'
    | None => None
    end.

Notation "x <- m ;; k" := (bind m (fun x => k))
  (at level 61, m at next level, right associativity).
Notation "m ;;; k" := (bind m (fun _ => k))
  (at level 61, right associativity).

(** The text starts with [p]. *)
Fixpoint expect (p : string) : reader unit :=
  fun s =>
    match p with
    | EmptyString => Some (tt, s)
    | String c p' =>
        match s with
        | String c' s' => if Ascii.eqb c c' then expect p' s' else None
        | EmptyString => None
        end
    end.

Definition token (p : ascii -> bool) : reader string :=
  fun s => Some (span p s).

Definition number : reader float :=
  t <- token is_number_char ;;
  match read_number t with
  | Some x => ret x
  | None => fail
  end.

Definition is_lower (c : ascii) : bool :=
  let n := N_of_ascii c in ((97 <=? n) && (n <=? 122))%N%bool.

Definition cursor : reader CursorStyle :=
  t <- token is_lower ;;
  if String.eqb t "bar" then ret bar
  else if String.eqb t "block" then ret block
  else if String.eqb t "underline" then ret underline
  else fail.

(** [{], a member's key, the comma between members, a quoted value. *)
Definition open_object (indent : string) : reader unit :=
  expect ("{" ++ JSON.nl ++ indent).

Definition key (k : string) : reader unit :=
  expect (JSON.quote k ++ ": ").

Definition next_member (indent : string) : reader unit :=
  expect ("," ++ JSON.nl ++ indent).

Definition quoted {A : Type} (m : reader A) : reader A :=
  expect JSON.dquote ;;; x <- m ;; expect JSON.dquote ;;; ret x.

Definition Settings : Type := float * float * float * CursorStyle.

(** The first four members of the vscode object. *)
Definition vscode : reader Settings :=
  open_object "  " ;;;
  key "editor.fontSize" ;;; size <- number ;;
  next_member "  " ;;;
  key "editor.lineHeight" ;;; height <- number ;;
  next_member "  " ;;;
  key "editor.fontWeight" ;;; weight <- quoted number ;;
  next_member "  " ;;;
  key "editor.cursorStyle" ;;; style <- quoted cursor ;;
  ret (size, height, weight, style).

(** The first four members of the zed object. *)
Definition zed : reader Settings :=
  open_object "  " ;;;
  key "buffer_font_size" ;;; size <- number ;;
  next_member "  " ;;;
  key "buffer_line_height" ;;;
  open_object "    " ;;;
  key "custom" ;;; height <- number ;;
  expect (JSON.nl ++ "  }") ;;;
  next_member "  " ;;;
  key "buffer_font_weight" ;;; weight <- number ;;
  next_member "  " ;;;
  key "cursor_shape" ;;; style <- quoted cursor ;;
  ret (size, height, weight, style).

(** The first four members of the object written for an unknown editor. *)
Definition generic : reader Settings :=
  open_object "  " ;;;
  key "fontSize" ;;; size <- number ;;
  next_member "  " ;;;
  key "lineHeight" ;;; height <- number ;;
  next_member "  " ;;;
  key "fontWeight" ;;; weight <- number ;;
  next_member "  " ;;;
  key "cursorStyle" ;;; style <- quoted cursor ;;
  ret (size, height, weight, style).

(** The summary line. *)
Definition summary : reader Settings :=
  expect "Font: " ;;; size <- number ;;
  expect "px | Line Height: " ;;; height <- number ;;
  expect " | Weight: " ;;; weight <- number ;;
  expect " | Cursor: " ;;; style <- cursor ;;
  ret (size, height, weight, style).

Definition parse {A : Type} (m : reader A) (text : string) : option A :=
  option_map fst (m text).

End Read.

(** The four settings of a recommendation. *)
Definition settings (r : Recommendation) : Read.Settings :=
  (fontSize r, lineHeight r, fontWeight r, cursorStyle r).

(** A number survives its decimal text: it is finite, and its text reads
    back as the same number. *)
Definition survives_text (x : float) : Prop :=
  is_finite x = true
  /\ Read.all Read.is_number_char (JS.Number_toString x) = true
  /\ Read.read_number (JS.Number_toString x) = Some x.

(** Some reader gives the four settings back from the text written for
    [editor], for every recommendation that satisfies [P]. *)
Definition round_trip_on (P : Recommendation -> Prop) (editor : string) : Prop :=
  exists parse : string -> option Read.Settings,
    forall r, P r -> parse (generateEditorConfig r editor) = Some (settings r).

(** [rest] does not go on with a character that satisfies [p]. *)
Definition stops (p : ascii -> bool) (rest : string) : Prop :=
  match rest with
  | String c _ => p c = false
  | EmptyString => True
  end.

(* ================================================================== *)
(** * Definitions for the statements *)
(* ================================================================== *)

(* ------------------------------------------------------------------ *)
(** ** The engine *)

(** No flag set. *)
Definition NO_CONDITIONS : VisualConditions :=
  {| myopia := false; hyperopia := false; astigmatism := false;
     eyeStrain := false; blurOrGhosting := false; lightSensitivity := false;
     visualCrowding := false |}.

(** Scenario B: both spheres -7, cylinders and axes 0. *)
Definition SCENARIO_B : Prescription :=
  {| rightEye := {| sphere := -7; cylinder := 0; axis := 0 |};
     leftEye := {| sphere := -7; cylinder := 0; axis := 0 |} |}.

(** Scenario C: astigmatism alone. *)
Definition ONLY_ASTIGMATISM : VisualConditions :=
  {| myopia := false; hyperopia := false; astigmatism := true;
     eyeStrain := false; blurOrGhosting := false; lightSensitivity := false;
     visualCrowding := false |}.

(** Blur or ghosting alone, and with light sensitivity. *)
Definition ONLY_BLUR : VisualConditions :=
  {| myopia := false; hyperopia := false; astigmatism := false;
     eyeStrain := false; blurOrGhosting := true; lightSensitivity := false;
     visualCrowding := false |}.

Definition BLUR_AND_LIGHT : VisualConditions :=
  {| myopia := false; hyperopia := false; astigmatism := false;
     eyeStrain := false; blurOrGhosting := true; lightSensitivity := true;
     visualCrowding := false |}.

(** The values the engine's numbers take. *)
Definition FONT_SIZES : list float := [16; 17; 18; 19; 20; 21; 22]%float.
Definition LINE_HEIGHTS : list float := [1.5; 1.6; 1.7]%float.
Definition FONT_WEIGHTS : list float := [400; 500]%float.

(** The working variables after the seven condition rules. *)
Definition after_conditions (c : VisualConditions) (r : Refraction)
  : Recommendation :=
  rule_visualCrowding c r
    (rule_lightSensitivity c r
       (rule_blurOrGhosting c r
          (rule_eyeStrain c r
             (rule_astigmatism c r
                (rule_hyperopia c r
                   (rule_myopia c r initial)))))).

(** [l] never decreases from one element to the next. *)
Fixpoint nondecreasing (l : list float) : bool :=
  match l with
  | x :: (y :: _) as l' => (x <=? y)%float && nondecreasing l'
  | _ => true
  end.

(** [d'] has the font size, line height, font weight, cursor and fonts of
    [d]. *)
Definition same_settings (d d' : Recommendation) : Prop :=
  fontSize d' = fontSize d /\ lineHeight d' = lineHeight d
  /\ fontWeight d' = fontWeight d /\ cursorStyle d' = cursorStyle d
  /\ suggestedFonts d' = suggestedFonts d.

(** The font size of the myopia rule, as the source tests the tiers. *)
Definition myopia_tier (avgSphere : float) : float :=
  if (avgSphere <=? -6)%float then 20
  else if (avgSphere <=? -3)%float then 18
  else 17.

(** Every rule keeps the line height among the three values it takes and
    never lowers it. *)
Definition raises_lineHeight (f : Recommendation -> Recommendation) : Prop :=
  forall d, In (lineHeight d) LINE_HEIGHTS ->
    In (lineHeight (f d)) LINE_HEIGHTS
    /\ (lineHeight d <=? lineHeight (f d))%float = true.

(* ------------------------------------------------------------------ *)
(** ** The serializer *)

(** The text of the optional theme member of an object. *)
Definition optional_member (theme : option string) (key : string)
    (text : string -> string) : string :=
  match theme with
  | Some t =>
      if truthy t
      then ("," ++ JSON.nl ++ "  ") ++ (JSON.quote key ++ ": ")
           ++ JSON.quote (text t)
      else EmptyString
  | None => EmptyString
  end.

(** The members of an object, and the value under a key. *)
Definition members (v : JSON.value) : list (string * JSON.value) :=
  match v with
  | JSON.Obj ms => ms
  | _ => []
  end.

Fixpoint lookup (k : string) (ms : list (string * JSON.value))
  : option JSON.value :=
  match ms with
  | [] => None
  | (k', v) :: ms' => if String.eqb k k' then Some v else lookup k ms'
  end.

(** The five editor identifiers of the [switch]. *)
Definition SUPPORTED_EDITORS : list string :=
  ["vscode"; "zed"; "neovim"; "jetbrains"; "sublime"].

(** [r] with no suggested theme. *)
Definition without_themes (r : Recommendation) : Recommendation :=
  set_suggestedThemes r [].

(** How the five outputs follow the suggested themes.  The vscode, zed and
    sublime texts are [JSON.stringify] of an object; with no suggested theme
    the objects have no theme key and the neovim and jetbrains texts no
    theme line; with a first entry [t] that satisfies [used], [t] is the
    theme written, after everything written without a theme. *)
Definition theme_follows (used : string -> Prop) : Prop :=
  forall r,
    (generateEditorConfig r "vscode" = JSON.stringify (vscode_object r)
     /\ generateEditorConfig r "zed" = JSON.stringify (zed_object r)
     /\ generateEditorConfig r "sublime" = JSON.stringify (sublime_object r))
    /\
    (suggestedThemes r = [] ->
       JSON.keys (members (vscode_object r))
       = ["editor.fontSize"; "editor.lineHeight"; "editor.fontWeight";
          "editor.cursorStyle"; "editor.fontFamily"]
       /\ JSON.keys (members (zed_object r))
          = ["buffer_font_size"; "buffer_line_height"; "buffer_font_weight";
             "cursor_shape"; "buffer_font_family"]
       /\ JSON.keys (members (sublime_object r))
          = ["font_face"; "font_size"; "line_padding_top";
             "line_padding_bottom"; "caret_style"]
       /\ generateEditorConfig r "neovim"
          = "-- Vision-optimized settings" ++ JSON.nl
            ++ "vim.opt.guifont = " ++ JSON.dquote ++ font_of r ++ ":h"
            ++ JS.String_of_number (fontSize r) ++ JSON.dquote ++ JSON.nl
            ++ "vim.opt.linespace = "
            ++ JS.String_of_number
                 (JS.Math_round ((lineHeight r - 1) * fontSize r))
            ++ JSON.nl
            ++ "vim.opt.guicursor = " ++ JSON.dquote ++ "n-v-c:"
            ++ match cursorStyle r with
               | bar => "ver25"
               | block => "block"
               | underline => "underline"
               end
            ++ JSON.dquote ++ JSON.nl
       /\ generateEditorConfig r "jetbrains"
          = "// JetBrains IDE Settings" ++ JSON.nl
            ++ "// Settings → Editor → Font" ++ JSON.nl
            ++ "Font: " ++ font_of r ++ JSON.nl
            ++ "Size: " ++ JS.String_of_number (fontSize r) ++ JSON.nl
            ++ "Line spacing: " ++ JS.String_of_number (lineHeight r)
            ++ JSON.nl
            ++ "// Settings → Editor → Color Scheme" ++ JSON.nl)
    /\ (forall t rest, suggestedThemes r = t :: rest -> used t ->
          members (vscode_object r)
          = (members (vscode_object (without_themes r))
             ++ [("workbench.colorTheme", JSON.Str t)])%list
          /\ members (zed_object r)
             = (members (zed_object (without_themes r))
                ++ [("theme", JSON.Str t)])%list
          /\ members (sublime_object r)
             = (members (sublime_object (without_themes r))
                ++ [("color_scheme",
                     JSON.Str ("Packages/Theme/" ++ t ++ ".tmTheme"))])%list
          /\ generateEditorConfig r "neovim"
             = generateEditorConfig (without_themes r) "neovim"
               ++ "vim.cmd(" ++ JSON.dquote ++ "colorscheme "
               ++ colorscheme_name t ++ JSON.dquote ++ ")"
          /\ generateEditorConfig r "jetbrains"
             = generateEditorConfig (without_themes r) "jetbrains"
               ++ "Theme: " ++ t).

(** A recommendation whose first suggested theme is the empty string. *)
Definition EMPTY_THEME_NAME : Recommendation :=
  {| fontSize := 16; lineHeight := 1.5; fontWeight := 400;
     cursorStyle := bar; suggestedFonts := [];
     suggestedThemes := [EmptyString]; explanations := []; research := [] |}.

(** For an identifier outside the five, the text is the generic dump, whose
    font is chosen from the suggested fonts by [font_rule] and whose theme
    is the first suggested theme, the key being left out when there is
    none. *)
Definition falls_back_to_dump (font_rule : list string -> string) : Prop :=
  forall r editor,
    ~ In editor SUPPORTED_EDITORS ->
    generateEditorConfig r editor
    = JSON.stringify
        (JSON.Obj
           [ ("fontSize", JSON.Num (fontSize r));
             ("lineHeight", JSON.Num (lineHeight r));
             ("fontWeight", JSON.Num (fontWeight r));
             ("cursorStyle", JSON.Str (CursorStyle_text (cursorStyle r)));
             ("font", JSON.Str (font_rule (suggestedFonts r)));
             ("theme", match suggestedThemes r with
                       | t :: _ => JSON.Str t
                       | [] => JSON.Undefined
                       end) ])
    /\ (suggestedThemes r = [] ->
        JSON.keys (members (generic_object r))
        = ["fontSize"; "lineHeight"; "fontWeight"; "cursorStyle"; "font"]).

(** The font as the claim has it: the first suggested font, the default
    when there is none. *)
Definition first_or_default (fonts : list string) : string :=
  match fonts with
  | f :: _ => f
  | [] => "JetBrains Mono"
  end.

(** The font as the source has it: the default also for an empty name. *)
Definition first_truthy_or_default (fonts : list string) : string :=
  match fonts with
  | f :: _ => if truthy f then f else "JetBrains Mono"
  | [] => "JetBrains Mono"
  end.

(** A recommendation whose first suggested font is the empty string. *)
Definition EMPTY_FONT_NAME : Recommendation :=
  {| fontSize := 16; lineHeight := 1.5; fontWeight := 400;
     cursorStyle := bar; suggestedFonts := [EmptyString];
     suggestedThemes := []; explanations := []; research := [] |}.

(* ------------------------------------------------------------------ *)
(** ** Numbers and their text *)

(** A finite number other than [-0]. *)
Definition plain (x : float) : Prop :=
  is_finite x = true /\ x <> neg_zero.

(** The three numbers of a recommendation are plain. *)
Definition plain_numbers (r : Recommendation) : Prop :=
  plain (fontSize r) /\ plain (lineHeight r) /\ plain (fontWeight r).

(** [2^b] in units of [2^-1076], for [-1076 <= b]. *)
Definition sc (b : Z) : Z := (2 ^ (b + 1076))%Z.

(** What [rounds_to] says, for [-1074 <= e]. *)
Definition in_interval (m : positive) (e s q : Z) : Prop :=
  let w := (Read.num s q * sc 0)%Z in
  let lo := if ((Z.pos m =? 2 ^ 52) && (-1074 <? e))%bool%Z
            then ((4 * Z.pos m - 1) * sc (e - 2) * Read.den q)%Z
            else ((2 * Z.pos m - 1) * sc (e - 1) * Read.den q)%Z in
  let hi := ((2 * Z.pos m + 1) * sc (e - 1) * Read.den q)%Z in
  if Z.even (Z.pos m) then (lo <= w <= hi)%Z else (lo < w < hi)%Z.

(** The first guess of the decimal exponent is at most one too large and
    at most seven too small, at the binary exponent [b]. *)
Definition exponent_guess_ok (b : Z) : bool :=
  let st := ((b - 1) * 30103 / 100000 - 1)%Z in
  match JS.cmp_dec_bin 1 (st - 1) 1 (b - 1) with
  | Gt => false
  | _ => match JS.cmp_dec_bin 1 (st + 7) 1 b with
         | Lt => false
         | _ => true
         end
  end.

(** The bit lengths, less one, of [x], [10 * x], [100 * x], ... *)
Fixpoint log2_powers (n : nat) (x : Z) : list Z :=
  match n with
  | O => []
  | S n' => Z.log2 x :: log2_powers n' (10 * x)%Z
  end.

Definition log2_power_at (T : list Z) (q : Z) : Z := nth (Z.to_nat q) T 0%Z.

(** A test on bit lengths that implies [exponent_guess_ok]. *)
Definition exponent_guess_check (T : list Z) (b : Z) : bool :=
  let st := ((b - 1) * 30103 / 100000 - 1)%Z in
  ((log2_power_at T (st - 1) + 2 <=? b + log2_power_at T (- (st - 1)))
   && (b + log2_power_at T (- (st + 7)) + 1 <=? log2_power_at T (st + 7)))%Z.

(** The text of a fraction and of an exponent, as [Number::toString]
    writes them. *)
Definition fraction_text (frac : string) : string :=
  match frac with
  | EmptyString => EmptyString
  | _ => String "." frac
  end.

Definition exponent_text (ex : option Z) : string :=
  match ex with
  | None => EmptyString
  | Some z =>
      String "e" ((if (z <? 0)%Z then "-" else "+")
                  ++ JS.digits_of_Z (Z.abs z))
  end.

(* ------------------------------------------------------------------ *)
(** ** The further properties *)

(** 1 for a flag that is set. *)
Definition count (b : bool) : nat := if b then 1%nat else 0%nat.

(** [colorVision !== 'normal']. *)
Definition not_normal (colorVision : ColorVisionType) : bool :=
  match colorVision with
  | normal => false
  | _ => true
  end.

(** The comparison the current-settings rule appends. *)
Definition COMPARISON (current recommended : float) : string :=
  "Your current font size ("
  ++ JS.String_of_number current
  ++ "px) is below the recommended "
  ++ JS.String_of_number recommended
  ++ "px for your conditions. The 3:1 acuity reserve principle suggests "
  ++ "text should be at least 3× larger than your barely-readable threshold for maximum reading speed.".

(** [text] holds [s]. *)
Definition contains (text s : string) : Prop :=
  exists before after, text = before ++ s ++ after.

(** The bytes of [s] are ASCII characters. *)
Definition ascii_only (s : string) : bool :=
  Read.all (fun c => (N_of_ascii c <? 128)%N) s.

Definition is_upper (c : ascii) : bool :=
  let n := N_of_ascii c in ((65 <=? n) && (n <=? 90))%N%bool.

(** No character of [s] satisfies [p]. *)
Definition none (p : ascii -> bool) (s : string) : bool :=
  Read.all (fun c => negb (p c)) s.

(** The line spacings and paddings the serializer computes from the
    engine's numbers. *)
Definition LINE_SPACINGS : list float := [8; 9; 10; 11; 12; 13; 14; 15]%float.
Definition LINE_PADDINGS : list float := [4; 5; 6; 7; 8]%float.

(** Some reader gives the four settings back from the summary. *)
Definition summary_round_trip_on (P : Recommendation -> Prop) : Prop :=
  exists parse : string -> option Read.Settings,
    forall r, P r -> parse (getRecommendationSummary r) = Some (settings r).

(** The six numbers of a prescription. *)
Definition fields (p : Prescription) : list float :=
  [ sphere (rightEye p); cylinder (rightEye p); axis (rightEye p);
    sphere (leftEye p); cylinder (leftEye p); axis (leftEye p) ].

(** The form with -2.25 typed for the right sphere and nothing else:
    [parseFloat] gives NaN for an empty text. *)
Definition ONE_SPHERE_TYPED : ParsedFields :=
  {| rs := -2.25; rc := nan; ra := nan; ls := nan; lc := nan; la := nan |}.

(* ------------------------------------------------------------------ *)
(** ** Tactics *)

(** Unfolds one rule and splits on its tests. *)
Ltac rule_effect :=
  intros;
  repeat match goal with
         | c : VisualConditions |- _ => destruct c
         end;
  cbv beta iota zeta delta
    [rule_myopia rule_hyperopia rule_astigmatism rule_eyeStrain
     rule_blurOrGhosting rule_lightSensitivity rule_visualCrowding
     myopia hyperopia astigmatism eyeStrain blurOrGhosting lightSensitivity
     visualCrowding];
  repeat (match goal with
          | |- context [if ?b then _ else _] => is_var b; destruct b
          end; cbv beta iota delta [negb andb]);
  repeat match goal with
         | |- context [if ?b then _ else _] => destruct b
         end;
  reflexivity.

(** Splits on the three values a line height takes and evaluates. *)
Ltac line_height_cases d :=
  generalize (lineHeight d); unfold LINE_HEIGHTS; cbn [In];
  let h := fresh "h" in
  let Hh := fresh "Hh" in
  intros h Hh;
  repeat match goal with
         | H : _ \/ _ |- _ => destruct H as [H | H]
         | H : False |- _ => destruct H
         end;
  rewrite <- Hh; vm_compute; intuition.

(** Unfolds a rule, splits on its tests and compares the lists. *)
Ltac log_effect :=
  intros;
  repeat match goal with
         | |- context [if ?b then _ else _] => destruct b
         | |- context [match ?x with Some _ => _ | None => _ end] => destruct x
         end;
  cbn [research explanations push_research push_explanation set_fontSize
       set_lineHeight set_fontWeight set_cursorStyle set_suggestedFonts
       set_suggestedThemes List.length count not_normal];
  rewrite ?app_nil_r, <- ?app_assoc, ?length_app;
  cbn [List.app List.length];
  try reflexivity; try lia.

(** One case for each of the 256 characters. *)
Ltac each_char c :=
  destruct c as [[ | ] [ | ] [ | ] [ | ] [ | ] [ | ] [ | ] [ | ]].

(* ================================================================== *)
(** * Facts about binary64 comparisons *)
(* ================================================================== *)

Lemma SFcompare_antisym (x y : spec_float) :
  SFcompare y x = option_map CompOpp (SFcompare x y).
Proof.
  destruct x as [sx | sx | | sx mx ex], y as [sy | sy | | sy my ey];
    simpl; try reflexivity;
    try (destruct sx; reflexivity); try (destruct sy; reflexivity);
    try (destruct sx, sy; reflexivity).
  destruct sx, sy; simpl; try reflexivity.
  - rewrite (Z.compare_antisym ey ex).
    destruct (ey ?= ex)%Z; simpl; try reflexivity.
    now rewrite CompOpp_involutive, (Pos.compare_cont_antisym my mx Eq).
  - rewrite (Z.compare_antisym ey ex).
    destruct (ey ?= ex)%Z; simpl; try reflexivity.
    now rewrite (Pos.compare_cont_antisym mx my Eq).
Qed.

Lemma leb_false_ltb (x y z : float) :
  (x <=? y)%float = false ->
  (x <=? z)%float = true ->
  is_nan y = false ->
  (y <? x)%float = true.
Proof.
  unfold is_nan. rewrite !FloatAxioms.leb_spec, FloatAxioms.ltb_spec, FloatAxioms.eqb_spec.
  unfold SFleb, SFltb, SFeqb.
  rewrite (SFcompare_antisym (Prim2SF x) (Prim2SF y)).
  intros H1 H2 H3.
  destruct (SFcompare (Prim2SF x) (Prim2SF y)) as [[ | | ] | ] eqn:Ec;
    simpl; try discriminate; try reflexivity.
  destruct (Prim2SF x), (Prim2SF y); simpl in *; discriminate.
Qed.

Lemma ltb_leb_false (x y : float) :
  (y <? x)%float = true -> (x <=? y)%float = false.
Proof.
  rewrite FloatAxioms.leb_spec, FloatAxioms.ltb_spec. unfold SFleb, SFltb.
  rewrite (SFcompare_antisym (Prim2SF x) (Prim2SF y)).
  destruct (SFcompare (Prim2SF x) (Prim2SF y)) as [[ | | ] | ]; simpl; congruence.
Qed.

(* ================================================================== *)
(** * The engine: what each rule does *)
(* ================================================================== *)

Lemma draft_unfold conditions colorVision prescription currentSettings :
  draft conditions colorVision prescription currentSettings
  = rule_always
      (rule_currentSettings currentSettings
         (rule_colorVision colorVision
            (after_conditions (autoDetect conditions prescription)
               (refraction prescription)))).
Proof. reflexivity. Qed.

(** [draft] is the rule list run from the base values. *)
Lemma draft_is_fold conditions colorVision prescription currentSettings :
  draft conditions colorVision prescription currentSettings
  = fold_left (fun d f => f d)
      (rules (autoDetect conditions prescription) (refraction prescription)
         colorVision currentSettings)
      initial.
Proof. reflexivity. Qed.

Lemma trace_last steps : forall d dflt,
  last (trace steps d) dflt = fold_left (fun d f => f d) steps d.
Proof.
  induction steps as [ | f steps IH]; intros d dflt; [reflexivity | ].
  simpl fold_left. rewrite <- (IH (f d) dflt). simpl trace.
  destruct (trace steps (f d)) eqn:E; [ | reflexivity ].
  destruct steps; discriminate.
Qed.

Lemma rule_colorVision_settings cv d : same_settings d (rule_colorVision cv d).
Proof. destruct cv; repeat split. Qed.

Lemma rule_currentSettings_settings cs d :
  same_settings d (rule_currentSettings cs d).
Proof.
  destruct cs as [cs | ]; simpl; [ | repeat split ].
  destruct (CurrentSettings.fontSize cs <? fontSize d)%float; repeat split.
Qed.

Lemma rule_always_settings d : same_settings d (rule_always d).
Proof. repeat split. Qed.

Lemma draft_settings conditions colorVision prescription currentSettings :
  same_settings
    (after_conditions (autoDetect conditions prescription)
       (refraction prescription))
    (draft conditions colorVision prescription currentSettings).
Proof.
  rewrite draft_unfold.
  set (d0 := after_conditions _ _).
  destruct (rule_colorVision_settings colorVision d0) as (A1 & A2 & A3 & A4 & A5).
  set (d1 := rule_colorVision colorVision d0) in *.
  destruct (rule_currentSettings_settings currentSettings d1)
    as (B1 & B2 & B3 & B4 & B5).
  set (d2 := rule_currentSettings currentSettings d1) in *.
  destruct (rule_always_settings d2) as (C1 & C2 & C3 & C4 & C5).
  repeat split; congruence.
Qed.

(* ------------------------------------------------------------------ *)
(** ** One equation for each rule and each setting *)

Lemma fontSize_rule_myopia c r d :
  fontSize (rule_myopia c r d)
  = if myopia c then myopia_tier (avgSphere r) else fontSize d.
Proof. unfold myopia_tier. rule_effect. Qed.

Lemma fontSize_rule_hyperopia c r d :
  fontSize (rule_hyperopia c r d)
  = if hyperopia c then JS.Math_max (fontSize d) 17 else fontSize d.
Proof. rule_effect. Qed.

Lemma fontSize_rule_astigmatism c r d :
  fontSize (rule_astigmatism c r d) = fontSize d.
Proof. rule_effect. Qed.

Lemma fontSize_rule_eyeStrain c r d :
  fontSize (rule_eyeStrain c r d)
  = if eyeStrain c then JS.Math_max (fontSize d) (fontSize d + 1)
    else fontSize d.
Proof. rule_effect. Qed.

Lemma fontSize_rule_blurOrGhosting c r d :
  fontSize (rule_blurOrGhosting c r d)
  = if blurOrGhosting c then JS.Math_max (fontSize d) (fontSize d + 1)
    else fontSize d.
Proof. rule_effect. Qed.

Lemma fontSize_rule_lightSensitivity c r d :
  fontSize (rule_lightSensitivity c r d) = fontSize d.
Proof. rule_effect. Qed.

Lemma fontSize_rule_visualCrowding c r d :
  fontSize (rule_visualCrowding c r d) = fontSize d.
Proof. rule_effect. Qed.

Lemma lineHeight_rule_myopia c r d :
  lineHeight (rule_myopia c r d) = lineHeight d.
Proof. rule_effect. Qed.

Lemma lineHeight_rule_hyperopia c r d :
  lineHeight (rule_hyperopia c r d)
  = if hyperopia c then JS.Math_max (lineHeight d) 1.6 else lineHeight d.
Proof. rule_effect. Qed.

Lemma lineHeight_rule_astigmatism c r d :
  lineHeight (rule_astigmatism c r d)
  = if astigmatism c then JS.Math_max (lineHeight d) 1.6 else lineHeight d.
Proof. rule_effect. Qed.

Lemma lineHeight_rule_eyeStrain c r d :
  lineHeight (rule_eyeStrain c r d)
  = if eyeStrain c then JS.Math_max (lineHeight d) 1.6 else lineHeight d.
Proof. rule_effect. Qed.

Lemma lineHeight_rule_blurOrGhosting c r d :
  lineHeight (rule_blurOrGhosting c r d) = lineHeight d.
Proof. rule_effect. Qed.

Lemma lineHeight_rule_lightSensitivity c r d :
  lineHeight (rule_lightSensitivity c r d) = lineHeight d.
Proof. rule_effect. Qed.

Lemma lineHeight_rule_visualCrowding c r d :
  lineHeight (rule_visualCrowding c r d)
  = if visualCrowding c then JS.Math_max (lineHeight d) 1.7 else lineHeight d.
Proof. rule_effect. Qed.

Lemma fontWeight_rule_myopia c r d :
  fontWeight (rule_myopia c r d) = fontWeight d.
Proof. rule_effect. Qed.

Lemma fontWeight_rule_hyperopia c r d :
  fontWeight (rule_hyperopia c r d) = fontWeight d.
Proof. rule_effect. Qed.

Lemma fontWeight_rule_astigmatism c r d :
  fontWeight (rule_astigmatism c r d) = fontWeight d.
Proof. rule_effect. Qed.

Lemma fontWeight_rule_eyeStrain c r d :
  fontWeight (rule_eyeStrain c r d) = fontWeight d.
Proof. rule_effect. Qed.

Lemma fontWeight_rule_blurOrGhosting c r d :
  fontWeight (rule_blurOrGhosting c r d)
  = if blurOrGhosting c && negb (lightSensitivity c) then 500%float
    else fontWeight d.
Proof. rule_effect. Qed.

Lemma fontWeight_rule_lightSensitivity c r d :
  fontWeight (rule_lightSensitivity c r d)
  = if lightSensitivity c then 400%float else fontWeight d.
Proof. rule_effect. Qed.

Lemma fontWeight_rule_visualCrowding c r d :
  fontWeight (rule_visualCrowding c r d) = fontWeight d.
Proof. rule_effect. Qed.

Lemma cursorStyle_rule_myopia c r d :
  cursorStyle (rule_myopia c r d)
  = if myopia c then block else cursorStyle d.
Proof. rule_effect. Qed.

Lemma cursorStyle_rule_hyperopia c r d :
  cursorStyle (rule_hyperopia c r d) = cursorStyle d.
Proof. rule_effect. Qed.

Lemma cursorStyle_rule_astigmatism c r d :
  cursorStyle (rule_astigmatism c r d) = cursorStyle d.
Proof. rule_effect. Qed.

Lemma cursorStyle_rule_eyeStrain c r d :
  cursorStyle (rule_eyeStrain c r d) = cursorStyle d.
Proof. rule_effect. Qed.

Lemma cursorStyle_rule_blurOrGhosting c r d :
  cursorStyle (rule_blurOrGhosting c r d)
  = if blurOrGhosting c then block else cursorStyle d.
Proof. rule_effect. Qed.

Lemma cursorStyle_rule_lightSensitivity c r d :
  cursorStyle (rule_lightSensitivity c r d) = cursorStyle d.
Proof. rule_effect. Qed.

Lemma cursorStyle_rule_visualCrowding c r d :
  cursorStyle (rule_visualCrowding c r d) = cursorStyle d.
Proof. rule_effect. Qed.

Lemma suggestedFonts_rule_myopia c r d :
  suggestedFonts (rule_myopia c r d) = suggestedFonts d.
Proof. rule_effect. Qed.

Lemma suggestedFonts_rule_hyperopia c r d :
  suggestedFonts (rule_hyperopia c r d) = suggestedFonts d.
Proof. rule_effect. Qed.

Lemma suggestedFonts_rule_astigmatism c r d :
  suggestedFonts (rule_astigmatism c r d)
  = if astigmatism c then ASTIGMATISM_FRIENDLY_FONTS else suggestedFonts d.
Proof. rule_effect. Qed.

Lemma suggestedFonts_rule_eyeStrain c r d :
  suggestedFonts (rule_eyeStrain c r d) = suggestedFonts d.
Proof. rule_effect. Qed.

Lemma suggestedFonts_rule_blurOrGhosting c r d :
  suggestedFonts (rule_blurOrGhosting c r d) = suggestedFonts d.
Proof. rule_effect. Qed.

Lemma suggestedFonts_rule_lightSensitivity c r d :
  suggestedFonts (rule_lightSensitivity c r d) = suggestedFonts d.
Proof. rule_effect. Qed.

Lemma suggestedFonts_rule_visualCrowding c r d :
  suggestedFonts (rule_visualCrowding c r d)
  = if visualCrowding c
    then (if (List.length (suggestedFonts d) =? 0)%nat
          then firstn 3 ASTIGMATISM_FRIENDLY_FONTS
          else suggestedFonts d)
    else suggestedFonts d.
Proof.
  unfold rule_visualCrowding. destruct (visualCrowding c); [ | reflexivity ].
  cbv zeta. cbn [set_lineHeight suggestedFonts].
  destruct (_ =? _)%nat; reflexivity.
Qed.

Lemma suggestedThemes_rule_myopia c r d :
  suggestedThemes (rule_myopia c r d) = suggestedThemes d.
Proof. rule_effect. Qed.

Lemma suggestedThemes_rule_hyperopia c r d :
  suggestedThemes (rule_hyperopia c r d) = suggestedThemes d.
Proof. rule_effect. Qed.

Lemma suggestedThemes_rule_astigmatism c r d :
  suggestedThemes (rule_astigmatism c r d) = suggestedThemes d.
Proof. rule_effect. Qed.

Lemma suggestedThemes_rule_eyeStrain c r d :
  suggestedThemes (rule_eyeStrain c r d) = suggestedThemes d.
Proof. rule_effect. Qed.

Lemma suggestedThemes_rule_blurOrGhosting c r d :
  suggestedThemes (rule_blurOrGhosting c r d) = suggestedThemes d.
Proof. rule_effect. Qed.

Lemma suggestedThemes_rule_lightSensitivity c r d :
  suggestedThemes (rule_lightSensitivity c r d) = suggestedThemes d.
Proof. rule_effect. Qed.

Lemma suggestedThemes_rule_visualCrowding c r d :
  suggestedThemes (rule_visualCrowding c r d) = suggestedThemes d.
Proof. rule_effect. Qed.

Create Rewrite HintDb engine.

#[local] Hint Rewrite
  fontSize_rule_myopia fontSize_rule_hyperopia fontSize_rule_astigmatism
  fontSize_rule_eyeStrain fontSize_rule_blurOrGhosting
  fontSize_rule_lightSensitivity fontSize_rule_visualCrowding
  lineHeight_rule_myopia lineHeight_rule_hyperopia
  lineHeight_rule_astigmatism lineHeight_rule_eyeStrain
  lineHeight_rule_blurOrGhosting lineHeight_rule_lightSensitivity
  lineHeight_rule_visualCrowding
  fontWeight_rule_myopia fontWeight_rule_hyperopia
  fontWeight_rule_astigmatism fontWeight_rule_eyeStrain
  fontWeight_rule_blurOrGhosting fontWeight_rule_lightSensitivity
  fontWeight_rule_visualCrowding
  cursorStyle_rule_myopia cursorStyle_rule_hyperopia
  cursorStyle_rule_astigmatism cursorStyle_rule_eyeStrain
  cursorStyle_rule_blurOrGhosting cursorStyle_rule_lightSensitivity
  cursorStyle_rule_visualCrowding
  suggestedFonts_rule_myopia suggestedFonts_rule_hyperopia
  suggestedFonts_rule_astigmatism suggestedFonts_rule_eyeStrain
  suggestedFonts_rule_blurOrGhosting suggestedFonts_rule_lightSensitivity
  suggestedFonts_rule_visualCrowding
  suggestedThemes_rule_myopia suggestedThemes_rule_hyperopia
  suggestedThemes_rule_astigmatism suggestedThemes_rule_eyeStrain
  suggestedThemes_rule_blurOrGhosting suggestedThemes_rule_lightSensitivity
  suggestedThemes_rule_visualCrowding
  : engine.

(* ------------------------------------------------------------------ *)
(** ** The settings after the condition rules *)

(** The settings after the condition rules, in closed form. *)
Lemma fontSize_after_conditions c r :
  fontSize (after_conditions c r)
  = let f1 := if myopia c then myopia_tier (avgSphere r) else 16%float in
    let f2 := if hyperopia c then JS.Math_max f1 17 else f1 in
    let f3 := if eyeStrain c then JS.Math_max f2 (f2 + 1) else f2 in
    if blurOrGhosting c then JS.Math_max f3 (f3 + 1) else f3.
Proof. unfold after_conditions. autorewrite with engine. reflexivity. Qed.

Lemma lineHeight_after_conditions c r :
  lineHeight (after_conditions c r)
  = let h1 := if hyperopia c then JS.Math_max 1.5 1.6 else 1.5%float in
    let h2 := if astigmatism c then JS.Math_max h1 1.6 else h1 in
    let h3 := if eyeStrain c then JS.Math_max h2 1.6 else h2 in
    if visualCrowding c then JS.Math_max h3 1.7 else h3.
Proof. unfold after_conditions. autorewrite with engine. reflexivity. Qed.

Lemma fontWeight_after_conditions c r :
  fontWeight (after_conditions c r)
  = if lightSensitivity c then 400%float
    else if blurOrGhosting c then 500%float else 400%float.
Proof.
  unfold after_conditions. autorewrite with engine.
  destruct (lightSensitivity c), (blurOrGhosting c); reflexivity.
Qed.

Lemma cursorStyle_after_conditions c r :
  cursorStyle (after_conditions c r)
  = if myopia c || blurOrGhosting c then block else bar.
Proof.
  unfold after_conditions. autorewrite with engine.
  destruct (myopia c), (blurOrGhosting c); reflexivity.
Qed.

Lemma suggestedFonts_after_conditions c r :
  suggestedFonts (after_conditions c r)
  = if astigmatism c then ASTIGMATISM_FRIENDLY_FONTS
    else if visualCrowding c then firstn 3 ASTIGMATISM_FRIENDLY_FONTS
    else [].
Proof.
  unfold after_conditions. autorewrite with engine.
  destruct (astigmatism c), (visualCrowding c); reflexivity.
Qed.

Lemma suggestedThemes_after_conditions c r :
  suggestedThemes (after_conditions c r) = [].
Proof. unfold after_conditions. autorewrite with engine. reflexivity. Qed.

Lemma after_conditions_values c r :
  In (fontSize (after_conditions c r)) FONT_SIZES
  /\ In (lineHeight (after_conditions c r)) LINE_HEIGHTS
  /\ In (fontWeight (after_conditions c r)) FONT_WEIGHTS.
Proof.
  rewrite fontSize_after_conditions, lineHeight_after_conditions,
    fontWeight_after_conditions.
  unfold myopia_tier.
  destruct (myopia c), (hyperopia c), (astigmatism c), (eyeStrain c),
    (blurOrGhosting c), (lightSensitivity c), (visualCrowding c);
    try destruct (avgSphere r <=? -6)%float;
    try destruct (avgSphere r <=? -3)%float;
    vm_compute; intuition.
Qed.

(** Rounding leaves the engine's numbers as they are. *)
Lemma finish_values d :
  In (fontSize d) FONT_SIZES -> In (lineHeight d) LINE_HEIGHTS ->
  fontSize (finish d) = fontSize d /\ lineHeight (finish d) = lineHeight d.
Proof.
  unfold finish, FONT_SIZES, LINE_HEIGHTS. cbn [fontSize lineHeight In].
  intros Hf Hl.
  repeat match goal with
         | H : _ \/ _ |- _ => destruct H as [H | H]
         | H : False |- _ => destruct H
         end;
    rewrite <- Hf, <- Hl; vm_compute; split; reflexivity.
Qed.

Lemma result_settings conditions colorVision prescription currentSettings :
  let c := autoDetect conditions prescription in
  let r := refraction prescription in
  let result := snd (calculateRecommendations conditions colorVision
                    prescription currentSettings) in
  fontSize result = fontSize (after_conditions c r)
  /\ lineHeight result = lineHeight (after_conditions c r)
  /\ fontWeight result = fontWeight (after_conditions c r)
  /\ cursorStyle result = cursorStyle (after_conditions c r)
  /\ suggestedFonts result = suggestedFonts (after_conditions c r).
Proof.
  cbv zeta. unfold calculateRecommendations. cbn [snd].
  destruct (draft_settings conditions colorVision prescription currentSettings)
    as (E1 & E2 & E3 & E4 & E5).
  destruct (after_conditions_values (autoDetect conditions prescription)
              (refraction prescription)) as (V1 & V2 & _).
  rewrite <- E1 in V1. rewrite <- E2 in V2.
  destruct (finish_values _ V1 V2) as (F1 & F2).
  rewrite F1, F2. cbn [finish fontWeight cursorStyle suggestedFonts].
  repeat split; assumption.
Qed.

Lemma result_themes conditions colorVision prescription currentSettings :
  suggestedThemes (snd (calculateRecommendations conditions colorVision
                          prescription currentSettings))
  = themes (COLOR_VISION_THEMES colorVision).
Proof.
  unfold calculateRecommendations. cbn [snd finish suggestedThemes].
  rewrite draft_unfold.
  set (d0 := after_conditions _ _).
  assert (H0 : suggestedThemes d0 = []) by apply suggestedThemes_after_conditions.
  assert (H1 : suggestedThemes (rule_colorVision colorVision d0)
               = themes (COLOR_VISION_THEMES colorVision)).
  { destruct colorVision; cbn; try reflexivity. exact H0. }
  destruct currentSettings as [cs | ]; simpl rule_currentSettings;
    [ destruct (_ <? _)%float | ]; exact H1.
Qed.

(* ------------------------------------------------------------------ *)
(** ** Auto-detection *)

Lemma autoDetect_flags conditions p :
  let amended := autoDetect conditions (Some p) in
  let r := refraction (Some p) in
  myopia amended = myopia conditions || (avgSphere r <? -0.5)%float
  /\ hyperopia amended = hyperopia conditions || (0.5 <? avgSphere r)%float
  /\ astigmatism amended
     = astigmatism conditions || hasSignificantAstigmatism r
  /\ eyeStrain amended = eyeStrain conditions
  /\ blurOrGhosting amended = blurOrGhosting conditions
  /\ lightSensitivity amended = lightSensitivity conditions
  /\ visualCrowding amended = visualCrowding conditions.
Proof.
  cbv zeta. unfold autoDetect.
  generalize (refraction (Some p)). intros r.
  destruct conditions as [m h a e b l v].
  cbn [myopia hyperopia astigmatism].
  destruct (avgSphere r <? -0.5)%float, (0.5 <? avgSphere r)%float,
    (hasSignificantAstigmatism r), m, h, a; repeat split.
Qed.

Lemma autoDetect_other_flags conditions prescription :
  eyeStrain (autoDetect conditions prescription) = eyeStrain conditions
  /\ blurOrGhosting (autoDetect conditions prescription)
     = blurOrGhosting conditions
  /\ lightSensitivity (autoDetect conditions prescription)
     = lightSensitivity conditions
  /\ visualCrowding (autoDetect conditions prescription)
     = visualCrowding conditions.
Proof.
  destruct prescription as [p | ]; [ | repeat split ].
  destruct (autoDetect_flags conditions p) as (_ & _ & _ & A & B & C & D).
  repeat split; assumption.
Qed.

Lemma VisualConditions_ext (a b : VisualConditions) :
  myopia a = myopia b -> hyperopia a = hyperopia b ->
  astigmatism a = astigmatism b -> eyeStrain a = eyeStrain b ->
  blurOrGhosting a = blurOrGhosting b ->
  lightSensitivity a = lightSensitivity b ->
  visualCrowding a = visualCrowding b -> a = b.
Proof. destruct a, b; simpl; intros; subst; reflexivity. Qed.

(* ------------------------------------------------------------------ *)
(** ** Line height along the rule sequence *)

Lemma rules_raise_lineHeight c r colorVision currentSettings :
  Forall raises_lineHeight (rules c r colorVision currentSettings).
Proof.
  unfold rules.
  repeat apply Forall_cons; try apply Forall_nil; unfold raises_lineHeight;
    intros d.
  - rewrite lineHeight_rule_myopia. line_height_cases d.
  - rewrite lineHeight_rule_hyperopia.
    destruct (hyperopia c); line_height_cases d.
  - rewrite lineHeight_rule_astigmatism.
    destruct (astigmatism c); line_height_cases d.
  - rewrite lineHeight_rule_eyeStrain.
    destruct (eyeStrain c); line_height_cases d.
  - rewrite lineHeight_rule_blurOrGhosting. line_height_cases d.
  - rewrite lineHeight_rule_lightSensitivity. line_height_cases d.
  - rewrite lineHeight_rule_visualCrowding.
    destruct (visualCrowding c); line_height_cases d.
  - destruct (rule_colorVision_settings colorVision d) as (_ & E & _).
    rewrite E. clear E. line_height_cases d.
  - destruct (rule_currentSettings_settings currentSettings d) as (_ & E & _).
    rewrite E. clear E. line_height_cases d.
  - destruct (rule_always_settings d) as (_ & E & _).
    rewrite E. clear E. line_height_cases d.
Qed.

(** Along any list of steps that never lower the line height, the line
    heights of the states passed through never decrease. *)
Lemma trace_nondecreasing steps :
  Forall raises_lineHeight steps ->
  forall d, In (lineHeight d) LINE_HEIGHTS ->
    nondecreasing (map lineHeight (trace steps d)) = true.
Proof.
  induction 1 as [ | f steps Hf _ IH]; intros d Hd; [reflexivity | ].
  destruct (Hf d Hd) as (Hd' & Hle).
  specialize (IH (f d) Hd').
  simpl trace. destruct steps as [ | g steps].
  - simpl. now rewrite Hle.
  - simpl trace in *. cbn [map nondecreasing] in *. now rewrite Hle, IH.
Qed.

Lemma is_nan_minus_six : is_nan (-6)%float = false.
Proof. reflexivity. Qed.

(** The tiers as the source tests them and as intervals. *)
Lemma myopia_tier_intervals (a : float) :
  myopia_tier a
  = if (a <=? -6)%float then 20%float
    else if ((-6 <? a)%float && (a <=? -3)%float)%bool then 18%float
    else 17%float.
Proof.
  unfold myopia_tier.
  destruct (a <=? -6)%float eqn:E6; [reflexivity | ].
  destruct (a <=? -3)%float eqn:E3.
  - now rewrite (leb_false_ltb a (-6) (-3) E6 E3 is_nan_minus_six).
  - now rewrite andb_false_r.
Qed.

(* ================================================================== *)
(** * The engine: the claims *)
(* ================================================================== *)

(** C2: whatever the input, the returned font size is at least 16 and the
    returned line height at least 1.5, after the final rounding; and through
    the rule sequence (the base values, then the state after each of the ten
    rules, the last being the one that is rounded) the line height never
    decreases from one state to the next. *)
Theorem font_size_and_line_height_floor :
  forall conditions colorVision prescription currentSettings,
    let result := snd (calculateRecommendations conditions colorVision
                      prescription currentSettings) in
    let steps := rules (autoDetect conditions prescription)
                   (refraction prescription) colorVision currentSettings in
    (16 <=? fontSize result)%float = true
    /\ (1.5 <=? lineHeight result)%float = true
    /\ nondecreasing (map lineHeight (trace steps initial)) = true
    /\ last (trace steps initial) initial
       = draft conditions colorVision prescription currentSettings
    /\ result = finish (draft conditions colorVision prescription currentSettings)
    /\ (lineHeight (draft conditions colorVision prescription currentSettings)
        <=? lineHeight result)%float = true.
Proof.
  intros conditions colorVision prescription currentSettings result steps.
  destruct (result_settings conditions colorVision prescription currentSettings)
    as (E1 & E2 & _).
  destruct (draft_settings conditions colorVision prescription currentSettings)
    as (D1 & D2 & _).
  destruct (after_conditions_values (autoDetect conditions prescription)
              (refraction prescription)) as (V1 & V2 & _).
  fold result in E1, E2.
  repeat apply conj.
  - rewrite E1. revert V1. generalize (fontSize (after_conditions
      (autoDetect conditions prescription) (refraction prescription))).
    unfold FONT_SIZES. cbn [In]. intros f Hf.
    repeat match goal with
           | H : _ \/ _ |- _ => destruct H as [H | H]
           | H : False |- _ => destruct H
           end; rewrite <- Hf; reflexivity.
  - rewrite E2. revert V2. generalize (lineHeight (after_conditions
      (autoDetect conditions prescription) (refraction prescription))).
    unfold LINE_HEIGHTS. cbn [In]. intros f Hf.
    repeat match goal with
           | H : _ \/ _ |- _ => destruct H as [H | H]
           | H : False |- _ => destruct H
           end; rewrite <- Hf; reflexivity.
  - apply trace_nondecreasing.
    + apply rules_raise_lineHeight.
    + left. reflexivity.
  - unfold steps. rewrite trace_last. symmetry. apply draft_is_fold.
  - reflexivity.
  - rewrite E2, D2. revert V2. generalize (lineHeight (after_conditions
      (autoDetect conditions prescription) (refraction prescription))).
    unfold LINE_HEIGHTS. cbn [In]. intros f Hf.
    repeat match goal with
           | H : _ \/ _ |- _ => destruct H as [H | H]
           | H : False |- _ => destruct H
           end; rewrite <- Hf; reflexivity.
Qed.

(** C3: with [blurOrGhosting] and [lightSensitivity] both set, the returned
    font weight is 400 whatever else the input holds.  The light-sensitivity
    rule stands right after the blur/ghosting rule in the sequence, and on
    any state it leaves the weight at 400. *)
Theorem light_sensitivity_wins :
  forall conditions colorVision prescription currentSettings,
    blurOrGhosting conditions = true ->
    lightSensitivity conditions = true ->
    fontWeight (snd (calculateRecommendations conditions colorVision
                       prescription currentSettings)) = 400%float
    /\ (forall c r d, lightSensitivity c = true ->
          fontWeight (rule_lightSensitivity c r d) = 400%float)
    /\ (forall c r,
          exists before after,
            rules c r colorVision currentSettings
            = (before
               ++ [rule_blurOrGhosting c r; rule_lightSensitivity c r]
               ++ after)%list).
Proof.
  intros conditions colorVision prescription currentSettings Hb Hl.
  repeat apply conj.
  - destruct (result_settings conditions colorVision prescription
                currentSettings) as (_ & _ & E & _).
    rewrite E, fontWeight_after_conditions.
    destruct (autoDetect_other_flags conditions prescription)
      as (_ & _ & L & _).
    now rewrite L, Hl.
  - intros c r d H. now rewrite fontWeight_rule_lightSensitivity, H.
  - intros c r.
    exists [rule_myopia c r; rule_hyperopia c r; rule_astigmatism c r;
            rule_eyeStrain c r].
    exists [rule_visualCrowding c r; rule_colorVision colorVision;
            rule_currentSettings currentSettings; rule_always].
    reflexivity.
Qed.

(** C3 at blur with light sensitivity, nothing else. *)
Lemma light_sensitivity_wins_witness :
  fontWeight (snd (calculateRecommendations BLUR_AND_LIGHT normal None None))
  = 400%float.
Proof.
  exact (proj1 (light_sensitivity_wins BLUR_AND_LIGHT normal None None
                  eq_refl eq_refl)).
Defined.

(** C4: when myopia is active after auto-detection, the myopia rule sets the
    font size by the tier of the mean sphere (0 without a prescription): 20
    when it is at most -6, 18 when it is above -6 and at most -3, and 17
    otherwise; it sets the cursor to [block] and appends one citation, the
    myopia one.  For the prescription -7/-7 with zero cylinders and axes and
    no flag set, the call sets [myopia] and returns font size 20 and a block
    cursor. *)
Theorem myopia_tiers :
  (forall conditions colorVision prescription currentSettings d,
      let c := fst (calculateRecommendations conditions colorVision
                      prescription currentSettings) in
      let a := avgSphere (refraction prescription) in
      let d' := rule_myopia c (refraction prescription) d in
      myopia c = true ->
      fontSize d'
      = (if (a <=? -6)%float then 20%float
         else if ((-6 <? a)%float && (a <=? -3)%float)%bool then 18%float
         else 17%float)
      /\ cursorStyle d' = block
      /\ research d' = (research d ++ [MYOPIA_CITATION])%list
      /\ a = match prescription with
             | Some p => ((sphere (rightEye p) + sphere (leftEye p)) / 2)%float
             | None => 0%float
             end
      /\ (prescription = None -> fontSize d' = 17%float))
  /\ (forall colorVision currentSettings,
        let out := calculateRecommendations NO_CONDITIONS colorVision
                     (Some SCENARIO_B) currentSettings in
        avgSphere (refraction (Some SCENARIO_B)) = (-7)%float
        /\ myopia (fst out) = true
        /\ fontSize (snd out) = 20%float
        /\ cursorStyle (snd out) = block).
Proof.
  split.
  - intros conditions colorVision prescription currentSettings d c a d' Hm.
    unfold d'. rewrite fontSize_rule_myopia, cursorStyle_rule_myopia, Hm.
    fold a. rewrite myopia_tier_intervals.
    repeat apply conj; try reflexivity.
    + unfold rule_myopia. rewrite Hm.
      destruct (_ <=? -6)%float; [ | destruct (_ <=? -3)%float ]; reflexivity.
    + unfold a. destruct prescription; reflexivity.
    + intros ->. reflexivity.
  - intros colorVision currentSettings out.
    destruct (result_settings NO_CONDITIONS colorVision (Some SCENARIO_B)
                currentSettings) as (E1 & _ & _ & E4 & _).
    unfold out. rewrite E1, E4, fontSize_after_conditions,
      cursorStyle_after_conditions.
    repeat apply conj; reflexivity.
Qed.

(** C4 at scenario B and the base values. *)
Lemma myopia_tiers_witness :
  fontSize (rule_myopia
              (fst (calculateRecommendations NO_CONDITIONS normal
                      (Some SCENARIO_B) None))
              (refraction (Some SCENARIO_B)) initial) = 20%float.
Proof.
  destruct (proj1 myopia_tiers NO_CONDITIONS normal (Some SCENARIO_B) None
              initial eq_refl) as (H & _).
  exact H.
Defined.

(** C5: with a prescription, each of the three refraction flags is true
    after the call exactly when the caller had set it or the prescription
    crosses its threshold (mean sphere below -0.5, mean sphere above 0.5,
    absolute mean cylinder at least 0.5); so a flag the caller set is never
    cleared, and a flag the caller left unset is set exactly when the
    threshold is crossed.  The other four flags are untouched.  Without a
    prescription the conditions come back unchanged.  The amended conditions
    are the first component of the result, and they are the ones the rules
    read: running the engine again on them gives the same result. *)
Theorem prescription_auto_detection :
  forall conditions colorVision prescription currentSettings,
    let amended := fst (calculateRecommendations conditions colorVision
                          prescription currentSettings) in
    match prescription with
    | Some p =>
        let avgSphere := ((sphere (rightEye p) + sphere (leftEye p)) / 2)%float in
        let avgCylinder :=
          abs ((cylinder (rightEye p) + cylinder (leftEye p)) / 2)%float in
        myopia amended = myopia conditions || (avgSphere <? -0.5)%float
        /\ hyperopia amended = hyperopia conditions || (0.5 <? avgSphere)%float
        /\ astigmatism amended
           = astigmatism conditions || (0.5 <=? avgCylinder)%float
        /\ eyeStrain amended = eyeStrain conditions
        /\ blurOrGhosting amended = blurOrGhosting conditions
        /\ lightSensitivity amended = lightSensitivity conditions
        /\ visualCrowding amended = visualCrowding conditions
    | None => amended = conditions
    end
    /\ calculateRecommendations amended colorVision prescription currentSettings
       = calculateRecommendations conditions colorVision prescription
           currentSettings.
Proof.
  intros conditions colorVision prescription currentSettings amended.
  assert (Hidem : autoDetect amended prescription = amended).
  { unfold amended, calculateRecommendations. cbn [fst].
    destruct prescription as [p | ]; [ | reflexivity ].
    destruct (autoDetect_flags (autoDetect conditions (Some p)) p)
      as (A1 & A2 & A3 & A4 & A5 & A6 & A7).
    destruct (autoDetect_flags conditions p)
      as (B1 & B2 & B3 & B4 & B5 & B6 & B7).
    cbv zeta in *.
    apply VisualConditions_ext; try assumption.
    - rewrite A1, B1. now rewrite <- orb_assoc, orb_diag.
    - rewrite A2, B2. now rewrite <- orb_assoc, orb_diag.
    - rewrite A3, B3. now rewrite <- orb_assoc, orb_diag. }
  split.
  - destruct prescription as [p | ]; [ | reflexivity ].
    exact (autoDetect_flags conditions p).
  - unfold calculateRecommendations, draft. rewrite Hidem. reflexivity.
Qed.

(** C6: the returned themes are exactly the table entry of the colour-vision
    type, in the table's order, and they are non-empty if and only if the
    type is not [normal]. *)
Theorem theme_table_exclusive :
  forall conditions colorVision prescription currentSettings,
    let result := snd (calculateRecommendations conditions colorVision
                         prescription currentSettings) in
    (suggestedThemes result <> [] <-> colorVision <> normal)
    /\ suggestedThemes result
       = match colorVision with
         | normal => []
         | deuteranopia =>
             ["Solarized Dark"; "Solarized Light"; "One Dark"; "GitHub Dark";
              "Catppuccin Mocha"]
         | protanopia =>
             ["Solarized Dark"; "Solarized Light"; "Nord"; "Tokyo Night"]
         | tritanopia => ["Monokai"; "Dracula"; "Gruvbox"; "Material Theme"]
         | achromatopsia => ["High Contrast"; "GitHub Light"; "Paper"]
         end.
Proof.
  intros conditions colorVision prescription currentSettings result.
  unfold result. rewrite result_themes.
  destruct colorVision; cbn; (split; [ split; congruence | reflexivity ]).
Qed.

(** C7: astigmatism alone, no prescription, normal colour vision: the line
    height is 1.6, the suggested fonts are the six astigmatism-friendly
    fonts in their order, and the astigmatism explanation (the first one)
    carries the with-the-rule note, the axis being 0 and 0 being at most
    20. *)
Theorem scenario_astigmatism_no_prescription :
  forall currentSettings,
    let result := snd (calculateRecommendations ONLY_ASTIGMATISM normal None
                         currentSettings) in
    lineHeight result = 1.6%float
    /\ suggestedFonts result
       = ["IBM Plex Mono"; "JetBrains Mono"; "Fira Code"; "Input Mono";
          "Atkinson Hyperlegible Mono"; "Source Code Pro"]
    /\ hd_error (explanations result)
       = Some "Astigmatism: Line height increased to 1.6× to reduce line-to-line blur. Your with-the-rule astigmatism (horizontal axis) causes less degradation for Roman letters. Fonts with clear letterforms and wider spacing recommended."
    /\ astigmatismAxis (refraction None) = 0%float
    /\ (0 <=? 0)%float = true /\ (0 <=? 20)%float = true
    /\ axisNote 0 = WITH_THE_RULE_NOTE.
Proof.
  intros currentSettings result.
  destruct (result_settings ONLY_ASTIGMATISM normal None currentSettings)
    as (_ & E2 & _ & _ & E5).
  unfold result. rewrite E2, E5, lineHeight_after_conditions,
    suggestedFonts_after_conditions.
  repeat apply conj; try reflexivity.
  destruct currentSettings as [cs | ]; [ | reflexivity ].
  unfold calculateRecommendations, draft, rule_currentSettings.
  destruct (_ <? _)%float; reflexivity.
Qed.

(** C10: the returned cursor style is never [underline]; it is [block]
    exactly when myopia holds after auto-detection or [blurOrGhosting] is
    set, and [bar] otherwise. *)
Theorem cursor_never_underline :
  forall conditions colorVision prescription currentSettings,
    let out := calculateRecommendations conditions colorVision prescription
                 currentSettings in
    cursorStyle (snd out) <> underline
    /\ cursorStyle (snd out)
       = if myopia (fst out) || blurOrGhosting conditions then block else bar.
Proof.
  intros conditions colorVision prescription currentSettings out.
  destruct (result_settings conditions colorVision prescription
              currentSettings) as (_ & _ & _ & E & _).
  destruct (autoDetect_other_flags conditions prescription) as (_ & B & _).
  assert (H : cursorStyle (snd out)
              = if myopia (fst out) || blurOrGhosting conditions
                then block else bar).
  { unfold out. rewrite E, cursorStyle_after_conditions, B. reflexivity. }
  split; [ | exact H ].
  rewrite H. destruct (_ || _); discriminate.
Qed.

(* ================================================================== *)
(** * The serializer: texts *)
(* ================================================================== *)

Lemma append_assoc (a b c : string) : (a ++ b) ++ c = a ++ (b ++ c).
Proof. induction a as [ | x a IH]; simpl; [reflexivity | now rewrite IH]. Qed.

Lemma append_empty_r (a : string) : a ++ EmptyString = a.
Proof. induction a as [ | x a IH]; simpl; [reflexivity | now rewrite IH]. Qed.

(** The text for vscode, member by member. *)
Lemma vscode_text r :
  generateEditorConfig r "vscode"
  = ("{" ++ JSON.nl ++ "  ")
    ++ (JSON.quote "editor.fontSize" ++ ": ")
    ++ JSON.number_text (fontSize r)
    ++ ("," ++ JSON.nl ++ "  ")
    ++ (JSON.quote "editor.lineHeight" ++ ": ")
    ++ JSON.number_text (lineHeight r)
    ++ ("," ++ JSON.nl ++ "  ")
    ++ (JSON.quote "editor.fontWeight" ++ ": ")
    ++ JSON.quote (JS.String_of_number (fontWeight r))
    ++ ("," ++ JSON.nl ++ "  ")
    ++ (JSON.quote "editor.cursorStyle" ++ ": ")
    ++ JSON.quote (CursorStyle_text (cursorStyle r))
    ++ ("," ++ JSON.nl ++ "  ")
    ++ (JSON.quote "editor.fontFamily" ++ ": ")
    ++ JSON.quote ("'" ++ font_of r ++ "', 'Fira Code', Consolas, monospace")
    ++ optional_member (theme_of r) "workbench.colorTheme" (fun t => t)
    ++ JSON.nl ++ "}".
Proof.
  change (generateEditorConfig r "vscode")
    with (JSON.stringify (vscode_object r)).
  unfold JSON.stringify, vscode_object, optional_member, spread_theme.
  destruct (theme_of r) as [t | ]; [ destruct (truthy t) | ];
    cbn [JSON.serialize List.app JSON.join];
    rewrite ?append_assoc; cbn [append]; reflexivity.
Qed.

(** The text for zed. *)
Lemma zed_text r :
  generateEditorConfig r "zed"
  = ("{" ++ JSON.nl ++ "  ")
    ++ (JSON.quote "buffer_font_size" ++ ": ")
    ++ JSON.number_text (fontSize r)
    ++ ("," ++ JSON.nl ++ "  ")
    ++ (JSON.quote "buffer_line_height" ++ ": ")
    ++ ("{" ++ JSON.nl ++ "    ")
    ++ (JSON.quote "custom" ++ ": ")
    ++ JSON.number_text (lineHeight r)
    ++ (JSON.nl ++ "  }")
    ++ ("," ++ JSON.nl ++ "  ")
    ++ (JSON.quote "buffer_font_weight" ++ ": ")
    ++ JSON.number_text (fontWeight r)
    ++ ("," ++ JSON.nl ++ "  ")
    ++ (JSON.quote "cursor_shape" ++ ": ")
    ++ JSON.quote (CursorStyle_text (cursorStyle r))
    ++ ("," ++ JSON.nl ++ "  ")
    ++ (JSON.quote "buffer_font_family" ++ ": ")
    ++ JSON.quote (font_of r)
    ++ optional_member (theme_of r) "theme" (fun t => t)
    ++ JSON.nl ++ "}".
Proof.
  change (generateEditorConfig r "zed") with (JSON.stringify (zed_object r)).
  unfold JSON.stringify, zed_object, optional_member, spread_theme.
  destruct (theme_of r) as [t | ]; [ destruct (truthy t) | ];
    cbn [JSON.serialize List.app JSON.join];
    rewrite ?append_assoc; cbn [append]; reflexivity.
Qed.

(** The text for sublime. *)
Lemma sublime_text r :
  generateEditorConfig r "sublime"
  = ("{" ++ JSON.nl ++ "  ")
    ++ (JSON.quote "font_face" ++ ": ")
    ++ JSON.quote (font_of r)
    ++ ("," ++ JSON.nl ++ "  ")
    ++ (JSON.quote "font_size" ++ ": ")
    ++ JSON.number_text (fontSize r)
    ++ ("," ++ JSON.nl ++ "  ")
    ++ (JSON.quote "line_padding_top" ++ ": ")
    ++ JSON.number_text (line_padding r)
    ++ ("," ++ JSON.nl ++ "  ")
    ++ (JSON.quote "line_padding_bottom" ++ ": ")
    ++ JSON.number_text (line_padding r)
    ++ ("," ++ JSON.nl ++ "  ")
    ++ (JSON.quote "caret_style" ++ ": ")
    ++ JSON.quote (match cursorStyle r with block => "solid" | _ => "smooth" end)
    ++ optional_member (theme_of r) "color_scheme"
         (fun t => "Packages/Theme/" ++ t ++ ".tmTheme")
    ++ JSON.nl ++ "}".
Proof.
  change (generateEditorConfig r "sublime")
    with (JSON.stringify (sublime_object r)).
  unfold JSON.stringify, sublime_object, optional_member, spread_theme.
  destruct (theme_of r) as [t | ]; [ destruct (truthy t) | ];
    cbn [JSON.serialize List.app JSON.join];
    rewrite ?append_assoc; cbn [append]; reflexivity.
Qed.

Lemma neovim_text_eq r : generateEditorConfig r "neovim" = neovim_text r.
Proof. reflexivity. Qed.

Lemma jetbrains_text_eq r :
  generateEditorConfig r "jetbrains" = jetbrains_text r.
Proof. reflexivity. Qed.

(* ================================================================== *)
(** * Reading back: the steps *)
(* ================================================================== *)

Lemma expect_app p : forall s, Read.expect p (p ++ s) = Some (tt, s).
Proof.
  induction p as [ | c p IH]; intros s; [reflexivity | ].
  simpl. now rewrite Ascii.eqb_refl.
Qed.

Lemma bind_expect {A} p (k : Read.reader A) s :
  Read.bind (Read.expect p) (fun _ => k) (p ++ s) = k s.
Proof. unfold Read.bind. now rewrite expect_app. Qed.

Lemma span_app p a : forall rest,
  Read.all p a = true -> stops p rest -> Read.span p (a ++ rest) = (a, rest).
Proof.
  induction a as [ | c a IH]; intros rest Ha Hr.
  - destruct rest as [ | c rest]; simpl in *; [reflexivity | now rewrite Hr].
  - simpl in *. apply andb_prop in Ha. destruct Ha as [Hc Ha].
    now rewrite Hc, (IH rest Ha Hr).
Qed.

Lemma escape_number_text s :
  Read.all Read.is_number_char s = true -> JSON.escape s = s.
Proof.
  induction s as [ | c s IH]; [reflexivity | ].
  simpl. intros H. apply andb_prop in H. destruct H as [Hc Hs].
  rewrite (IH Hs).
  destruct c as [[ | ] [ | ] [ | ] [ | ] [ | ] [ | ] [ | ] [ | ]];
    try discriminate Hc; reflexivity.
Qed.

Lemma bind_number {A} x (k : float -> Read.reader A) rest :
  survives_text x -> stops Read.is_number_char rest ->
  Read.bind Read.number k (JSON.number_text x ++ rest) = k x rest.
Proof.
  intros (Hf & Hc & Hr) Hs.
  unfold JSON.number_text. rewrite Hf.
  unfold Read.number, Read.bind, Read.token.
  now rewrite (span_app _ _ _ Hc Hs), Hr.
Qed.

Lemma bind_quoted_number {A} x (k : float -> Read.reader A) rest :
  survives_text x ->
  Read.bind (Read.quoted Read.number) k
    (JSON.quote (JS.String_of_number x) ++ rest) = k x rest.
Proof.
  intros (Hf & Hc & Hr).
  unfold JSON.quote, JS.String_of_number. rewrite (escape_number_text _ Hc).
  unfold Read.quoted. rewrite !append_assoc.
  unfold Read.bind at 1 2. rewrite expect_app.
  unfold Read.number, Read.bind at 1 2 3, Read.token.
  rewrite (span_app _ _ _ Hc); [ | reflexivity ].
  rewrite Hr. unfold Read.ret at 1. unfold Read.bind.
  now rewrite expect_app.
Qed.

Lemma bind_quoted_cursor {A} c (k : CursorStyle -> Read.reader A) rest :
  Read.bind (Read.quoted Read.cursor) k
    (JSON.quote (CursorStyle_text c) ++ rest) = k c rest.
Proof. destruct c; reflexivity. Qed.

(** Reading the vscode text gives the four settings back. *)
Lemma read_vscode r :
  survives_text (fontSize r) -> survives_text (lineHeight r) ->
  survives_text (fontWeight r) ->
  Read.parse Read.vscode (generateEditorConfig r "vscode")
  = Some (settings r).
Proof.
  intros Hs Hh Hw.
  rewrite vscode_text. unfold Read.parse, Read.vscode, Read.open_object,
    Read.key, Read.next_member.
  rewrite !bind_expect.
  rewrite (bind_number _ _ _ Hs); [ | reflexivity ].
  rewrite !bind_expect.
  rewrite (bind_number _ _ _ Hh); [ | reflexivity ].
  rewrite !bind_expect.
  rewrite (bind_quoted_number _ _ _ Hw).
  rewrite !bind_expect.
  rewrite bind_quoted_cursor.
  reflexivity.
Qed.

(** Reading the zed text gives the four settings back. *)
Lemma read_zed r :
  survives_text (fontSize r) -> survives_text (lineHeight r) ->
  survives_text (fontWeight r) ->
  Read.parse Read.zed (generateEditorConfig r "zed") = Some (settings r).
Proof.
  intros Hs Hh Hw.
  rewrite zed_text. unfold Read.parse, Read.zed, Read.open_object,
    Read.key, Read.next_member.
  rewrite !bind_expect.
  rewrite (bind_number _ _ _ Hs); [ | reflexivity ].
  rewrite !bind_expect.
  rewrite (bind_number _ _ _ Hh); [ | reflexivity ].
  rewrite !bind_expect.
  rewrite (bind_number _ _ _ Hw); [ | reflexivity ].
  rewrite !bind_expect.
  rewrite bind_quoted_cursor.
  reflexivity.
Qed.

(* ================================================================== *)
(** * Numbers and their decimal text *)
(* ================================================================== *)

Section DecimalText.

Local Open Scope Z_scope.

(** ** Scaled comparisons: binary quantities in units of [2^-1076] *)

Lemma sc_pos b : -1076 <= b -> 0 < sc b.
Proof. intros H. unfold sc. apply Z.pow_pos_nonneg; lia. Qed.

Lemma sc_succ b : -1076 <= b -> sc (b + 1) = 2 * sc b.
Proof.
  intros H. unfold sc. replace (b + 1 + 1076) with (Z.succ (b + 1076)) by lia.
  rewrite Z.pow_succ_r; lia.
Qed.

Lemma sc_add b k : -1076 <= b -> 0 <= k -> sc (b + k) = 2 ^ k * sc b.
Proof.
  intros H Hk. unfold sc. replace (b + k + 1076) with (k + (b + 1076)) by lia.
  rewrite Z.pow_add_r; lia.
Qed.

Lemma sc_lt b b' : -1076 <= b -> -1076 <= b' -> sc b < sc b' -> b < b'.
Proof.
  intros H H' Hlt. unfold sc in Hlt.
  apply Z.pow_lt_mono_r_iff in Hlt; lia.
Qed.

Lemma sc_le b b' : -1076 <= b -> b <= b' -> sc b <= sc b'.
Proof. intros. unfold sc. apply Z.pow_le_mono_r; lia. Qed.

Lemma den_pos q : 0 < Read.den q.
Proof. unfold Read.den. apply Z.pow_pos_nonneg; lia. Qed.

Lemma num_pos s q : 0 < s -> 0 < Read.num s q.
Proof. intros. unfold Read.num. apply Z.mul_pos_pos; [lia | apply Z.pow_pos_nonneg; lia]. Qed.

Lemma mul_compare_r a b p : 0 < p -> (a * p ?= b * p) = (a ?= b).
Proof.
  intros Hp. destruct (Z.compare_spec a b) as [E | L | G].
  - subst. apply Z.compare_refl.
  - apply Z.compare_lt_iff. nia.
  - apply Z.compare_gt_iff. nia.
Qed.

Lemma cmp_dec_bin_scaled s q a b :
  -1076 <= b ->
  JS.cmp_dec_bin s q a b = (Read.num s q * sc 0 ?= a * sc b * Read.den q).
Proof.
  intros Hb. unfold JS.cmp_dec_bin. fold (Read.num s q). fold (Read.den q).
  assert (Hd := den_pos q).
  destruct (Z.le_gt_cases 0 b) as [Hpos | Hneg].
  - rewrite (Z.max_r (- b) 0), (Z.max_l b 0) by lia.
    rewrite Z.pow_0_r, Z.mul_1_r.
    replace (sc b) with (2 ^ b * sc 0) by (rewrite <- sc_add by lia; f_equal; lia).
    replace (a * (2 ^ b * sc 0) * Read.den q) with (a * 2 ^ b * Read.den q * sc 0) by ring.
    rewrite mul_compare_r by (apply sc_pos; lia). reflexivity.
  - rewrite (Z.max_l (- b) 0), (Z.max_r b 0) by lia.
    rewrite Z.pow_0_r, Z.mul_1_r.
    replace (sc 0) with (2 ^ (- b) * sc b)
      by (rewrite <- sc_add by lia; f_equal; lia).
    replace (Read.num s q * (2 ^ (- b) * sc b)) with (Read.num s q * 2 ^ (- b) * sc b) by ring.
    replace (a * sc b * Read.den q) with (a * Read.den q * sc b) by ring.
    rewrite mul_compare_r by (apply sc_pos; lia). reflexivity.
Qed.

Lemma rounds_to_spec m e s q :
  -1074 <= e -> (JS.rounds_to m e s q = true <-> in_interval m e s q).
Proof.
  intros He. unfold JS.rounds_to, in_interval, JS.round_lo, JS.round_hi.
  destruct ((Z.pos m =? 2 ^ 52) && (-1074 <? e))%bool;
    rewrite !cmp_dec_bin_scaled by lia;
    cbv zeta;
    match goal with
    | |- context [?a ?= ?b] =>
        destruct (Z.compare_spec a b)
    end;
    match goal with
    | |- context [?a ?= ?b] =>
        destruct (Z.compare_spec a b)
    end;
    destruct (Z.even (Z.pos m)); cbn [andb]; split; intros Hx;
      first [ reflexivity | discriminate | lia | exfalso; lia ].
Qed.

(** ** The exponent of a ratio *)

Lemma floor_log2_spec n d k :
  0 < n -> 0 < d -> 0 <= k -> 0 <= Read.floor_log2 n d + k ->
  d * 2 ^ (Read.floor_log2 n d + k) <= n * 2 ^ k
  /\ n * 2 ^ k < d * 2 ^ (Read.floor_log2 n d + k + 1).
Proof.
  intros Hn Hd Hk. unfold Read.floor_log2.
  destruct (Z.log2_spec n Hn) as [Ha1 Ha2].
  destruct (Z.log2_spec d Hd) as [Hb1 Hb2].
  assert (Ha0 := Z.log2_nonneg n). assert (Hb0 := Z.log2_nonneg d).
  set (a := Z.log2 n) in *. set (b := Z.log2 d) in *.
  rewrite Z.pow_succ_r in Ha2, Hb2 by assumption.
  assert (HA : 0 < 2 ^ a) by (apply Z.pow_pos_nonneg; lia).
  assert (HB : 0 < 2 ^ b) by (apply Z.pow_pos_nonneg; lia).
  assert (HK : 0 < 2 ^ k) by (apply Z.pow_pos_nonneg; lia).
  destruct (Z.ltb_spec (n * 2 ^ Z.max (- (a - b)) 0) (d * 2 ^ Z.max (a - b) 0))
    as [T | T]; intros Hl.
  - (* the ratio is below 2^(a-b) *)
    assert (HY : 0 < 2 ^ (a - b - 1 + k)) by (apply Z.pow_pos_nonneg; lia).
    assert (E1 : 2 * 2 ^ (a - b - 1 + k) * 2 ^ b = 2 ^ a * 2 ^ k).
    { rewrite <- Z.pow_succ_r by lia. rewrite <- !Z.pow_add_r by lia.
      f_equal. lia. }
    replace (a - b - 1 + k + 1) with (Z.succ (a - b - 1 + k)) by lia.
    rewrite Z.pow_succ_r by lia.
    split; [ nia | ].
    destruct (Z.le_gt_cases 0 (a - b)) as [Hp | Hp].
    + rewrite (Z.max_r (- (a - b)) 0), (Z.max_l (a - b) 0) in T by lia.
      rewrite Z.pow_0_r, Z.mul_1_r in T.
      assert (E2 : 2 * 2 ^ (a - b - 1 + k) = 2 ^ (a - b) * 2 ^ k).
      { rewrite <- Z.pow_succ_r by lia. rewrite <- Z.pow_add_r by lia.
        f_equal. lia. }
      nia.
    + rewrite (Z.max_l (- (a - b)) 0), (Z.max_r (a - b) 0) in T by lia.
      rewrite Z.pow_0_r, Z.mul_1_r in T.
      assert (E2 : 2 ^ k = 2 ^ (- (a - b)) * (2 * 2 ^ (a - b - 1 + k))).
      { rewrite <- Z.pow_succ_r by lia. rewrite <- Z.pow_add_r by lia.
        f_equal. lia. }
      assert (0 < 2 ^ (- (a - b))) by (apply Z.pow_pos_nonneg; lia).
      nia.
  - (* the ratio is at least 2^(a-b) *)
    assert (HX : 0 < 2 ^ (a - b + k)) by (apply Z.pow_pos_nonneg; lia).
    assert (E1 : 2 ^ (a - b + k) * 2 ^ b = 2 ^ a * 2 ^ k).
    { rewrite <- !Z.pow_add_r by lia. f_equal. lia. }
    replace (a - b + k + 1) with (Z.succ (a - b + k)) by lia.
    rewrite Z.pow_succ_r by lia.
    split; [ | nia ].
    destruct (Z.le_gt_cases 0 (a - b)) as [Hp | Hp].
    + rewrite (Z.max_r (- (a - b)) 0), (Z.max_l (a - b) 0) in T by lia.
      rewrite Z.pow_0_r, Z.mul_1_r in T.
      assert (E2 : 2 ^ (a - b + k) = 2 ^ (a - b) * 2 ^ k).
      { rewrite <- Z.pow_add_r by lia. f_equal. }
      nia.
    + rewrite (Z.max_l (- (a - b)) 0), (Z.max_r (a - b) 0) in T by lia.
      rewrite Z.pow_0_r, Z.mul_1_r in T.
      assert (E2 : 2 ^ k = 2 ^ (- (a - b)) * 2 ^ (a - b + k)).
      { rewrite <- Z.pow_add_r by lia. f_equal. lia. }
      assert (0 < 2 ^ (- (a - b))) by (apply Z.pow_pos_nonneg; lia).
      nia.
Qed.

Lemma floor_log2_upper n d t :
  0 < n -> 0 < d -> -1076 <= t ->
  n * sc 0 < d * sc (t + 1) -> Read.floor_log2 n d <= t.
Proof.
  intros Hn Hd Ht H.
  set (l := Read.floor_log2 n d).
  set (k := Z.max 1076 (- l)).
  destruct (floor_log2_spec n d k Hn Hd ltac:(lia) ltac:(lia)) as [L _].
  fold l in L.
  assert (Hk : 0 < 2 ^ (k - 1076)) by (apply Z.pow_pos_nonneg; lia).
  assert (E1 : 2 ^ k = 2 ^ (k - 1076) * sc 0).
  { unfold sc. rewrite <- Z.pow_add_r by lia. f_equal. lia. }
  assert (E2 : 2 ^ (t + 1 + k) = 2 ^ (k - 1076) * sc (t + 1)).
  { unfold sc. rewrite <- Z.pow_add_r by lia. f_equal. lia. }
  assert (Hlt : d * 2 ^ (l + k) < d * 2 ^ (t + 1 + k)) by nia.
  apply Z.mul_lt_mono_pos_l in Hlt; [ | assumption ].
  apply Z.pow_lt_mono_r_iff in Hlt; lia.
Qed.

Lemma floor_log2_lower n d t :
  0 < n -> 0 < d -> -1076 <= t ->
  d * sc t <= n * sc 0 -> t <= Read.floor_log2 n d.
Proof.
  intros Hn Hd Ht H.
  set (l := Read.floor_log2 n d).
  set (k := Z.max 1076 (- l)).
  destruct (floor_log2_spec n d k Hn Hd ltac:(lia) ltac:(lia)) as [_ U].
  fold l in U.
  assert (Hk : 0 < 2 ^ (k - 1076)) by (apply Z.pow_pos_nonneg; lia).
  assert (E1 : 2 ^ k = 2 ^ (k - 1076) * sc 0).
  { unfold sc. rewrite <- Z.pow_add_r by lia. f_equal. lia. }
  assert (E2 : 2 ^ (t + k) = 2 ^ (k - 1076) * sc t).
  { unfold sc. rewrite <- Z.pow_add_r by lia. f_equal. lia. }
  assert (Hlt : d * 2 ^ (t + k) < d * 2 ^ (l + k + 1)) by nia.
  apply Z.mul_lt_mono_pos_l in Hlt; [ | assumption ].
  apply Z.pow_lt_mono_r_iff in Hlt; lia.
Qed.

(** ** The nearest float *)

Lemma mantissa_scaled n d e0 :
  0 < d -> -1076 <= e0 ->
  n * 2 ^ Z.max (- e0) 0 / (d * 2 ^ Z.max e0 0) = n * sc 0 / (d * sc e0).
Proof.
  intros Hd He.
  destruct (Z.le_gt_cases 0 e0) as [Hp | Hp].
  - rewrite (Z.max_r (- e0) 0), (Z.max_l e0 0) by lia.
    rewrite Z.pow_0_r, Z.mul_1_r.
    replace (sc e0) with (2 ^ e0 * sc 0)
      by (rewrite <- sc_add by lia; f_equal; lia).
    replace (d * (2 ^ e0 * sc 0)) with (d * 2 ^ e0 * sc 0) by ring.
    rewrite Z.div_mul_cancel_r; [ reflexivity | | ].
    + assert (0 < 2 ^ e0) by (apply Z.pow_pos_nonneg; lia). nia.
    + assert (H := sc_pos 0). lia.
  - rewrite (Z.max_l (- e0) 0), (Z.max_r e0 0) by lia.
    rewrite Z.pow_0_r, Z.mul_1_r.
    replace (sc 0) with (2 ^ (- e0) * sc e0)
      by (rewrite <- sc_add by lia; f_equal; lia).
    replace (n * (2 ^ (- e0) * sc e0)) with (n * 2 ^ (- e0) * sc e0) by ring.
    rewrite Z.div_mul_cancel_r; [ reflexivity | lia | ].
    assert (H := sc_pos e0). lia.
Qed.

Lemma digits2_pos_spec m :
  2 ^ (Z.pos (digits2_pos m) - 1) <= Z.pos m < 2 ^ Z.pos (digits2_pos m).
Proof.
  induction m as [m IH | m IH | ]; cbn [digits2_pos].
  - rewrite Pos2Z.inj_succ.
    replace (Z.succ (Z.pos (digits2_pos m)) - 1)
      with (Z.succ (Z.pos (digits2_pos m) - 1)) by lia.
    rewrite !Z.pow_succ_r by lia. lia.
  - rewrite Pos2Z.inj_succ.
    replace (Z.succ (Z.pos (digits2_pos m)) - 1)
      with (Z.succ (Z.pos (digits2_pos m) - 1)) by lia.
    rewrite !Z.pow_succ_r by lia. lia.
  - simpl. lia.
Qed.

(** A valid binary64 mantissa and exponent. *)
Lemma bounded_spec m e :
  bounded prec emax m e = true ->
  -1074 <= e <= 971
  /\ (2 ^ 52 <= Z.pos m < 2 ^ 53 \/ (Z.pos m < 2 ^ 52 /\ e = -1074)).
Proof.
  unfold bounded, canonical_mantissa, fexp, SpecFloat.emin, prec, emax.
  intros H. apply andb_prop in H. destruct H as [H1 H2].
  apply Z.eqb_eq in H1. apply Z.leb_le in H2.
  destruct (digits2_pos_spec m) as [D1 D2].
  set (g := Z.pos (digits2_pos m)) in *.
  assert (Hg : 0 < g) by (unfold g; lia).
  split; [ lia | ].
  destruct (Z.le_gt_cases 53 g) as [Hn | Hs].
  - left. assert (g = 53) by lia.
    replace g with 53 in D1, D2 by lia. simpl Z.sub in D1. lia.
  - right. split; [ | lia ].
    assert (2 ^ g <= 2 ^ 52) by (apply Z.pow_le_mono_r; lia). lia.
Qed.

Lemma pack_hit neg m e s q :
  bounded prec emax m e = true -> JS.rounds_to m e s q = true ->
  Read.pack neg s q (Z.pos m) e = Some (SF2Prim (S754_finite neg m e)).
Proof.
  intros Hb Hr. destruct (bounded_spec m e Hb) as [He Hm].
  unfold Read.pack.
  replace (Z.pos m =? 2 ^ 53) with false by (symmetry; apply Z.eqb_neq; lia).
  rewrite Hr.
  replace (971 <? e) with false by (symmetry; apply Z.ltb_ge; lia).
  reflexivity.
Qed.

Lemma pack_hit_carry neg m e s q :
  Z.pos m = 2 ^ 52 ->
  bounded prec emax m e = true -> JS.rounds_to m e s q = true ->
  Read.pack neg s q (2 ^ 53) (e - 1) = Some (SF2Prim (S754_finite neg m e)).
Proof.
  intros HM Hb Hr. destruct (bounded_spec m e Hb) as [He Hm].
  unfold Read.pack. rewrite Z.eqb_refl.
  replace (e - 1 + 1) with e by lia. rewrite <- HM. rewrite Hr.
  replace (971 <? e) with false by (symmetry; apply Z.ltb_ge; lia).
  reflexivity.
Qed.

(** The candidate just below [m * 2^e] is not taken. *)
Lemma pack_miss_below neg m e s q :
  bounded prec emax m e = true ->
  ~ (Z.pos m = 2 ^ 52 /\ -1074 < e) ->
  JS.rounds_to m e s q = true ->
  Read.pack neg s q (Z.pos m - 1) e = None.
Proof.
  intros Hb Hnb Hr. destruct (bounded_spec m e Hb) as [He Hm].
  apply rounds_to_spec in Hr; [ | lia ].
  unfold in_interval in Hr. cbv zeta in Hr.
  replace ((Z.pos m =? 2 ^ 52) && (-1074 <? e))%bool with false in Hr.
  2:{ symmetry. apply andb_false_iff.
      destruct (Z.eqb_spec (Z.pos m) (2 ^ 52)); [ | now left ].
      right. apply Z.ltb_ge. lia. }
  assert (HD := den_pos q).
  assert (HP := sc_pos (e - 1) ltac:(lia)).
  unfold Read.pack.
  replace (Z.pos m - 1 =? 2 ^ 53) with false by (symmetry; apply Z.eqb_neq; lia).
  destruct (Z.pos m - 1) as [ | p | p] eqn:Ep; [ | | lia ].
  - (* the candidate is zero: m = 1, a subnormal *)
    assert (HM : Z.pos m = 1) by lia.
    assert (Ee : e = -1074) by lia. subst e.
    rewrite cmp_dec_bin_scaled by lia.
    rewrite HM in Hr. change (Z.even 1) with false in Hr.
    replace (-1074 - 1) with (-1075) in Hr by lia.
    replace (Read.num s q * sc 0 ?= 1 * sc (-1075) * Read.den q) with Gt; [ reflexivity | ].
    symmetry. apply Z.compare_gt_iff. lia.
  - replace (JS.rounds_to p e s q) with false; [ reflexivity | ].
    symmetry. apply not_true_is_false. intros Hp.
    apply rounds_to_spec in Hp; [ | lia ].
    unfold in_interval in Hp. cbv zeta in Hp.
    assert (Hpar : Z.even (Z.pos p) = negb (Z.even (Z.pos m))).
    { replace (Z.pos m) with (Z.succ (Z.pos p)) by lia.
      rewrite Z.even_succ, <- Z.negb_even. now rewrite negb_involutive. }
    replace (2 * Z.pos p + 1) with (2 * Z.pos m - 1) in Hp by lia.
    rewrite Hpar in Hp.
    destruct (Z.even (Z.pos m)); cbn [negb] in Hp; lia.
Qed.

(** At the bottom of a binade the candidate below has the exponent below. *)
Lemma pack_miss_carry neg m e s q :
  Z.pos m = 2 ^ 52 -> -1074 < e ->
  bounded prec emax m e = true ->
  JS.rounds_to m e s q = true ->
  Read.pack neg s q (2 ^ 53 - 1) (e - 1) = None.
Proof.
  intros HM Hlow Hb Hr. destruct (bounded_spec m e Hb) as [He Hm].
  apply rounds_to_spec in Hr; [ | lia ].
  unfold in_interval in Hr. cbv zeta in Hr.
  replace ((Z.pos m =? 2 ^ 52) && (-1074 <? e))%bool with true in Hr.
  2:{ symmetry. apply andb_true_iff. split; [ apply Z.eqb_eq | apply Z.ltb_lt ];
      assumption. }
  rewrite HM in Hr. change (Z.even (2 ^ 52)) with true in Hr.
  assert (HD := den_pos q).
  assert (HP := sc_pos (e - 2) ltac:(lia)).
  unfold Read.pack.
  change (2 ^ 53 - 1 =? 2 ^ 53) with false.
  change (2 ^ 53 - 1) with (Z.pos 9007199254740991).
  cbv beta iota zeta.
  destruct (JS.rounds_to _ (e - 1) s q) eqn:Hp; [ exfalso | reflexivity ].
  apply rounds_to_spec in Hp; [ | lia ].
  unfold in_interval in Hp. cbv zeta in Hp.
  change (Z.even (Z.pos 9007199254740991)) with false in Hp.
  replace (e - 1 - 1) with (e - 2) in Hp by lia.
  change (Z.pos 9007199254740991 =? 2 ^ 52) with false in Hp.
  cbn [andb] in Hp.
  change (2 * Z.pos 9007199254740991 + 1) with (4 * 2 ^ 52 - 1) in Hp.
  cbv iota in Hr, Hp. lia.
Qed.

Lemma div_eq a b c : 0 < b -> c * b <= a < (c + 1) * b -> a / b = c.
Proof.
  intros Hb H. symmetry. apply (Z.div_unique a b c (a - c * b)); [ lia | ring ].
Qed.

(** Reading a decimal inside the rounding interval of a float gives that
    float. *)
Lemma nearest_correct neg m e s q :
  0 < s ->
  bounded prec emax m e = true ->
  JS.rounds_to m e s q = true ->
  Read.nearest neg s q = SF2Prim (S754_finite neg m e).
Proof.
  intros Hs Hb Hr.
  destruct (bounded_spec m e Hb) as [He Hm].
  assert (Hi := proj1 (rounds_to_spec m e s q ltac:(lia)) Hr).
  unfold in_interval in Hi. cbv zeta in Hi.
  assert (HN := num_pos s q Hs). assert (HD := den_pos q).
  assert (HP := sc_pos (e - 2) ltac:(lia)).
  assert (S1 : sc (e - 1) = 2 * sc (e - 2))
    by (rewrite <- sc_succ by lia; f_equal; lia).
  assert (S0 : sc e = 4 * sc (e - 2))
    by (replace e with (e - 2 + 2) at 1 by lia; rewrite sc_add by lia; lia).
  assert (S51 : sc (e + 51) = 2 ^ 53 * sc (e - 2))
    by (replace (e + 51) with (e - 2 + 53) by lia; rewrite sc_add by lia; lia).
  assert (S52 : sc (e + 52) = 2 ^ 54 * sc (e - 2))
    by (replace (e + 52) with (e - 2 + 54) by lia; rewrite sc_add by lia; lia).
  assert (S53 : sc (e + 53) = 2 ^ 55 * sc (e - 2))
    by (replace (e + 53) with (e - 2 + 55) by lia; rewrite sc_add by lia; lia).
  assert (S52' : sc (e + 51 + 1) = 2 ^ 54 * sc (e - 2))
    by (replace (e + 51 + 1) with (e + 52) by lia; exact S52).
  assert (S53' : sc (e + 52 + 1) = 2 ^ 55 * sc (e - 2))
    by (replace (e + 52 + 1) with (e + 53) by lia; exact S53).
  rewrite S1 in Hi.
  set (M := Z.pos m) in *. set (N := Read.num s q) in *. set (D := Read.den q) in *.
  set (P := sc (e - 2)) in *.
  assert (HU : 0 < P * D) by nia.
  assert (Hhi : N * sc 0 <= (2 * M + 1) * (2 * P) * D)
    by (destruct (_ && _)%bool, (Z.even M); lia).
  unfold Read.nearest. fold N. fold D.
  set (l := Read.floor_log2 N D).
  rewrite mantissa_scaled by lia.
  destruct (Z.le_gt_cases (4 * M * (P * D)) (N * sc 0)) as [Habove | Hbelow].
  - (* the decimal is at or above the float *)
    assert (E0 : Z.max (l - 52) (-1074) = e).
    { destruct Hm as [Hn | [Hsub Hee]].
      - assert (l = e + 52); [ | lia ].
        apply Z.le_antisymm.
        + apply floor_log2_upper; try lia; rewrite S53'; fold P; nia.
        + apply floor_log2_lower; try lia; rewrite S52; fold P; nia.
      - assert (l <= e + 51); [ | lia ].
        apply floor_log2_upper; try lia; rewrite S52'; fold P; nia. }
    rewrite E0, S0. fold P.
    replace (N * sc 0 / (D * (4 * P))) with M
      by (symmetry; apply div_eq; nia).
    unfold M. now rewrite (pack_hit neg m e s q Hb Hr).
  - (* the decimal is below the float *)
    destruct (Z.eqb_spec M (2 ^ 52)) as [HM | HM];
      [ destruct (Z.ltb_spec (-1074) e) as [Hlow | Hlow] | ].
    + (* the bottom of a binade *)
      cbn [andb] in Hi.
      assert (Hlo : (4 * M - 1) * P * D <= N * sc 0)
        by (destruct (Z.even M); lia).
      assert (El : l = e + 51).
      { apply Z.le_antisymm.
        - apply floor_log2_upper; try lia; rewrite S52'; fold P; nia.
        - apply floor_log2_lower; try lia; rewrite S51; fold P; nia. }
      replace (Z.max (l - 52) (-1074)) with (e - 1) by lia.
      rewrite S1. fold P.
      replace (N * sc 0 / (D * (2 * P))) with (2 ^ 53 - 1)
        by (symmetry; apply div_eq; nia).
      rewrite (pack_miss_carry neg m e s q HM Hlow Hb Hr).
      replace (2 ^ 53 - 1 + 1) with (2 ^ 53) by lia.
      now rewrite (pack_hit_carry neg m e s q HM Hb Hr).
    + (* the smallest normal number *)
      replace (-1074 <? e) with false in Hi by (symmetry; apply Z.ltb_ge; lia).
      rewrite andb_false_r in Hi.
      assert (Hlo : (2 * M - 1) * (2 * P) * D <= N * sc 0)
        by (destruct (Z.even M); lia).
      assert (E0 : Z.max (l - 52) (-1074) = e).
      { assert (l <= e + 51); [ | lia ].
        apply floor_log2_upper; try lia; rewrite S52'; fold P; nia. }
      rewrite E0, S0. fold P.
      replace (N * sc 0 / (D * (4 * P))) with (M - 1)
        by (symmetry; apply div_eq; nia).
      unfold M.
      rewrite (pack_miss_below neg m e s q Hb ltac:(lia) Hr).
      replace (Z.pos m - 1 + 1) with (Z.pos m) by lia.
      now rewrite (pack_hit neg m e s q Hb Hr).
    + (* inside a binade, or a subnormal *)
      replace (M =? 2 ^ 52) with false in Hi by (symmetry; apply Z.eqb_neq; lia).
      cbn [andb] in Hi.
      assert (Hlo : (2 * M - 1) * (2 * P) * D <= N * sc 0)
        by (destruct (Z.even M); lia).
      assert (E0 : Z.max (l - 52) (-1074) = e).
      { destruct Hm as [Hn | [Hsub Hee]].
        - assert (l = e + 52); [ | lia ].
          apply Z.le_antisymm.
          + apply floor_log2_upper; try lia; rewrite S53'; fold P; nia.
          + apply floor_log2_lower; try lia; rewrite S52; fold P; nia.
        - assert (l <= e + 51); [ | lia ].
          apply floor_log2_upper; try lia; rewrite S52'; fold P; nia. }
      rewrite E0, S0. fold P.
      replace (N * sc 0 / (D * (4 * P))) with (M - 1)
        by (symmetry; apply div_eq; nia).
      unfold M.
      rewrite (pack_miss_below neg m e s q Hb ltac:(unfold M in HM; lia) Hr).
      replace (Z.pos m - 1 + 1) with (Z.pos m) by lia.
      now rewrite (pack_hit neg m e s q Hb Hr).
Qed.

(** ** The digits of a float *)

Lemma cmp_dec_bin_shift s q a b :
  JS.cmp_dec_bin (10 * s) q a b = JS.cmp_dec_bin s (q + 1) a b.
Proof.
  unfold JS.cmp_dec_bin.
  destruct (Z.le_gt_cases 0 q) as [Hq | Hq].
  - rewrite (Z.max_l q 0), (Z.max_l (q + 1) 0), (Z.max_r (- q) 0),
      (Z.max_r (- (q + 1)) 0) by lia.
    rewrite Z.pow_add_r by lia. f_equal. ring.
  - rewrite (Z.max_r q 0), (Z.max_r (q + 1) 0), (Z.max_l (- q) 0),
      (Z.max_l (- (q + 1)) 0) by lia.
    replace (- q) with (Z.succ (- (q + 1))) by lia.
    rewrite Z.pow_succ_r by lia.
    set (x := 2 ^ Z.max (- b) 0). set (y := 2 ^ Z.max b 0).
    set (z := 10 ^ (- (q + 1))).
    replace (10 * s * 10 ^ 0 * x) with (s * 10 ^ 0 * x * 10) by ring.
    replace (a * y * (10 * z)) with (a * y * z * 10) by ring.
    apply mul_compare_r. lia.
Qed.

Lemma cmp_dec_bin_shifts j : forall s q a b,
  JS.cmp_dec_bin (10 ^ Z.of_nat j * s) q a b
  = JS.cmp_dec_bin s (q + Z.of_nat j) a b.
Proof.
  induction j as [ | j IH]; intros s q a b.
  - simpl Z.of_nat. rewrite Z.pow_0_r, Z.mul_1_l, Z.add_0_r. reflexivity.
  - rewrite Nat2Z.inj_succ, Z.pow_succ_r by lia.
    replace (10 * 10 ^ Z.of_nat j * s) with (10 ^ Z.of_nat j * (10 * s)) by ring.
    rewrite IH, cmp_dec_bin_shift. f_equal. lia.
Qed.

Lemma rounds_to_shift m e s q :
  JS.rounds_to m e (10 * s) q = JS.rounds_to m e s (q + 1).
Proof.
  unfold JS.rounds_to.
  destruct (JS.round_lo m e) as [la lb]. destruct (JS.round_hi m e) as [ha hb].
  now rewrite !cmp_dec_bin_shift.
Qed.

Lemma sc_split e :
  -1076 <= e -> sc e * 2 ^ Z.max (- e) 0 = sc 0 * 2 ^ Z.max e 0.
Proof.
  intros He. unfold sc. rewrite <- !Z.pow_add_r by lia. f_equal. lia.
Qed.

Lemma scaled_floor_spec m e q :
  -1076 <= e ->
  let s := JS.scaled_floor m e q in
  Read.num s q * sc 0 <= Z.pos m * sc e * Read.den q
  /\ Z.pos m * sc e * Read.den q < Read.num (s + 1) q * sc 0.
Proof.
  intros He. cbv zeta. unfold JS.scaled_floor, Read.num. fold (Read.den q).
  assert (HS := sc_split e He).
  assert (H0 := sc_pos 0 ltac:(lia)). assert (H1 := sc_pos e He).
  assert (HD := den_pos q).
  set (T := 2 ^ Z.max (- e) 0) in *. set (R := 2 ^ Z.max e 0) in *.
  set (G := 10 ^ Z.max q 0).
  assert (HT : 0 < T) by (apply Z.pow_pos_nonneg; lia).
  assert (HR : 0 < R) by (apply Z.pow_pos_nonneg; lia).
  assert (HG : 0 < G) by (apply Z.pow_pos_nonneg; lia).
  set (A := Z.pos m * R * Read.den q). set (B := T * G).
  assert (HB : 0 < B) by nia.
  assert (Hdiv := Z.div_mod A B ltac:(lia)).
  assert (Hmod := Z.mod_pos_bound A B HB).
  set (s := A / B) in *.
  assert (L : B * s <= A) by lia.
  assert (U : A < B * (s + 1)) by lia.
  unfold A, B in L, U.
  split.
  - apply (Z.mul_le_mono_pos_r _ _ R HR).
    replace (s * G * sc 0 * R) with (sc 0 * R * (G * s)) by ring.
    rewrite <- HS. nia.
  - apply (Z.mul_lt_mono_pos_r R _ _ HR).
    replace ((s + 1) * G * sc 0 * R) with (sc 0 * R * (G * (s + 1))) by ring.
    rewrite <- HS. nia.
Qed.

(** The test holds at every binary exponent of a binary64. *)
Lemma exponent_guess_checks :
  let T := log2_powers 340 1 in
  forallb (exponent_guess_check T)
    (map (fun i => Z.of_nat i - 1073) (seq 0 2098)) = true.
Proof. vm_compute. reflexivity. Qed.

Lemma nth_log2_powers n : forall i x,
  (i < n)%nat -> nth i (log2_powers n x) 0 = Z.log2 (10 ^ Z.of_nat i * x).
Proof.
  induction n as [ | n IH]; intros i x Hi; [ lia | ].
  destruct i as [ | i].
  - cbn [log2_powers nth]. change (Z.of_nat 0) with 0.
    now rewrite Z.pow_0_r, Z.mul_1_l.
  - cbn [log2_powers nth]. rewrite IH by lia.
    rewrite Nat2Z.inj_succ, Z.pow_succ_r by lia. f_equal. ring.
Qed.

Lemma log2_power_at_spec q :
  -340 < q < 340 ->
  log2_power_at (log2_powers 340 1) q = Z.log2 (10 ^ Z.max q 0).
Proof.
  intros Hq. unfold log2_power_at. rewrite nth_log2_powers by lia.
  rewrite Z.mul_1_r. do 2 f_equal. lia.
Qed.

(** Bit lengths settle a comparison of scaled quantities. *)
Lemma log2_le_scaled P D k1 k2 :
  0 < P -> 0 < D -> 0 <= k1 -> 0 <= k2 ->
  Z.log2 P + 1 + k1 <= k2 + Z.log2 D ->
  P * 2 ^ k1 <= 2 ^ k2 * D.
Proof.
  intros HP HD Hk1 Hk2 H.
  destruct (Z.log2_spec P HP) as [_ P2]. destruct (Z.log2_spec D HD) as [D1 _].
  assert (LP := Z.log2_nonneg P). assert (LD := Z.log2_nonneg D).
  assert (E : 2 ^ (Z.log2 P + 1 + k1) <= 2 ^ (k2 + Z.log2 D))
    by (apply Z.pow_le_mono_r; lia).
  rewrite !Z.pow_add_r in E by lia.
  replace (Z.succ (Z.log2 P)) with (Z.log2 P + 1) in P2 by lia.
  rewrite Z.pow_add_r in P2 by lia.
  assert (K1 : 0 < 2 ^ k1) by (apply Z.pow_pos_nonneg; lia).
  assert (K2 : 0 < 2 ^ k2) by (apply Z.pow_pos_nonneg; lia).
  nia.
Qed.

Lemma exponent_guess_ok_at b :
  -1073 <= b <= 1024 -> exponent_guess_ok b = true.
Proof.
  intros Hb.
  assert (H := proj1 (forallb_forall _ _) exponent_guess_checks b).
  assert (Hin : In b (map (fun i => Z.of_nat i - 1073) (seq 0 2098))).
  { apply in_map_iff. exists (Z.to_nat (b + 1073)). split; [ lia | ].
    apply in_seq. lia. }
  specialize (H Hin). clear Hin.
  unfold exponent_guess_check in H. cbv zeta in H.
  unfold exponent_guess_ok. cbv zeta.
  set (st := (b - 1) * 30103 / 100000 - 1) in *.
  assert (Hst : -330 <= st <= 310)
    by (unfold st; Z.div_mod_to_equations; lia).
  rewrite !log2_power_at_spec in H by lia.
  apply andb_prop in H. destruct H as [HA HB].
  apply Z.leb_le in HA, HB.
  rewrite !cmp_dec_bin_scaled by lia.
  assert (HP : forall q, 0 < 10 ^ Z.max q 0)
    by (intros q; apply Z.pow_pos_nonneg; lia).
  assert (A : Read.num 1 (st - 1) * sc 0 <= sc (b - 1) * Read.den (st - 1)).
  { unfold Read.num, Read.den, sc. rewrite Z.mul_1_l.
    apply log2_le_scaled; try apply HP; lia. }
  assert (B : sc b * Read.den (st + 7) <= Read.num 1 (st + 7) * sc 0).
  { unfold Read.num, Read.den, sc. rewrite Z.mul_1_l.
    rewrite (Z.mul_comm (2 ^ (b + 1076))), (Z.mul_comm (10 ^ Z.max (st + 7) 0)).
    apply log2_le_scaled; try apply HP; lia. }
  destruct (Z.compare_spec (Read.num 1 (st - 1) * sc 0)
              (1 * sc (b - 1) * Read.den (st - 1))); [ | | lia ];
    destruct (Z.compare_spec (Read.num 1 (st + 7) * sc 0)
                (1 * sc b * Read.den (st + 7))); try reflexivity; lia.
Qed.

Lemma dec_exponent_fuel_spec m e fuel : forall n,
  JS.cmp_dec_bin 1 (n - 1) (Z.pos m) e <> Gt ->
  JS.cmp_dec_bin 1 (n + Z.of_nat fuel - 1) (Z.pos m) e = Gt ->
  let r := JS.dec_exponent_fuel fuel m e n in
  JS.cmp_dec_bin 1 r (Z.pos m) e = Gt
  /\ JS.cmp_dec_bin 1 (r - 1) (Z.pos m) e <> Gt.
Proof.
  induction fuel as [ | fuel IH]; intros n Hlo Hhi; cbv zeta.
  - exfalso. apply Hlo. rewrite <- Hhi. f_equal. simpl Z.of_nat. lia.
  - cbn [JS.dec_exponent_fuel].
    destruct (JS.cmp_dec_bin 1 n (Z.pos m) e) eqn:E.
    + apply IH.
      * replace (n + 1 - 1) with n by lia. rewrite E. discriminate.
      * rewrite <- Hhi. f_equal. lia.
    + apply IH.
      * replace (n + 1 - 1) with n by lia. rewrite E. discriminate.
      * rewrite <- Hhi. f_equal. lia.
    + split; assumption.
Qed.

(** [10^(n-1) <= m * 2^e < 10^n] for the [n] of [dec_exponent]. *)
Lemma dec_exponent_spec m e :
  bounded prec emax m e = true ->
  let n := JS.dec_exponent m e in
  JS.cmp_dec_bin 1 n (Z.pos m) e = Gt
  /\ JS.cmp_dec_bin 1 (n - 1) (Z.pos m) e <> Gt.
Proof.
  intros Hb. destruct (bounded_spec m e Hb) as [He Hm].
  unfold JS.dec_exponent.
  assert (Hl := Z.log2_spec (Z.pos m) ltac:(lia)).
  assert (Hl0 := Z.log2_nonneg (Z.pos m)).
  set (g := Z.log2 (Z.pos m)) in *.
  assert (Hg : g <= 52).
  { destruct (Z.le_gt_cases g 52) as [ | Hgt]; [ assumption | exfalso ].
    assert (2 ^ 53 <= 2 ^ g) by (apply Z.pow_le_mono_r; lia). lia. }
  set (b := g + 1 + e).
  assert (Hok := exponent_guess_ok_at b ltac:(unfold b; lia)).
  unfold exponent_guess_ok in Hok. cbv zeta in Hok.
  set (st := (b - 1) * 30103 / 100000 - 1) in *.
  assert (HS1 : sc (b - 1) = 2 ^ g * sc e)
    by (unfold b; replace (g + 1 + e - 1) with (e + g) by lia;
        apply sc_add; lia).
  assert (HS2 : sc b = 2 ^ Z.succ g * sc e)
    by (unfold b; replace (g + 1 + e) with (e + Z.succ g) by lia;
        apply sc_add; lia).
  assert (HP := sc_pos e ltac:(lia)).
  apply dec_exponent_fuel_spec.
  - rewrite cmp_dec_bin_scaled by lia.
    rewrite cmp_dec_bin_scaled in Hok by (unfold b; lia).
    assert (HD := den_pos (st - 1)).
    destruct (Z.compare_spec (Read.num 1 (st - 1) * sc 0)
                (1 * sc (b - 1) * Read.den (st - 1))) as [E | L | G];
      try discriminate Hok;
      intros C; apply Z.compare_gt_iff in C; rewrite HS1 in *; nia.
  - rewrite cmp_dec_bin_scaled by lia.
    replace (st + Z.of_nat 8 - 1) with (st + 7) by lia.
    destruct (JS.cmp_dec_bin 1 (st - 1) 1 (b - 1)); try discriminate Hok.
    + rewrite cmp_dec_bin_scaled in Hok by (unfold b; lia).
      assert (HD := den_pos (st + 7)).
      destruct (Z.compare_spec (Read.num 1 (st + 7) * sc 0)
                  (1 * sc b * Read.den (st + 7))) as [E | L | G];
        try discriminate Hok; apply Z.compare_gt_iff; rewrite HS2 in *; nia.
    + rewrite cmp_dec_bin_scaled in Hok by (unfold b; lia).
      assert (HD := den_pos (st + 7)).
      destruct (Z.compare_spec (Read.num 1 (st + 7) * sc 0)
                  (1 * sc b * Read.den (st + 7))) as [E | L | G];
        try discriminate Hok; apply Z.compare_gt_iff; rewrite HS2 in *; nia.
Qed.

Lemma num_mul s q : Read.num s q = s * Read.num 1 q.
Proof. unfold Read.num. ring. Qed.

(** The floor has [k] digits or is [10^k - 1 + 1] short of it. *)
Lemma scaled_floor_digits m e k :
  bounded prec emax m e = true -> 1 <= k ->
  let s := JS.scaled_floor m e (JS.dec_exponent m e - k) in
  10 ^ (k - 1) <= s < 10 ^ k.
Proof.
  intros Hb Hk. destruct (bounded_spec m e Hb) as [He Hm]. cbv zeta.
  destruct (dec_exponent_spec m e Hb) as [Hup Hdn]. cbv zeta in Hup, Hdn.
  set (n0 := JS.dec_exponent m e) in *. set (q := n0 - k).
  destruct (scaled_floor_spec m e q ltac:(lia)) as [L U]. cbv zeta in L, U.
  set (s := JS.scaled_floor m e q) in *.
  assert (HG : 0 < Read.num 1 q) by (apply num_pos; lia).
  assert (H0 := sc_pos 0 ltac:(lia)).
  rewrite num_mul in L, U.
  split.
  - assert (E : JS.cmp_dec_bin (10 ^ (k - 1)) q (Z.pos m) e <> Gt).
    { replace (10 ^ (k - 1)) with (10 ^ Z.of_nat (Z.to_nat (k - 1)) * 1)
        by (rewrite Z2Nat.id by lia; ring).
      rewrite cmp_dec_bin_shifts, Z2Nat.id by lia.
      replace (q + (k - 1)) with (n0 - 1) by (unfold q; lia). exact Hdn. }
    rewrite cmp_dec_bin_scaled, num_mul in E by lia.
    destruct (Z.compare_spec (10 ^ (k - 1) * Read.num 1 q * sc 0)
                (Z.pos m * sc e * Read.den q)); try (exfalso; now apply E); nia.
  - assert (E : JS.cmp_dec_bin (10 ^ k) q (Z.pos m) e = Gt).
    { replace (10 ^ k) with (10 ^ Z.of_nat (Z.to_nat k) * 1)
        by (rewrite Z2Nat.id by lia; ring).
      rewrite cmp_dec_bin_shifts, Z2Nat.id by lia.
      replace (q + k) with n0 by (unfold q; lia). exact Hup. }
    rewrite cmp_dec_bin_scaled, num_mul in E by lia.
    apply Z.compare_gt_iff in E. nia.
Qed.

Lemma candidate_sound m e k d n :
  bounded prec emax m e = true -> 1 <= k ->
  JS.candidate m e k = Some (d, n) ->
  JS.rounds_to m e d (n - k) = true /\ 10 ^ (k - 1) <= d < 10 ^ k.
Proof.
  intros Hb Hk. unfold JS.candidate.
  assert (Hs := scaled_floor_digits m e k Hb Hk). cbv zeta in Hs.
  set (n0 := JS.dec_exponent m e) in *. set (q := n0 - k) in *.
  set (s := JS.scaled_floor m e q) in *.
  assert (Hpow : 10 ^ k = 10 * 10 ^ (k - 1)).
  { replace k with (Z.succ (k - 1)) at 1 by lia. apply Z.pow_succ_r. lia. }
  assert (Hout : forall t,
             JS.rounds_to m e t q = true -> 10 ^ (k - 1) <= t <= 10 ^ k ->
             (if t =? 10 ^ k then Some (10 ^ (k - 1), n0 + 1) else Some (t, n0))
             = Some (d, n) ->
             JS.rounds_to m e d (n - k) = true /\ 10 ^ (k - 1) <= d < 10 ^ k).
  { intros t Ht Hr. destruct (Z.eqb_spec t (10 ^ k)) as [E | E]; intros H;
      cbv iota in H; injection H as <- <-.
    - split; [ | lia ].
      replace (n0 + 1 - k) with (q + 1) by (unfold q; lia).
      rewrite <- rounds_to_shift, <- Hpow, <- E. exact Ht.
    - split; [ exact Ht | lia ]. }
  destruct ((10 ^ (k - 1) <=? s) && JS.rounds_to m e s q)%bool eqn:Elo;
    destruct (JS.rounds_to m e (s + 1) q) eqn:Ehi; cbv zeta;
    try (apply andb_prop in Elo; destruct Elo as [_ Elo]).
  - destruct (JS.cmp_dec_bin (s + (s + 1)) q (Z.pos m) (e + 1));
      [ destruct (Z.even s) | | ]; intros H;
      first [ apply (Hout s Elo ltac:(lia) H)
            | apply (Hout (s + 1) Ehi ltac:(lia) H) ].
  - intros H. apply (Hout s Elo ltac:(lia) H).
  - intros H. apply (Hout (s + 1) Ehi ltac:(lia) H).
  - discriminate.
Qed.

(** Seventeen digits always give a candidate. *)
Lemma candidate_17 m e :
  bounded prec emax m e = true -> JS.candidate m e 17 <> None.
Proof.
  intros Hb. destruct (bounded_spec m e Hb) as [He Hm].
  unfold JS.candidate.
  assert (Hs := scaled_floor_digits m e 17 Hb ltac:(lia)). cbv zeta in Hs.
  destruct (dec_exponent_spec m e Hb) as [_ Hdn]. cbv zeta in Hdn.
  set (n0 := JS.dec_exponent m e) in *. set (q := n0 - 17) in *.
  destruct (scaled_floor_spec m e q ltac:(lia)) as [L U]. cbv zeta in L, U.
  set (s := JS.scaled_floor m e q) in *.
  assert (Hin : JS.rounds_to m e s q = true \/ JS.rounds_to m e (s + 1) q = true).
  { rewrite !rounds_to_spec by lia. unfold in_interval. cbv zeta.
    assert (HG : 0 < Read.num 1 q) by (apply num_pos; lia).
    assert (H0 := sc_pos 0 ltac:(lia)).
    assert (HD := den_pos q).
    assert (HP := sc_pos (e - 2) ltac:(lia)).
    assert (S1 : sc (e - 1) = 2 * sc (e - 2))
      by (rewrite <- sc_succ by lia; f_equal; lia).
    assert (S0 : sc e = 4 * sc (e - 2))
      by (replace e with (e - 2 + 2) at 1 by lia; rewrite sc_add by lia; lia).
    assert (E : JS.cmp_dec_bin (10 ^ 16) q (Z.pos m) e <> Gt).
    { change (10 ^ 16) with (10 ^ Z.of_nat 16 * 1).
      rewrite cmp_dec_bin_shifts.
      replace (q + Z.of_nat 16) with (n0 - 1) by (unfold q; lia). exact Hdn. }
    rewrite cmp_dec_bin_scaled, num_mul in E by lia.
    assert (E' : 10 ^ 16 * Read.num 1 q * sc 0 <= Z.pos m * sc e * Read.den q).
    { destruct (Z.compare_spec (10 ^ 16 * Read.num 1 q * sc 0)
                  (Z.pos m * sc e * Read.den q)); try lia. exfalso. now apply E. }
    clear E.
    rewrite (num_mul s), (num_mul (s + 1)) in *.
    rewrite S1. rewrite S0 in *.
    set (M := Z.pos m) in *. set (P := sc (e - 2)) in *. set (D := Read.den q) in *.
    set (GG := Read.num 1 q * sc 0) in *.
    assert (HGG : 0 < GG) by (unfold GG; nia).
    assert (HU : 0 < P * D) by nia.
    replace (s * Read.num 1 q * sc 0) with (s * GG) in * by (unfold GG; ring).
    replace ((s + 1) * Read.num 1 q * sc 0) with (s * GG + GG) in * by (unfold GG; ring).
    replace (10 ^ 16 * Read.num 1 q * sc 0) with (10 ^ 16 * GG) in E'
      by (unfold GG; ring).
    assert (HM : M * (P * D) < 2 ^ 53 * (P * D)) by nia.
    destruct ((M =? 2 ^ 52) && (-1074 <? e))%bool eqn:Ebd.
    - right. apply andb_prop in Ebd. destruct Ebd as [Em _].
      apply Z.eqb_eq in Em.
      destruct (Z.even M); nia.
    - destruct (Z.le_gt_cases (2 * (P * D)) (s * GG + GG - M * (4 * P) * D))
        as [Hfar | Hnear].
      + left. destruct (Z.even M); nia.
      + right. destruct (Z.even M); nia. }
  destruct Hin as [Hlo | Hhi].
  - rewrite Hlo.
    replace (10 ^ (17 - 1) <=? s) with true by (symmetry; apply Z.leb_le; lia).
    cbn [andb]. cbv zeta.
    repeat match goal with
           | |- context [match ?x with _ => _ end] => destruct x
           end; discriminate.
  - rewrite Hhi. cbv zeta.
    repeat match goal with
           | |- context [match ?x with _ => _ end] => destruct x
           end; discriminate.
Qed.

Lemma shortest_fuel_spec m e fuel : forall k (j : nat),
  (j < fuel)%nat -> JS.candidate m e (k + Z.of_nat j) <> None ->
  exists d n k',
    JS.shortest_fuel fuel m e k = Some (d, n, k')
    /\ k <= k' <= k + Z.of_nat j
    /\ JS.candidate m e k' = Some (d, n).
Proof.
  induction fuel as [ | fuel IH]; intros k j Hj Hc; [ lia | ].
  cbn [JS.shortest_fuel].
  destruct (JS.candidate m e k) as [[d n] | ] eqn:E.
  - exists d, n, k. repeat split; try lia. exact E.
  - destruct j as [ | j].
    + exfalso. apply Hc. rewrite <- E. f_equal. simpl. lia.
    + destruct (IH (k + 1) j ltac:(lia)) as (d & n & k' & H1 & H2 & H3).
      { intros C. apply Hc. rewrite <- C. f_equal. lia. }
      exists d, n, k'. repeat split; try lia; assumption.
Qed.

(** The digits of a valid binary64: at most seventeen, no leading zero,
    and their value rounds to the float. *)
Lemma shortest_digits_spec m e :
  bounded prec emax m e = true ->
  exists d n k,
    JS.shortest_digits m e = Some (d, n, k)
    /\ 1 <= k <= 17
    /\ 10 ^ (k - 1) <= d < 10 ^ k
    /\ JS.rounds_to m e d (n - k) = true.
Proof.
  intros Hb. unfold JS.shortest_digits.
  destruct (shortest_fuel_spec m e 17 1 16 ltac:(lia))
    as (d & n & k & H1 & H2 & H3).
  { change (1 + Z.of_nat 16) with 17. now apply candidate_17. }
  exists d, n, k. split; [ exact H1 | ]. split; [ lia | ].
  destruct (candidate_sound m e k d n Hb ltac:(lia) H3) as [R Dg].
  split; assumption.
Qed.

(** ** Decimal digits as text *)

Lemma all_app p a b : Read.all p (a ++ b) = (Read.all p a && Read.all p b)%bool.
Proof.
  induction a as [ | c a IH]; [ reflexivity | ].
  simpl. rewrite IH. now rewrite andb_assoc.
Qed.

Lemma length_append a b :
  String.length (a ++ b) = (String.length a + String.length b)%nat.
Proof. induction a as [ | c a IH]; simpl; [ reflexivity | now rewrite IH ]. Qed.

Lemma digit_char_spec r :
  0 <= r < 10 ->
  Read.is_digit (JS.digit_char r) = true
  /\ Z.of_N (N_of_ascii (JS.digit_char r)) - 48 = r.
Proof.
  intros H.
  assert (C : r = 0 \/ r = 1 \/ r = 2 \/ r = 3 \/ r = 4 \/ r = 5 \/ r = 6
              \/ r = 7 \/ r = 8 \/ r = 9) by lia.
  repeat (destruct C as [C | C]; [ subst r; split; reflexivity | ]).
  subst r; split; reflexivity.
Qed.

Lemma digits_value_app a : forall t acc,
  Read.digits_value (a ++ t) acc = Read.digits_value t (Read.digits_value a acc).
Proof.
  induction a as [ | c a IH]; intros t acc; [ reflexivity | ].
  simpl. apply IH.
Qed.

Lemma digits_fuel_S fuel n acc :
  JS.digits_fuel (S fuel) n acc
  = if n <? 10 then String (JS.digit_char (n mod 10)) acc
    else JS.digits_fuel fuel (n / 10) (String (JS.digit_char (n mod 10)) acc).
Proof. reflexivity. Qed.

(** What [digits_fuel] appends before [acc]. *)
Lemma digits_fuel_spec fuel : forall n acc,
  0 <= n < 2 ^ Z.of_nat (S fuel) ->
  exists ds,
    JS.digits_fuel (S fuel) n acc = (ds ++ acc)%string
    /\ Read.all Read.is_digit ds = true
    /\ (1 <= String.length ds)%nat
    /\ n < 10 ^ Z.of_nat (String.length ds)
    /\ (n <> 0 -> 10 ^ (Z.of_nat (String.length ds) - 1) <= n)
    /\ (forall acc',
          Read.digits_value ds acc'
          = acc' * 10 ^ Z.of_nat (String.length ds) + n).
Proof.
  assert (Small : forall n acc fuel, 0 <= n < 10 ->
    exists ds,
      JS.digits_fuel (S fuel) n acc = (ds ++ acc)%string
      /\ Read.all Read.is_digit ds = true
      /\ (1 <= String.length ds)%nat
      /\ n < 10 ^ Z.of_nat (String.length ds)
      /\ (n <> 0 -> 10 ^ (Z.of_nat (String.length ds) - 1) <= n)
      /\ (forall acc',
            Read.digits_value ds acc'
            = acc' * 10 ^ Z.of_nat (String.length ds) + n)).
  { intros n acc fuel' Hsmall. rewrite digits_fuel_S.
    destruct (digit_char_spec n Hsmall) as [Hd Hv].
    replace (n <? 10) with true by (symmetry; apply Z.ltb_lt; lia).
    rewrite Z.mod_small by lia.
    exists (String (JS.digit_char n) EmptyString).
    cbn [String.length append Read.all Read.digits_value].
    change (Z.of_nat 1) with 1. rewrite Z.pow_1_r.
    change (1 - 1) with 0. rewrite Z.pow_0_r. rewrite Hd, Hv.
    repeat split; try reflexivity; try lia. }
  induction fuel as [ | fuel IH]; intros n acc Hn.
  - apply Small. simpl in Hn. lia.
  - destruct (Z.ltb_spec n 10) as [Hsmall | Hbig]; [ apply Small; lia | ].
    rewrite digits_fuel_S.
    replace (n <? 10) with false by (symmetry; apply Z.ltb_ge; lia).
    destruct (digit_char_spec (n mod 10)
                ltac:(apply Z.mod_pos_bound; lia)) as [Hd Hv].
    destruct (IH (n / 10) (String (JS.digit_char (n mod 10)) acc))
      as (ds & E & Ha & Hl & Hup & Hlo & Hval).
    { rewrite (Nat2Z.inj_succ (S fuel)), Z.pow_succ_r in Hn by lia.
      assert (0 < 2 ^ Z.of_nat (S fuel)) by (apply Z.pow_pos_nonneg; lia).
      split; [ apply Z.div_pos; lia | ].
      apply Z.div_lt_upper_bound; lia. }
    exists (ds ++ String (JS.digit_char (n mod 10)) EmptyString)%string.
    assert (Hdm := Z.div_mod n 10 ltac:(lia)).
    assert (Hlen : Z.of_nat (String.length
              (ds ++ String (JS.digit_char (n mod 10)) EmptyString))
            = Z.succ (Z.of_nat (String.length ds))).
    { rewrite length_append. simpl. lia. }
    rewrite Hlen. rewrite Z.pow_succ_r by lia.
    assert (Hmod := Z.mod_pos_bound n 10 ltac:(lia)).
    repeat split.
    + rewrite E. now rewrite append_assoc.
    + rewrite all_app, Ha. simpl. now rewrite Hd.
    + rewrite length_append. simpl. lia.
    + lia.
    + intros _. replace (Z.succ (Z.of_nat (String.length ds)) - 1)
        with (Z.succ (Z.of_nat (String.length ds) - 1)) by lia.
      rewrite Z.pow_succ_r by lia.
      assert (Hq : n / 10 <> 0) by (intros C; rewrite C in Hdm; lia).
      specialize (Hlo Hq). lia.
    + intros acc'. rewrite digits_value_app, Hval.
      cbn [Read.digits_value]. rewrite Hv. lia.
Qed.

Lemma digits_of_Z_spec n :
  0 <= n ->
  let ds := JS.digits_of_Z n in
  Read.all Read.is_digit ds = true
  /\ (1 <= String.length ds)%nat
  /\ n < 10 ^ Z.of_nat (String.length ds)
  /\ (n <> 0 -> 10 ^ (Z.of_nat (String.length ds) - 1) <= n)
  /\ (forall acc',
        Read.digits_value ds acc'
        = acc' * 10 ^ Z.of_nat (String.length ds) + n).
Proof.
  intros Hn. cbv zeta. unfold JS.digits_of_Z.
  destruct (digits_fuel_spec (Z.to_nat (Z.log2 n)) n EmptyString)
    as (ds & E & H).
  { rewrite Nat2Z.inj_succ, Z2Nat.id by apply Z.log2_nonneg.
    destruct (Z.eq_dec n 0) as [-> | Hnz]; [ simpl; lia | ].
    split; [ lia | ]. apply Z.log2_spec. lia. }
  rewrite E, append_empty_r. exact H.
Qed.

(** A number with [k] digits has [k] characters. *)
Lemma digits_of_Z_length d k :
  1 <= k -> 10 ^ (k - 1) <= d < 10 ^ k ->
  Z.of_nat (String.length (JS.digits_of_Z d)) = k.
Proof.
  intros Hk Hd.
  assert (Hpos : 0 < 10 ^ (k - 1)) by (apply Z.pow_pos_nonneg; lia).
  destruct (digits_of_Z_spec d ltac:(lia)) as (_ & Hl & Hup & Hlo & _).
  specialize (Hlo ltac:(lia)).
  set (g := Z.of_nat (String.length (JS.digits_of_Z d))) in *.
  assert (H1 : 10 ^ (k - 1) < 10 ^ g) by lia.
  assert (H2 : 10 ^ (g - 1) < 10 ^ k) by lia.
  apply Z.pow_lt_mono_r_iff in H1; [ | lia | lia ].
  apply Z.pow_lt_mono_r_iff in H2; [ | lia | lia ].
  lia.
Qed.

(** ** The reader of numbers, piece by piece *)

Lemma stops_exponent_text ex p :
  p "e"%char = false -> stops p (exponent_text ex).
Proof. intros H. destruct ex; simpl; [ exact H | exact I ]. Qed.

Lemma read_exponent_text ex :
  Read.read_exponent (exponent_text ex)
  = Some match ex with Some z => z | None => 0 end.
Proof.
  destruct ex as [z | ]; [ | reflexivity ].
  unfold exponent_text, Read.read_exponent.
  change (Ascii.eqb "e" "e" || Ascii.eqb "e" "E")%bool with true. cbv iota.
  destruct (digits_of_Z_spec (Z.abs z) ltac:(lia)) as (Ha & Hl & _ & _ & Hv).
  set (ds := JS.digits_of_Z (Z.abs z)) in *.
  assert (Hsp : Read.span Read.is_digit ds = (ds, EmptyString)).
  { rewrite <- (append_empty_r ds) at 1. now apply span_app. }
  assert (Hval : Read.digits_value ds 0 = Z.abs z) by (rewrite Hv; lia).
  destruct (Z.ltb_spec z 0) as [Hneg | Hpos];
    cbn [append]; rewrite Hsp; destruct ds as [ | c ds'];
    try (simpl in Hl; lia); rewrite Hval; f_equal; lia.
Qed.

Lemma read_unsigned_spec neg int frac ex :
  Read.all Read.is_digit int = true -> int <> EmptyString ->
  Read.all Read.is_digit frac = true ->
  Read.read_unsigned neg (int ++ fraction_text frac ++ exponent_text ex)
  = let s := Read.digits_value (int ++ frac) 0 in
    let q := match ex with Some z => z | None => 0 end
             - Z.of_nat (String.length frac) in
    if s =? 0 then Some (if neg then neg_zero else zero)
    else Some (Read.nearest neg s q).
Proof.
  intros Hint Hne Hfrac. unfold Read.read_unsigned.
  assert (Hstop : stops Read.is_digit (fraction_text frac ++ exponent_text ex)).
  { destruct frac; [ | reflexivity ].
    cbn [fraction_text append]. now apply stops_exponent_text. }
  rewrite (span_app _ _ _ Hint Hstop).
  destruct int as [ | c int']; [ contradiction | ].
  assert (Hfr : Read.read_fraction (fraction_text frac ++ exponent_text ex)
                = Some (frac, exponent_text ex)).
  { destruct frac as [ | f frac'].
    - cbn [fraction_text append]. destruct ex; reflexivity.
    - set (fr := String f frac') in *.
      change (fraction_text fr ++ exponent_text ex)%string
        with (String "." (fr ++ exponent_text ex)%string).
      cbn [Read.read_fraction].
      rewrite (span_app _ _ _ Hfrac (stops_exponent_text ex _ eq_refl)).
      reflexivity. }
  rewrite Hfr, read_exponent_text. reflexivity.
Qed.

(** ** The texts [Number::toString] writes *)

Lemma take_drop n : forall s, (JS.take n s ++ JS.drop n s)%string = s.
Proof.
  induction n as [ | n IH]; intros [ | c s]; try reflexivity.
  simpl. now rewrite IH.
Qed.

Lemma all_take p n : forall s,
  Read.all p s = true -> Read.all p (JS.take n s) = true.
Proof.
  induction n as [ | n IH]; intros [ | c s] H; try reflexivity.
  simpl in *. apply andb_prop in H. destruct H as [Hc Hs].
  now rewrite Hc, (IH s Hs).
Qed.

Lemma all_drop p n : forall s,
  Read.all p s = true -> Read.all p (JS.drop n s) = true.
Proof.
  induction n as [ | n IH]; intros [ | c s] H; try assumption.
  simpl in *. apply andb_prop in H. destruct H as [Hc Hs]. now apply IH.
Qed.

Lemma length_take n : forall s,
  (n <= String.length s)%nat -> String.length (JS.take n s) = n.
Proof.
  induction n as [ | n IH]; intros [ | c s] H; try reflexivity.
  - simpl in H. lia.
  - simpl in *. rewrite IH; lia.
Qed.

Lemma length_drop n : forall s,
  String.length (JS.drop n s) = (String.length s - n)%nat.
Proof.
  induction n as [ | n IH]; intros [ | c s]; try reflexivity.
  simpl. apply IH.
Qed.

Lemma all_zeros j : Read.all Read.is_digit (JS.zeros j) = true.
Proof. induction j as [ | j IH]; [ reflexivity | exact IH ]. Qed.

Lemma length_zeros j : String.length (JS.zeros j) = j.
Proof. induction j as [ | j IH]; simpl; [ reflexivity | now rewrite IH ]. Qed.

Lemma digits_value_zeros j : forall acc,
  Read.digits_value (JS.zeros j) acc = 10 ^ Z.of_nat j * acc.
Proof.
  induction j as [ | j IH]; intros acc.
  - cbn [JS.zeros Read.digits_value]. change (Z.of_nat 0) with 0.
    rewrite Z.pow_0_r. lia.
  - rewrite Nat2Z.inj_succ, Z.pow_succ_r by lia.
    cbn [JS.zeros Read.digits_value]. rewrite IH.
    change (Z.of_N (N_of_ascii "0") - 48) with 0. ring.
Qed.

Lemma nonempty_length s : (1 <= String.length s)%nat -> s <> EmptyString.
Proof. destruct s; simpl; [ lia | discriminate ]. Qed.

Lemma fraction_text_nonempty frac :
  (1 <= String.length frac)%nat -> fraction_text frac = String "." frac.
Proof. destruct frac; simpl; [ lia | reflexivity ]. Qed.

Lemma all_digit_number_char s :
  Read.all Read.is_digit s = true -> Read.all Read.is_number_char s = true.
Proof.
  induction s as [ | c s IH]; [ reflexivity | ].
  simpl. intros H. apply andb_prop in H. destruct H as [Hc Hs].
  rewrite (IH Hs). unfold Read.is_number_char. now rewrite Hc.
Qed.

Lemma all_fraction_text frac :
  Read.all Read.is_digit frac = true ->
  Read.all Read.is_number_char (fraction_text frac) = true.
Proof.
  intros H. destruct frac as [ | c f]; [ reflexivity | ].
  apply all_digit_number_char in H. unfold fraction_text.
  change (Read.all Read.is_number_char (String "." (String c f)))
    with (Read.all Read.is_number_char (String c f)). exact H.
Qed.

Lemma all_exponent_text ex :
  Read.all Read.is_number_char (exponent_text ex) = true.
Proof.
  destruct ex as [z | ]; [ | reflexivity ].
  destruct (digits_of_Z_spec (Z.abs z) ltac:(lia)) as (Ha & _).
  unfold exponent_text. cbn [Read.all]. rewrite all_app.
  rewrite (all_digit_number_char _ Ha).
  now destruct (z <? 0).
Qed.

Lemma rounds_to_shifts m e j s q :
  JS.rounds_to m e (10 ^ Z.of_nat j * s) q
  = JS.rounds_to m e s (q + Z.of_nat j).
Proof.
  unfold JS.rounds_to.
  destruct (JS.round_lo m e) as [la lb]. destruct (JS.round_hi m e) as [ha hb].
  now rewrite !cmp_dec_bin_shifts.
Qed.

(** The text of [d * 10^(n-k)] is an integer part, a fraction and an
    exponent that denote this number. *)
Lemma format_digits_parts d n k :
  1 <= k -> 10 ^ (k - 1) <= d < 10 ^ k ->
  exists int frac ex (j : nat),
    JS.format_digits d n k
    = (int ++ fraction_text frac ++ exponent_text ex)%string
    /\ Read.all Read.is_digit int = true
    /\ int <> EmptyString
    /\ Read.all Read.is_digit frac = true
    /\ Read.digits_value (int ++ frac) 0 = 10 ^ Z.of_nat j * d
    /\ match ex with Some z => z | None => 0 end
       - Z.of_nat (String.length frac) + Z.of_nat j = n - k.
Proof.
  intros Hk Hd.
  assert (Hpos : 0 < 10 ^ (k - 1)) by (apply Z.pow_pos_nonneg; lia).
  assert (Hlen := digits_of_Z_length d k Hk Hd).
  destruct (digits_of_Z_spec d ltac:(lia)) as (Ha & Hl & _ & _ & Hv).
  unfold JS.format_digits. cbv zeta.
  set (ds := JS.digits_of_Z d) in *.
  assert (Hval : forall acc, Read.digits_value ds acc
                             = acc * 10 ^ Z.of_nat (String.length ds) + d)
    by exact Hv.
  destruct ((k <=? n) && (n <=? 21))%bool eqn:C1.
  { (* digits, then zeros *)
    apply andb_prop in C1. destruct C1 as [C1 _]. apply Z.leb_le in C1.
    exists (ds ++ JS.zeros (Z.to_nat (n - k)))%string, EmptyString, None,
      (Z.to_nat (n - k)).
    cbn [fraction_text exponent_text String.length].
    rewrite !append_empty_r. split; [ reflexivity | ].
    split; [ now rewrite all_app, Ha, all_zeros | ].
    split; [ apply nonempty_length; rewrite length_append; lia | ].
    split; [ reflexivity | ].
    split; [ rewrite digits_value_app, digits_value_zeros, Hval; f_equal; lia
           | lia ]. }
  destruct ((0 <? n) && (n <=? 21))%bool eqn:C2.
  { (* a point inside the digits *)
    apply andb_prop in C2. destruct C2 as [C2 C2']. apply Z.ltb_lt in C2.
    apply Z.leb_le in C2'.
    assert (Hnk : n < k).
    { destruct (Z.leb_spec k n); [ | lia ].
      rewrite (proj2 (Z.leb_le n 21) C2') in C1. discriminate. }
    exists (JS.take (Z.to_nat n) ds), (JS.drop (Z.to_nat n) ds), None, O.
    assert (Lt : String.length (JS.take (Z.to_nat n) ds) = Z.to_nat n)
      by (apply length_take; lia).
    assert (Ld : String.length (JS.drop (Z.to_nat n) ds)
                 = (String.length ds - Z.to_nat n)%nat) by apply length_drop.
    rewrite fraction_text_nonempty by lia.
    cbn [exponent_text]. rewrite append_empty_r.
    split; [ reflexivity | ].
    split; [ now apply all_take | ].
    split; [ apply nonempty_length; lia | ].
    split; [ now apply all_drop | ].
    rewrite take_drop, Hval, Ld. split; lia. }
  destruct ((-6 <? n) && (n <=? 0))%bool eqn:C3.
  { (* zeros after the point *)
    apply andb_prop in C3. destruct C3 as [C3 C3']. apply Z.ltb_lt in C3.
    apply Z.leb_le in C3'.
    exists "0"%string, (JS.zeros (Z.to_nat (- n)) ++ ds)%string, None, O.
    assert (Lf : String.length (JS.zeros (Z.to_nat (- n)) ++ ds)
                 = (Z.to_nat (- n) + String.length ds)%nat)
      by (now rewrite length_append, length_zeros).
    rewrite fraction_text_nonempty by lia.
    cbn [exponent_text]. rewrite append_empty_r.
    split; [ reflexivity | ].
    split; [ reflexivity | ].
    split; [ discriminate | ].
    split; [ now rewrite all_app, all_zeros, Ha | ].
    split; [ | lia ].
    change ("0" ++ JS.zeros (Z.to_nat (- n)) ++ ds)%string
      with (JS.zeros (S (Z.to_nat (- n))) ++ ds)%string.
    rewrite digits_value_app, digits_value_zeros, Hval. lia. }
  (* an exponent *)
  destruct (Z.eqb_spec k 1) as [K1 | K1].
  - exists ds, EmptyString, (Some (n - 1)), O.
    split; [ reflexivity | ].
    split; [ exact Ha | ].
    split; [ apply nonempty_length; lia | ].
    split; [ reflexivity | ].
    rewrite append_empty_r, Hval. cbn [String.length]. split; lia.
  - exists (JS.take 1 ds), (JS.drop 1 ds), (Some (n - 1)), O.
    assert (Lt : String.length (JS.take 1 ds) = 1%nat)
      by (apply length_take; lia).
    assert (Ld : String.length (JS.drop 1 ds) = (String.length ds - 1)%nat)
      by apply length_drop.
    rewrite fraction_text_nonempty by lia.
    split; [ unfold exponent_text; now rewrite !append_assoc | ].
    split; [ now apply all_take | ].
    split; [ apply nonempty_length; lia | ].
    split; [ now apply all_drop | ].
    rewrite take_drop, Hval, Ld. split; lia.
Qed.

(** ** Every finite number but [-0] survives its text *)

Lemma read_sign_digit c t :
  Read.is_digit c = true -> Read.read_sign (String c t) = (false, String c t).
Proof.
  intros H. unfold Read.read_sign.
  destruct c as [[ | ] [ | ] [ | ] [ | ] [ | ] [ | ] [ | ] [ | ]];
    try reflexivity; discriminate H.
Qed.

Lemma read_number_signed (neg : bool) body :
  (exists c t, body = String c t /\ Read.is_digit c = true) ->
  Read.read_number (if neg then String "-" body else body)
  = Read.read_unsigned neg body.
Proof.
  intros (c & t & -> & Hc). unfold Read.read_number.
  destruct neg; [ reflexivity | ].
  now rewrite (read_sign_digit c t Hc).
Qed.

(** The text of a finite number other than [-0] holds the characters of a
    number only and reads back as the number. *)
Lemma finite_survives x :
  is_finite x = true -> Prim2SF x <> S754_zero true -> survives_text x.
Proof.
  intros Hf Hz. unfold survives_text. split; [ exact Hf | ].
  assert (Hx := FloatAxioms.SF2Prim_Prim2SF x).
  assert (Hv := FloatAxioms.Prim2SF_valid x).
  unfold JS.Number_toString.
  destruct (Prim2SF x) as [ [ | ] | s | | s m e ] eqn:E.
  - now contradiction Hz.
  - split; [ reflexivity | ]. rewrite <- Hx. reflexivity.
  - rewrite <- Hx in Hf. destruct s; discriminate Hf.
  - rewrite <- Hx in Hf. discriminate Hf.
  - cbn [valid_binary] in Hv.
    destruct (shortest_digits_spec m e Hv) as (d & n & k & -> & Hk & Hd & Hr).
    destruct (format_digits_parts d n k ltac:(lia) Hd)
      as (int & frac & ex & j & -> & Hi & Hne & Hfr & Hval & Hq).
    assert (Hpos : 0 < 10 ^ (k - 1)) by (apply Z.pow_pos_nonneg; lia).
    assert (Hj : 0 < 10 ^ Z.of_nat j) by (apply Z.pow_pos_nonneg; lia).
    split.
    + assert (Hb : Read.all Read.is_number_char
                     (int ++ fraction_text frac ++ exponent_text ex) = true).
      { rewrite !all_app, (all_digit_number_char _ Hi),
          (all_fraction_text _ Hfr), all_exponent_text. reflexivity. }
      destruct s; [ | exact Hb ].
      cbn [append Read.all]. exact Hb.
    + set (body := (int ++ fraction_text frac ++ exponent_text ex)%string).
      change (Read.read_number (if s then String "-" body else body) = Some x).
      subst body. rewrite read_number_signed.
      * rewrite (read_unsigned_spec s int frac ex Hi Hne Hfr). cbv zeta.
        rewrite Hval.
        destruct (Z.eqb_spec (10 ^ Z.of_nat j * d) 0) as [H0 | _]; [ nia | ].
        f_equal. rewrite <- Hx. apply nearest_correct; [ nia | exact Hv | ].
        rewrite rounds_to_shifts, Hq. exact Hr.
      * destruct int as [ | c t]; [ contradiction | ].
        exists c, (t ++ fraction_text frac ++ exponent_text ex)%string.
        split; [ reflexivity | ].
        cbn [Read.all] in Hi. apply andb_prop in Hi. apply Hi.
Qed.

End DecimalText.

Lemma plain_survives x : plain x -> survives_text x.
Proof.
  intros (Hf & Hz). apply finite_survives; [ exact Hf | ].
  intros E. apply Hz. rewrite <- (FloatAxioms.SF2Prim_Prim2SF x), E.
  reflexivity.
Qed.

Lemma engine_numbers_plain x :
  In x (FONT_SIZES ++ LINE_HEIGHTS ++ FONT_WEIGHTS)%list -> plain x.
Proof.
  unfold FONT_SIZES, LINE_HEIGHTS, FONT_WEIGHTS. cbn [List.app In].
  intros H.
  repeat match goal with
         | H : _ \/ _ |- _ => destruct H as [H | H]
         | H : False |- _ => destruct H
         end;
    rewrite <- H; (split; [ reflexivity | ]);
    intros E; apply (f_equal Prim2SF) in E; vm_compute in E; discriminate E.
Qed.

Lemma result_numbers_plain conditions colorVision prescription
    currentSettings :
  plain_numbers (snd (calculateRecommendations conditions colorVision
                        prescription currentSettings)).
Proof.
  destruct (result_settings conditions colorVision prescription
              currentSettings) as (E1 & E2 & E3 & _).
  destruct (after_conditions_values (autoDetect conditions prescription)
              (refraction prescription)) as (V1 & V2 & V3).
  unfold plain_numbers. rewrite E1, E2, E3.
  repeat split; apply engine_numbers_plain; rewrite !in_app_iff; auto.
Qed.

(* ================================================================== *)
(** * The serializer: the claims *)
(* ================================================================== *)

(** C1, as stated, fails: the sublime text is the same for the results of
    two inputs that differ in font weight (blur alone: 500; blur with light
    sensitivity: 400), so no reader recovers the weight from it. *)
Lemma sublime_loses_font_weight :
  ~ (round_trip_on (fun _ => True) "vscode"
     /\ round_trip_on (fun _ => True) "zed"
     /\ round_trip_on (fun _ => True) "sublime").
Proof.
  intros (_ & _ & parse & Hparse).
  pose (a := snd (calculateRecommendations ONLY_BLUR normal None None)).
  pose (b := snd (calculateRecommendations BLUR_AND_LIGHT normal None None)).
  assert (Ha := Hparse a I). assert (Hb := Hparse b I).
  assert (E : generateEditorConfig a "sublime" = generateEditorConfig b "sublime")
    by (vm_compute; reflexivity).
  rewrite E, Hb in Ha.
  assert (W : fontWeight b = fontWeight a).
  { unfold settings in Ha. congruence. }
  apply (f_equal (fun x => (x <? 450)%float)) in W.
  vm_compute in W. discriminate W.
Qed.

(** The vscode text does not tell a NaN font size from an infinite one:
    both are written [null].  Hence the condition on the numbers below. *)
Lemma vscode_loses_non_finite_numbers :
  ~ round_trip_on (fun _ => True) "vscode".
Proof.
  intros (parse & Hparse).
  assert (Ha := Hparse (set_fontSize initial nan) I).
  assert (Hb := Hparse (set_fontSize initial infinity) I).
  assert (E : generateEditorConfig (set_fontSize initial nan) "vscode"
              = generateEditorConfig (set_fontSize initial infinity) "vscode")
    by (vm_compute; reflexivity).
  rewrite E, Hb in Ha.
  assert (W : infinity = nan).
  { unfold settings in Ha. cbn [set_fontSize fontSize] in Ha. congruence. }
  apply (f_equal (fun x => (x =? x)%float)) in W.
  vm_compute in W. discriminate W.
Qed.

(** Nor does it tell [-0] from [0]: both are written [0]. *)
Lemma vscode_loses_negative_zero :
  ~ round_trip_on (fun r => is_finite (fontSize r) = true) "vscode".
Proof.
  intros (parse & Hparse).
  assert (Ha := Hparse (set_fontSize initial neg_zero) eq_refl).
  assert (Hb := Hparse (set_fontSize initial zero) eq_refl).
  assert (E : generateEditorConfig (set_fontSize initial neg_zero) "vscode"
              = generateEditorConfig (set_fontSize initial zero) "vscode")
    by (vm_compute; reflexivity).
  rewrite E, Hb in Ha.
  assert (W : zero = neg_zero).
  { unfold settings in Ha. cbn [set_fontSize fontSize] in Ha. congruence. }
  apply (f_equal Prim2SF) in W. vm_compute in W. discriminate W.
Qed.

(** C1, amended: for vscode and for zed there is a reader that gives back
    the font size, line height, font weight and cursor style of every
    recommendation whose three numbers are finite and not [-0]; every
    recommendation the engine returns is one.  The sublime text does not
    change with the font weight: it is fixed by the font, the font size,
    the line padding, whether the cursor is a block, and the theme. *)
Theorem settings_round_trip :
  round_trip_on plain_numbers "vscode"
  /\ round_trip_on plain_numbers "zed"
  /\ (forall conditions colorVision prescription currentSettings,
        plain_numbers (snd (calculateRecommendations conditions colorVision
                              prescription currentSettings)))
  /\ (forall r weight,
        generateEditorConfig (set_fontWeight r weight) "sublime"
        = generateEditorConfig r "sublime")
  /\ (forall r r',
        font_of r = font_of r' -> fontSize r = fontSize r' ->
        line_padding r = line_padding r' ->
        (cursorStyle r = block <-> cursorStyle r' = block) ->
        theme_of r = theme_of r' ->
        generateEditorConfig r "sublime" = generateEditorConfig r' "sublime").
Proof.
  repeat apply conj.
  - exists (Read.parse Read.vscode). intros r (Hs & Hh & Hw).
    apply read_vscode; now apply plain_survives.
  - exists (Read.parse Read.zed). intros r (Hs & Hh & Hw).
    apply read_zed; now apply plain_survives.
  - apply result_numbers_plain.
  - intros r weight. reflexivity.
  - intros r r' Hfont Hsize Hpad Hblock Htheme.
    rewrite !sublime_text, Hfont, Hsize, Hpad, Htheme.
    destruct (cursorStyle r), (cursorStyle r'); try reflexivity;
      destruct Hblock as [H1 H2];
      try (specialize (H1 eq_refl); discriminate H1);
      try (specialize (H2 eq_refl); discriminate H2).
Qed.

(** C1 amended, at the result for blur alone. *)
Lemma settings_round_trip_witness :
  exists parse : string -> option Read.Settings,
    parse (generateEditorConfig
             (snd (calculateRecommendations ONLY_BLUR normal None None))
             "vscode")
    = Some (17, 1.5, 500, block)%float.
Proof.
  destruct (proj1 settings_round_trip) as (parse & H).
  exists parse.
  exact (H _ (result_numbers_plain ONLY_BLUR normal None None)).
Defined.

(** C8, as stated, fails: a non-empty [suggestedThemes] whose first entry is
    the empty string gives no theme key. *)
Lemma empty_theme_name_is_dropped : ~ theme_follows (fun _ => True).
Proof.
  intros H.
  destruct (H EMPTY_THEME_NAME) as (_ & _ & H2).
  destruct (H2 EmptyString [] eq_refl I) as (Hv & _).
  vm_compute in Hv. discriminate Hv.
Qed.

(** C8, amended: with no suggested theme the theme key is absent from the
    vscode, zed and sublime objects and the neovim and jetbrains texts end
    after their last fixed line; with a first entry that is not the empty
    string, that entry is the theme written; a first entry that is the
    empty string is treated as no theme. *)
Theorem theme_key_follows_first_theme :
  theme_follows (fun t => t <> EmptyString)
  /\ (forall r rest editor,
        In editor SUPPORTED_EDITORS ->
        suggestedThemes r = EmptyString :: rest ->
        generateEditorConfig r editor
        = generateEditorConfig (without_themes r) editor).
Proof.
  split.
  - intros r. split; [ repeat split | split ].
    + intros H.
      rewrite neovim_text_eq, jetbrains_text_eq.
      unfold vscode_object, zed_object, sublime_object, neovim_text,
        jetbrains_text, theme_of. rewrite H. cbn [first hd_error theme_line
        spread_theme List.app members JSON.keys].
      repeat apply conj; reflexivity.
    + intros t rest H Ht.
      assert (Htr : truthy t = true) by (destruct t; [contradiction | easy]).
      rewrite !neovim_text_eq, !jetbrains_text_eq.
      unfold vscode_object, zed_object, sublime_object, neovim_text,
        jetbrains_text, theme_of, without_themes.
      cbn [set_suggestedThemes fontSize lineHeight fontWeight cursorStyle
           suggestedFonts suggestedThemes font_of].
      rewrite H. cbn [first hd_error theme_line spread_theme members].
      rewrite Htr.
      repeat apply conj; try reflexivity;
        change (font_of (set_suggestedThemes r [])) with (font_of r);
        rewrite !append_assoc; reflexivity.
  - intros r rest editor He H.
    unfold SUPPORTED_EDITORS in He. cbn [In] in He.
    assert (T : theme_of r = Some EmptyString)
      by (unfold theme_of; rewrite H; reflexivity).
    repeat match goal with
           | H : _ \/ _ |- _ => destruct H as [H | H]
           | H : False |- _ => destruct H
           end; subst editor;
      cbv beta iota delta [generateEditorConfig]; cbn [String.eqb Ascii.eqb
        Bool.eqb]; unfold vscode_object, zed_object, neovim_text,
        jetbrains_text, sublime_object; rewrite T; reflexivity.
Qed.

(** C8 amended, at the themes for deuteranopia. *)
Lemma theme_key_follows_first_theme_witness :
  lookup "workbench.colorTheme"
    (members (vscode_object
                (snd (calculateRecommendations NO_CONDITIONS deuteranopia
                        None None))))
  = Some (JSON.Str "Solarized Dark").
Proof.
  pose (r := snd (calculateRecommendations NO_CONDITIONS deuteranopia
                    None None)).
  assert (Ht : "Solarized Dark" <> EmptyString) by discriminate.
  destruct (proj2 (proj2 (proj1 theme_key_follows_first_theme r))
              "Solarized Dark"
              ["Solarized Light"; "One Dark"; "GitHub Dark";
               "Catppuccin Mocha"] eq_refl Ht) as (H & _).
  fold r. rewrite H. reflexivity.
Defined.

(** C9, as stated, fails: for a first suggested font that is the empty
    string the dump carries the default font, not that entry. *)
Lemma empty_font_name_is_replaced : ~ falls_back_to_dump first_or_default.
Proof.
  intros H.
  assert (He : ~ In "emacs" SUPPORTED_EDITORS).
  { unfold SUPPORTED_EDITORS. cbn [In]. intuition discriminate. }
  destruct (H EMPTY_FONT_NAME "emacs" He) as (Ht & _).
  vm_compute in Ht. discriminate Ht.
Qed.

(** C9, amended: [generateEditorConfig] is a total function of the
    recommendation and of any identifier; for an identifier outside the
    five it gives the generic dump, whose font is the first suggested font
    when there is one and it is not the empty string, and "JetBrains Mono"
    otherwise, and whose theme key is absent when there is no suggested
    theme. *)
Theorem unknown_editor_falls_back :
  falls_back_to_dump first_truthy_or_default.
Proof.
  intros r editor He.
  unfold SUPPORTED_EDITORS in He. cbn [In] in He.
  assert (E1 : String.eqb editor "vscode" = false)
    by (apply String.eqb_neq; intuition).
  assert (E2 : String.eqb editor "zed" = false)
    by (apply String.eqb_neq; intuition).
  assert (E3 : String.eqb editor "neovim" = false)
    by (apply String.eqb_neq; intuition).
  assert (E4 : String.eqb editor "jetbrains" = false)
    by (apply String.eqb_neq; intuition).
  assert (E5 : String.eqb editor "sublime" = false)
    by (apply String.eqb_neq; intuition).
  split.
  - unfold generateEditorConfig. rewrite E1, E2, E3, E4, E5.
    unfold generic_object, font_of, theme_of, first, first_truthy_or_default.
    destruct (suggestedFonts r), (suggestedThemes r); reflexivity.
  - intros H. unfold generic_object, theme_of. rewrite H. reflexivity.
Qed.

(** C9 amended, at the identifier "emacs". *)
Lemma unknown_editor_falls_back_witness :
  generateEditorConfig EMPTY_FONT_NAME "emacs"
  = JSON.stringify
      (JSON.Obj
         [ ("fontSize", JSON.Num 16); ("lineHeight", JSON.Num 1.5);
           ("fontWeight", JSON.Num 400); ("cursorStyle", JSON.Str "bar");
           ("font", JSON.Str "JetBrains Mono");
           ("theme", JSON.Undefined) ]).
Proof.
  assert (He : ~ In "emacs" SUPPORTED_EDITORS).
  { unfold SUPPORTED_EDITORS. cbn [In]. intuition discriminate. }
  exact (proj1 (unknown_editor_falls_back EMPTY_FONT_NAME "emacs" He)).
Defined.

(* ================================================================== *)
(** * The engine: the settings in closed form *)
(* ================================================================== *)

(** X1: the returned font size is a base plus one for eye strain plus one
    for blur or ghosting; the base is the myopia tier when myopia holds
    after auto-detection, else 17 with hyperopia, else 16.  It is never
    above 22. *)
Theorem font_size_formula :
  forall conditions colorVision prescription currentSettings,
    let out := calculateRecommendations conditions colorVision prescription
                 currentSettings in
    let base :=
      if myopia (fst out)
      then myopia_tier (avgSphere (refraction prescription))
      else if hyperopia (fst out) then 17%float else 16%float in
    fontSize (snd out)
    = (base + (if eyeStrain conditions then 1 else 0)
       + (if blurOrGhosting conditions then 1 else 0))%float
    /\ (fontSize (snd out) <=? 22)%float = true.
Proof.
  intros conditions colorVision prescription currentSettings out base.
  destruct (result_settings conditions colorVision prescription
              currentSettings) as (E & _).
  destruct (autoDetect_other_flags conditions prescription)
    as (S & B & _).
  unfold out, base. rewrite E, fontSize_after_conditions.
  cbn [calculateRecommendations fst]. rewrite S, B.
  unfold myopia_tier.
  destruct (myopia _), (hyperopia _), (eyeStrain conditions),
    (blurOrGhosting conditions);
    try destruct (_ <=? -6)%float; try destruct (_ <=? -3)%float;
    split; reflexivity.
Qed.

(** X2: the returned line height is 1.7 with visual crowding; else 1.6
    with hyperopia, astigmatism (both after auto-detection) or eye strain;
    else 1.5. *)
Theorem line_height_formula :
  forall conditions colorVision prescription currentSettings,
    let out := calculateRecommendations conditions colorVision prescription
                 currentSettings in
    lineHeight (snd out)
    = if visualCrowding conditions then 1.7%float
      else if hyperopia (fst out) || astigmatism (fst out)
              || eyeStrain conditions
           then 1.6%float
           else 1.5%float.
Proof.
  intros conditions colorVision prescription currentSettings out.
  destruct (result_settings conditions colorVision prescription
              currentSettings) as (_ & E & _).
  destruct (autoDetect_other_flags conditions prescription)
    as (S & _ & _ & V).
  unfold out. rewrite E, lineHeight_after_conditions.
  cbn [calculateRecommendations fst]. rewrite S, V.
  destruct (hyperopia _), (astigmatism _), (eyeStrain conditions),
    (visualCrowding conditions); reflexivity.
Qed.

(** X3: the returned font weight is 500 exactly when blur or ghosting is
    set and light sensitivity is not; it is 400 otherwise. *)
Theorem font_weight_formula :
  forall conditions colorVision prescription currentSettings,
    let result := snd (calculateRecommendations conditions colorVision
                         prescription currentSettings) in
    fontWeight result
    = (if blurOrGhosting conditions && negb (lightSensitivity conditions)
       then 500 else 400)%float
    /\ (fontWeight result = 500%float
        <-> blurOrGhosting conditions = true
            /\ lightSensitivity conditions = false).
Proof.
  intros conditions colorVision prescription currentSettings result.
  destruct (result_settings conditions colorVision prescription
              currentSettings) as (_ & _ & E & _).
  destruct (autoDetect_other_flags conditions prescription)
    as (_ & B & L & _).
  unfold result. rewrite E, fontWeight_after_conditions, B, L.
  destruct (blurOrGhosting conditions), (lightSensitivity conditions);
    (split; [ reflexivity | ]); cbn [andb negb];
    (split; [ intros H | intros (H1 & H2) ]);
    try (split; reflexivity); try reflexivity;
    try discriminate;
    apply (f_equal (fun x => (x <? 450)%float)) in H; vm_compute in H;
    discriminate H.
Qed.

(** X4: the returned fonts are the six astigmatism-friendly fonts when
    astigmatism holds after auto-detection, the first three of them with
    visual crowding and no astigmatism, and none otherwise. *)
Theorem suggested_fonts_formula :
  forall conditions colorVision prescription currentSettings,
    let out := calculateRecommendations conditions colorVision prescription
                 currentSettings in
    suggestedFonts (snd out)
    = if astigmatism (fst out) then
        ["IBM Plex Mono"; "JetBrains Mono"; "Fira Code"; "Input Mono";
         "Atkinson Hyperlegible Mono"; "Source Code Pro"]
      else if visualCrowding conditions then
        ["IBM Plex Mono"; "JetBrains Mono"; "Fira Code"]
      else [].
Proof.
  intros conditions colorVision prescription currentSettings out.
  destruct (result_settings conditions colorVision prescription
              currentSettings) as (_ & _ & _ & _ & E).
  destruct (autoDetect_other_flags conditions prescription)
    as (_ & _ & _ & V).
  unfold out. rewrite E, suggestedFonts_after_conditions.
  cbn [calculateRecommendations fst]. rewrite V. reflexivity.
Qed.

(* ================================================================== *)
(** * The engine: the two logs *)
(* ================================================================== *)

Lemma research_rule_myopia c r d :
  research (rule_myopia c r d)
  = (research d ++ if myopia c then [MYOPIA_CITATION] else [])%list.
Proof. unfold rule_myopia. log_effect. Qed.

Lemma research_rule_hyperopia c r d :
  research (rule_hyperopia c r d) = research d.
Proof. unfold rule_hyperopia. log_effect. Qed.

Lemma research_rule_astigmatism c r d :
  research (rule_astigmatism c r d)
  = (research d
     ++ if astigmatism c
        then [ASTIGMATISM_CITATION_1; ASTIGMATISM_CITATION_2] else [])%list.
Proof. unfold rule_astigmatism. log_effect. Qed.

Lemma research_rule_eyeStrain c r d :
  research (rule_eyeStrain c r d)
  = (research d ++ if eyeStrain c then [EYE_STRAIN_CITATION] else [])%list.
Proof. unfold rule_eyeStrain. log_effect. Qed.

Lemma research_rule_blurOrGhosting c r d :
  research (rule_blurOrGhosting c r d) = research d.
Proof. unfold rule_blurOrGhosting. log_effect. Qed.

Lemma research_rule_lightSensitivity c r d :
  research (rule_lightSensitivity c r d) = research d.
Proof. unfold rule_lightSensitivity. log_effect. Qed.

Lemma research_rule_visualCrowding c r d :
  research (rule_visualCrowding c r d)
  = (research d ++ if visualCrowding c then [CROWDING_CITATION] else [])%list.
Proof. unfold rule_visualCrowding. log_effect. Qed.

Lemma research_rule_colorVision cv d :
  research (rule_colorVision cv d)
  = (research d ++ if not_normal cv then [WCAG_CITATION] else [])%list.
Proof. unfold rule_colorVision. destruct cv; cbn [not_normal]; log_effect. Qed.

Lemma research_rule_currentSettings cs d :
  research (rule_currentSettings cs d) = research d.
Proof. unfold rule_currentSettings. log_effect. Qed.

Lemma research_rule_always d :
  research (rule_always d) = (research d ++ [LINE_HEIGHT_CITATION])%list.
Proof. reflexivity. Qed.

Lemma research_draft conditions colorVision prescription currentSettings :
  let c := autoDetect conditions prescription in
  research (draft conditions colorVision prescription currentSettings)
  = ((if myopia c then [MYOPIA_CITATION] else [])
     ++ (if astigmatism c
         then [ASTIGMATISM_CITATION_1; ASTIGMATISM_CITATION_2] else [])
     ++ (if eyeStrain c then [EYE_STRAIN_CITATION] else [])
     ++ (if visualCrowding c then [CROWDING_CITATION] else [])
     ++ (if not_normal colorVision then [WCAG_CITATION] else [])
     ++ [LINE_HEIGHT_CITATION])%list.
Proof.
  cbv zeta. rewrite draft_unfold. unfold after_conditions.
  rewrite research_rule_always, research_rule_currentSettings,
    research_rule_colorVision, research_rule_visualCrowding,
    research_rule_lightSensitivity, research_rule_blurOrGhosting,
    research_rule_eyeStrain, research_rule_astigmatism,
    research_rule_hyperopia, research_rule_myopia.
  cbn [initial research List.app]. rewrite <- !app_assoc. reflexivity.
Qed.

(** X5: the returned citations are, in this order, the myopia citation
    (myopia after auto-detection), the two astigmatism citations
    (astigmatism after auto-detection), the eye-strain citation, the
    crowding citation, the colour-vision citation (a type other than
    normal) and, always and last, the line-height citation.  Hyperopia,
    blur or ghosting, light sensitivity and the current settings add
    none; there are between one and seven. *)
Theorem research_log :
  forall conditions colorVision prescription currentSettings,
    let out := calculateRecommendations conditions colorVision prescription
                 currentSettings in
    research (snd out)
    = ((if myopia (fst out) then [MYOPIA_CITATION] else [])
       ++ (if astigmatism (fst out)
           then [ASTIGMATISM_CITATION_1; ASTIGMATISM_CITATION_2] else [])
       ++ (if eyeStrain conditions then [EYE_STRAIN_CITATION] else [])
       ++ (if visualCrowding conditions then [CROWDING_CITATION] else [])
       ++ (if not_normal colorVision then [WCAG_CITATION] else [])
       ++ [LINE_HEIGHT_CITATION])%list
    /\ List.length (research (snd out))
       = (count (myopia (fst out)) + 2 * count (astigmatism (fst out))
          + count (eyeStrain conditions) + count (visualCrowding conditions)
          + count (not_normal colorVision) + 1)%nat
    /\ (1 <= List.length (research (snd out)) <= 7)%nat.
Proof.
  intros conditions colorVision prescription currentSettings out.
  destruct (autoDetect_other_flags conditions prescription)
    as (S & _ & _ & V).
  assert (E := research_draft conditions colorVision prescription
                 currentSettings).
  cbv zeta in E. rewrite S, V in E.
  unfold out. cbn [calculateRecommendations snd fst finish research].
  rewrite E.
  destruct (myopia _), (astigmatism _), (eyeStrain conditions),
    (visualCrowding conditions), (not_normal colorVision);
    cbn [List.app List.length count Nat.add Nat.mul];
    (split; [ reflexivity | split; [ reflexivity | lia ] ]).
Qed.

Lemma explanations_rule_myopia c r d :
  List.length (explanations (rule_myopia c r d))
  = (List.length (explanations d) + 2 * count (myopia c))%nat.
Proof. unfold rule_myopia. log_effect. Qed.

Lemma explanations_rule_hyperopia c r d :
  List.length (explanations (rule_hyperopia c r d))
  = (List.length (explanations d) + count (hyperopia c))%nat.
Proof. unfold rule_hyperopia. log_effect. Qed.

Lemma explanations_rule_astigmatism c r d :
  List.length (explanations (rule_astigmatism c r d))
  = (List.length (explanations d) + count (astigmatism c))%nat.
Proof. unfold rule_astigmatism. log_effect. Qed.

Lemma explanations_rule_eyeStrain c r d :
  List.length (explanations (rule_eyeStrain c r d))
  = (List.length (explanations d) + count (eyeStrain c))%nat.
Proof. unfold rule_eyeStrain. log_effect. Qed.

Lemma explanations_rule_blurOrGhosting c r d :
  List.length (explanations (rule_blurOrGhosting c r d))
  = (List.length (explanations d) + count (blurOrGhosting c))%nat.
Proof.
  unfold rule_blurOrGhosting.
  destruct (blurOrGhosting c), (lightSensitivity c); log_effect.
Qed.

Lemma explanations_rule_lightSensitivity c r d :
  List.length (explanations (rule_lightSensitivity c r d))
  = (List.length (explanations d) + count (lightSensitivity c))%nat.
Proof. unfold rule_lightSensitivity. log_effect. Qed.

Lemma explanations_rule_visualCrowding c r d :
  List.length (explanations (rule_visualCrowding c r d))
  = (List.length (explanations d) + count (visualCrowding c))%nat.
Proof. unfold rule_visualCrowding. log_effect. Qed.

Lemma explanations_rule_colorVision cv d :
  List.length (explanations (rule_colorVision cv d))
  = (List.length (explanations d) + count (not_normal cv))%nat.
Proof. unfold rule_colorVision. destruct cv; cbn [not_normal]; log_effect. Qed.

(** What the last two rules append. *)
Lemma explanations_last_rules cs d :
  explanations (rule_always (rule_currentSettings cs d))
  = (explanations d
     ++ match cs with
        | Some s =>
            if (CurrentSettings.fontSize s <? fontSize d)%float
            then [COMPARISON (CurrentSettings.fontSize s) (fontSize d)]
            else []
        | None => []
        end
     ++ [REMINDER])%list.
Proof.
  unfold rule_always, rule_currentSettings, COMPARISON.
  destruct cs as [s | ]; [ destruct (_ <? _)%float | ];
    cbn [explanations push_explanation push_research];
    rewrite <- ?app_assoc; reflexivity.
Qed.

(** The working variables before the last two rules. *)
Lemma before_last_rules conditions colorVision prescription :
  let d := rule_colorVision colorVision
             (after_conditions (autoDetect conditions prescription)
                (refraction prescription)) in
  forall currentSettings,
    fontSize d
    = fontSize (snd (calculateRecommendations conditions colorVision
                       prescription currentSettings))
    /\ List.length (explanations d)
       = (let c := autoDetect conditions prescription in
          2 * count (myopia c) + count (hyperopia c) + count (astigmatism c)
          + count (eyeStrain c) + count (blurOrGhosting c)
          + count (lightSensitivity c) + count (visualCrowding c)
          + count (not_normal colorVision))%nat.
Proof.
  intros d currentSettings. split.
  - destruct (result_settings conditions colorVision prescription
                currentSettings) as (E & _).
    rewrite E. unfold d.
    destruct (rule_colorVision_settings colorVision
                (after_conditions (autoDetect conditions prescription)
                   (refraction prescription))) as (A & _).
    exact A.
  - unfold d, after_conditions.
    rewrite explanations_rule_colorVision, explanations_rule_visualCrowding,
      explanations_rule_lightSensitivity, explanations_rule_blurOrGhosting,
      explanations_rule_eyeStrain, explanations_rule_astigmatism,
      explanations_rule_hyperopia, explanations_rule_myopia.
    cbn [initial explanations List.length]. cbv zeta. lia.
Qed.

(** X6: the explanations end with the 20-20-20 reminder, whatever the
    input.  Their number is two for myopia, one for each other condition
    that holds (the refraction flags after auto-detection), one for a
    colour-vision type other than normal, one when the current font size
    is below the returned one, and one for the reminder. *)
Theorem explanations_log :
  forall conditions colorVision prescription currentSettings,
    let out := calculateRecommendations conditions colorVision prescription
                 currentSettings in
    let compared :=
      match currentSettings with
      | Some s => (CurrentSettings.fontSize s <? fontSize (snd out))%float
      | None => false
      end in
    last (explanations (snd out)) EmptyString = REMINDER
    /\ List.length (explanations (snd out))
       = (2 * count (myopia (fst out)) + count (hyperopia (fst out))
          + count (astigmatism (fst out)) + count (eyeStrain conditions)
          + count (blurOrGhosting conditions)
          + count (lightSensitivity conditions)
          + count (visualCrowding conditions)
          + count (not_normal colorVision) + count compared + 1)%nat.
Proof.
  intros conditions colorVision prescription currentSettings out compared.
  destruct (autoDetect_other_flags conditions prescription)
    as (S & B & L & V).
  destruct (before_last_rules conditions colorVision prescription
              currentSettings) as (F & N).
  cbv zeta in F, N. rewrite S, B, L, V in N.
  fold out in F.
  assert (X : explanations (snd out)
              = explanations
                  (rule_always
                     (rule_currentSettings currentSettings
                        (rule_colorVision colorVision
                           (after_conditions
                              (autoDetect conditions prescription)
                              (refraction prescription))))))
    by reflexivity.
  rewrite explanations_last_rules, F in X.
  rewrite X. unfold compared. split.
  - rewrite app_assoc. apply last_last.
  - rewrite !length_app, N.
    change (fst out) with (autoDetect conditions prescription).
    destruct currentSettings as [s | ]; [ destruct (_ <? _)%float | ];
      cbn [List.length count]; lia.
Qed.

(** X7: current settings change nothing but the explanations.  With and
    without them the amended conditions, the four settings, the fonts, the
    themes and the citations are the same; the explanations differ by the
    comparison, which stands right before the final reminder exactly when
    the current font size is below the returned one. *)
Theorem current_settings_only_explain :
  forall conditions colorVision prescription cs,
    let given := calculateRecommendations conditions colorVision
                   prescription (Some cs) in
    let absent := calculateRecommendations conditions colorVision
                    prescription None in
    fst given = fst absent
    /\ settings (snd given) = settings (snd absent)
    /\ suggestedFonts (snd given) = suggestedFonts (snd absent)
    /\ suggestedThemes (snd given) = suggestedThemes (snd absent)
    /\ research (snd given) = research (snd absent)
    /\ exists before,
         explanations (snd absent) = (before ++ [REMINDER])%list
         /\ explanations (snd given)
            = (before
               ++ (if (CurrentSettings.fontSize cs
                       <? fontSize (snd absent))%float
                   then [COMPARISON (CurrentSettings.fontSize cs)
                           (fontSize (snd absent))]
                   else [])
               ++ [REMINDER])%list.
Proof.
  intros conditions colorVision prescription cs given absent.
  destruct (result_settings conditions colorVision prescription (Some cs))
    as (G1 & G2 & G3 & G4 & G5).
  destruct (result_settings conditions colorVision prescription None)
    as (A1 & A2 & A3 & A4 & A5).
  fold given in G1, G2, G3, G4, G5. fold absent in A1, A2, A3, A4, A5.
  repeat apply conj.
  - reflexivity.
  - unfold settings. now rewrite G1, G2, G3, G4, A1, A2, A3, A4.
  - now rewrite G5, A5.
  - unfold given, absent. now rewrite !result_themes.
  - unfold given, absent.
    cbn [calculateRecommendations snd finish research].
    now rewrite !research_draft.
  - destruct (before_last_rules conditions colorVision prescription None)
      as (F & _).
    fold absent in F.
    exists (explanations
              (rule_colorVision colorVision
                 (after_conditions (autoDetect conditions prescription)
                    (refraction prescription)))).
    set (d := rule_colorVision colorVision
                (after_conditions (autoDetect conditions prescription)
                   (refraction prescription))) in *.
    assert (XA : explanations (snd absent)
                 = explanations (rule_always (rule_currentSettings None d)))
      by reflexivity.
    assert (XG : explanations (snd given)
                 = explanations
                     (rule_always (rule_currentSettings (Some cs) d)))
      by reflexivity.
    rewrite explanations_last_rules in XA, XG. rewrite F in XG.
    split; assumption.
Qed.

(* ================================================================== *)
(** * The engine: NaN in a prescription *)
(* ================================================================== *)

Lemma SFcompare_refl (x : spec_float) :
  x <> S754_nan -> SFcompare x x = Some Eq.
Proof.
  destruct x as [s | s | | s m e]; intros H; try (destruct s; reflexivity).
  - contradiction.
  - simpl. rewrite Z.compare_refl, Pos.compare_cont_refl.
    destruct s; reflexivity.
Qed.

Lemma is_nan_Prim2SF (x : float) : is_nan x = true -> Prim2SF x = S754_nan.
Proof.
  unfold is_nan. rewrite FloatAxioms.eqb_spec. unfold SFeqb. intros H.
  destruct (Prim2SF x) as [s | s | | s m e] eqn:E; try reflexivity;
    rewrite SFcompare_refl in H by discriminate; discriminate H.
Qed.

(** Every comparison with NaN is false. *)
Lemma nan_comparisons (x y : float) :
  is_nan x = true ->
  (x <? y)%float = false /\ (y <? x)%float = false
  /\ (x <=? y)%float = false /\ (y <=? x)%float = false
  /\ (x =? y)%float = false.
Proof.
  intros H. apply is_nan_Prim2SF in H.
  rewrite !FloatAxioms.ltb_spec, !FloatAxioms.leb_spec, FloatAxioms.eqb_spec.
  unfold SFltb, SFleb, SFeqb. rewrite H.
  destruct (Prim2SF y) as [s | s | | s m e]; repeat split.
Qed.

(** X8: NaN in a prescription detects nothing.  When the mean sphere is
    NaN the call sets neither myopia nor hyperopia, and a myopia flag the
    caller set gets the mild tier, 17; when the mean cylinder is NaN the
    call does not set astigmatism; when the mean axis is NaN the
    astigmatism rule appends the explanation with the oblique note. *)
Theorem nan_prescription_detects_nothing :
  forall conditions colorVision p currentSettings,
    let out := calculateRecommendations conditions colorVision (Some p)
                 currentSettings in
    let r := refraction (Some p) in
    (is_nan ((sphere (rightEye p) + sphere (leftEye p)) / 2) = true ->
       myopia (fst out) = myopia conditions
       /\ hyperopia (fst out) = hyperopia conditions
       /\ forall d, myopia conditions = true ->
            fontSize (rule_myopia (fst out) r d) = 17%float)
    /\ (is_nan ((cylinder (rightEye p) + cylinder (leftEye p)) / 2) = true ->
          astigmatism (fst out) = astigmatism conditions)
    /\ (is_nan ((axis (rightEye p) + axis (leftEye p)) / 2) = true ->
          forall d, astigmatism (fst out) = true ->
            explanations (rule_astigmatism (fst out) r d)
            = (explanations d ++ [astigmatism_explanation OBLIQUE_NOTE])%list).
Proof.
  intros conditions colorVision p currentSettings out r.
  destruct (autoDetect_flags conditions p) as (M & H & A & _).
  cbv zeta in M, H, A.
  change (autoDetect conditions (Some p)) with (fst out) in M, H, A.
  split; [ intros N; repeat apply conj | split ].
  - rewrite M.
    change (avgSphere (refraction (Some p)))
      with ((sphere (rightEye p) + sphere (leftEye p)) / 2)%float.
    destruct (nan_comparisons _ (-0.5)%float N) as (L & _).
    rewrite L. apply orb_false_r.
  - rewrite H.
    change (avgSphere (refraction (Some p)))
      with ((sphere (rightEye p) + sphere (leftEye p)) / 2)%float.
    destruct (nan_comparisons _ (0.5)%float N) as (_ & L & _).
    rewrite L. apply orb_false_r.
  - intros d Hm. rewrite fontSize_rule_myopia.
    assert (Hm' : myopia (fst out) = true) by (rewrite M, Hm; reflexivity).
    rewrite Hm'. unfold myopia_tier, r.
    change (avgSphere (refraction (Some p)))
      with ((sphere (rightEye p) + sphere (leftEye p)) / 2)%float.
    destruct (nan_comparisons _ (-6)%float N) as (_ & _ & L6 & _).
    destruct (nan_comparisons _ (-3)%float N) as (_ & _ & L3 & _).
    now rewrite L6, L3.
  - intros N. rewrite A.
    change (hasSignificantAstigmatism (refraction (Some p)))
      with (0.5 <=? abs ((cylinder (rightEye p) + cylinder (leftEye p)) / 2))%float.
    assert (N' : is_nan (abs ((cylinder (rightEye p) + cylinder (leftEye p)) / 2))
                 = true).
    { apply is_nan_Prim2SF in N. unfold is_nan.
      rewrite FloatAxioms.eqb_spec, FloatAxioms.abs_spec, N. reflexivity. }
    destruct (nan_comparisons _ (0.5)%float N') as (_ & _ & _ & L & _).
    rewrite L. apply orb_false_r.
  - intros N d Ha. unfold rule_astigmatism. rewrite Ha.
    cbn [explanations push_research push_explanation set_suggestedFonts
         set_lineHeight].
    do 3 f_equal. unfold axisNote, r.
    change (astigmatismAxis (refraction (Some p)))
      with ((axis (rightEye p) + axis (leftEye p)) / 2)%float.
    destruct (nan_comparisons _ 160%float N) as (_ & _ & _ & L1 & _).
    destruct (nan_comparisons _ 20%float N) as (_ & _ & L2 & _).
    destruct (nan_comparisons _ 70%float N) as (_ & _ & _ & L3 & _).
    now rewrite L1, L2, L3.
Qed.

(* ================================================================== *)
(** * The engine: what the inputs can change *)
(* ================================================================== *)

(** X19: the two axes of a prescription reach the explanations only.  Two
    prescriptions with the same spheres and cylinders give the same
    amended conditions, settings, fonts, themes and citations, and as many
    explanations. *)
Theorem axis_only_explains :
  forall conditions colorVision p p' currentSettings,
    sphere (rightEye p) = sphere (rightEye p') ->
    sphere (leftEye p) = sphere (leftEye p') ->
    cylinder (rightEye p) = cylinder (rightEye p') ->
    cylinder (leftEye p) = cylinder (leftEye p') ->
    let out := calculateRecommendations conditions colorVision (Some p)
                 currentSettings in
    let out' := calculateRecommendations conditions colorVision (Some p')
                  currentSettings in
    fst out = fst out'
    /\ settings (snd out) = settings (snd out')
    /\ suggestedFonts (snd out) = suggestedFonts (snd out')
    /\ suggestedThemes (snd out) = suggestedThemes (snd out')
    /\ research (snd out) = research (snd out')
    /\ List.length (explanations (snd out))
       = List.length (explanations (snd out')).
Proof.
  intros conditions colorVision p p' currentSettings S1 S2 C1 C2 out out'.
  assert (Ha : avgSphere (refraction (Some p))
               = avgSphere (refraction (Some p')))
    by (cbn [refraction avgSphere]; now rewrite S1, S2).
  assert (Hc : fst out = fst out').
  { unfold out, out'. cbn [calculateRecommendations fst].
    unfold autoDetect. rewrite Ha.
    cbn [refraction hasSignificantAstigmatism]. unfold avgCylinder.
    now rewrite C1, C2. }
  assert (Hc' : autoDetect conditions (Some p)
                = autoDetect conditions (Some p')) by exact Hc.
  destruct (result_settings conditions colorVision (Some p) currentSettings)
    as (E1 & E2 & E3 & E4 & E5).
  destruct (result_settings conditions colorVision (Some p') currentSettings)
    as (F1 & F2 & F3 & F4 & F5).
  fold out in E1, E2, E3, E4, E5. fold out' in F1, F2, F3, F4, F5.
  assert (G1 : fontSize (snd out) = fontSize (snd out')).
  { rewrite E1, F1, !fontSize_after_conditions, Hc', Ha. reflexivity. }
  repeat apply conj.
  - exact Hc.
  - unfold settings. rewrite G1. rewrite E2, F2, E3, F3, E4, F4.
    rewrite !lineHeight_after_conditions, !fontWeight_after_conditions,
      !cursorStyle_after_conditions, Hc'. reflexivity.
  - rewrite E5, F5, !suggestedFonts_after_conditions, Hc'. reflexivity.
  - unfold out, out'. now rewrite !result_themes.
  - unfold out, out'. cbn [calculateRecommendations snd finish research].
    rewrite !research_draft. cbv zeta. rewrite Hc'. reflexivity.
  - destruct (before_last_rules conditions colorVision (Some p)
                currentSettings) as (B1 & B2).
    destruct (before_last_rules conditions colorVision (Some p')
                currentSettings) as (B1' & B2').
    cbv zeta in B1, B2, B1', B2'. fold out in B1. fold out' in B1'.
    assert (X : forall q,
               explanations
                 (snd (calculateRecommendations conditions colorVision
                         (Some q) currentSettings))
               = explanations
                   (rule_always
                      (rule_currentSettings currentSettings
                         (rule_colorVision colorVision
                            (after_conditions
                               (autoDetect conditions (Some q))
                               (refraction (Some q)))))))
      by reflexivity.
    unfold out, out'. rewrite !X, !explanations_last_rules, !length_app.
    rewrite B2, B2', B1, B1', Hc'. fold out out'. rewrite G1. reflexivity.
Qed.

(** X19 at scenario B and the same spheres with the axes at 90. *)
Lemma axis_only_explains_witness :
  settings (snd (calculateRecommendations NO_CONDITIONS normal
                   (Some SCENARIO_B) None))
  = settings (snd (calculateRecommendations NO_CONDITIONS normal
                     (Some {| rightEye := {| sphere := -7; cylinder := 0;
                                             axis := 90 |};
                              leftEye := {| sphere := -7; cylinder := 0;
                                            axis := 90 |} |})
                     None)).
Proof.
  destruct (axis_only_explains NO_CONDITIONS normal SCENARIO_B
              {| rightEye := {| sphere := -7; cylinder := 0; axis := 90 |};
                 leftEye := {| sphere := -7; cylinder := 0; axis := 90 |} |}
              None eq_refl eq_refl eq_refl eq_refl) as (_ & H & _).
  exact H.
Defined.

(** X20: declaring more conditions never lowers the font size or the line
    height.  When every flag set in [c] is set in [c'], the font size and
    the line height returned for [c'] are at least those returned for [c],
    the prescription being the same. *)
Theorem more_conditions_never_lower :
  forall c c' colorVision colorVision' prescription cs cs',
    (forall key, get_condition c key = true -> get_condition c' key = true) ->
    let result := snd (calculateRecommendations c colorVision prescription
                         cs) in
    let result' := snd (calculateRecommendations c' colorVision' prescription
                          cs') in
    (fontSize result <=? fontSize result')%float = true
    /\ (lineHeight result <=? lineHeight result')%float = true.
Proof.
  intros c c' colorVision colorVision' prescription cs cs' Hle result result'.
  destruct (result_settings c colorVision prescription cs) as (E1 & E2 & _).
  destruct (result_settings c' colorVision' prescription cs')
    as (F1 & F2 & _).
  fold result in E1, E2. fold result' in F1, F2.
  rewrite E1, E2, F1, F2.
  rewrite !fontSize_after_conditions, !lineHeight_after_conditions.
  destruct (autoDetect_other_flags c prescription) as (S & B & _ & V).
  destruct (autoDetect_other_flags c' prescription) as (S' & B' & _ & V').
  rewrite S, B, V, S', B', V'.
  assert (Hm : myopia (autoDetect c prescription) = true ->
               myopia (autoDetect c' prescription) = true).
  { destruct prescription as [p | ]; [ | exact (Hle key_myopia) ].
    destruct (autoDetect_flags c p) as (M & _).
    destruct (autoDetect_flags c' p) as (M' & _).
    cbv zeta in M, M'. rewrite M, M'. intros H.
    apply orb_true_iff in H. apply orb_true_iff.
    destruct H as [H | H]; [ left; exact (Hle key_myopia H) | now right ]. }
  assert (Hh : hyperopia (autoDetect c prescription) = true ->
               hyperopia (autoDetect c' prescription) = true).
  { destruct prescription as [p | ]; [ | exact (Hle key_hyperopia) ].
    destruct (autoDetect_flags c p) as (_ & M & _).
    destruct (autoDetect_flags c' p) as (_ & M' & _).
    cbv zeta in M, M'. rewrite M, M'. intros H.
    apply orb_true_iff in H. apply orb_true_iff.
    destruct H as [H | H]; [ left; exact (Hle key_hyperopia H) | now right ]. }
  assert (Ha : astigmatism (autoDetect c prescription) = true ->
               astigmatism (autoDetect c' prescription) = true).
  { destruct prescription as [p | ]; [ | exact (Hle key_astigmatism) ].
    destruct (autoDetect_flags c p) as (_ & _ & M & _).
    destruct (autoDetect_flags c' p) as (_ & _ & M' & _).
    cbv zeta in M, M'. rewrite M, M'. intros H.
    apply orb_true_iff in H. apply orb_true_iff.
    destruct H as [H | H]; [ left; exact (Hle key_astigmatism H) | now right ]. }
  assert (He := Hle key_eyeStrain). assert (Hb := Hle key_blurOrGhosting).
  assert (Hv := Hle key_visualCrowding).
  cbn [get_condition] in He, Hb, Hv.
  clear S B V S' B' V' E1 E2 F1 F2 Hle.
  unfold myopia_tier.
  generalize dependent (myopia (autoDetect c prescription)).
  generalize dependent (myopia (autoDetect c' prescription)).
  generalize dependent (hyperopia (autoDetect c prescription)).
  generalize dependent (hyperopia (autoDetect c' prescription)).
  generalize dependent (astigmatism (autoDetect c prescription)).
  generalize dependent (astigmatism (autoDetect c' prescription)).
  generalize dependent (eyeStrain c). generalize dependent (eyeStrain c').
  generalize dependent (blurOrGhosting c).
  generalize dependent (blurOrGhosting c').
  generalize dependent (visualCrowding c).
  generalize dependent (visualCrowding c').
  generalize (avgSphere (refraction prescription) <=? -6)%float.
  generalize (avgSphere (refraction prescription) <=? -3)%float.
  clear.
  intros t3 t6 v' v Hv b' b Hb e' e He a' a Ha h' h Hh m' m Hm.
  destruct m; [ rewrite (Hm eq_refl) | ];
    (destruct h; [ rewrite (Hh eq_refl) | ]);
    (destruct a; [ rewrite (Ha eq_refl) | ]);
    (destruct e; [ rewrite (He eq_refl) | ]);
    (destruct b; [ rewrite (Hb eq_refl) | ]);
    (destruct v; [ rewrite (Hv eq_refl) | ]);
    clear;
    repeat match goal with
           | x : bool |- _ => destruct x
           end;
    split; reflexivity.
Qed.

(** X20 from no condition to blur or ghosting. *)
Lemma more_conditions_never_lower_witness :
  (fontSize (snd (calculateRecommendations NO_CONDITIONS normal None None))
   <=? fontSize (snd (calculateRecommendations ONLY_BLUR normal None None)))%float
  = true.
Proof.
  refine (proj1 (more_conditions_never_lower NO_CONDITIONS ONLY_BLUR normal
                   normal None None None _)).
  intros key H. destruct key; discriminate H.
Defined.

(* ================================================================== *)
(** * The serializer: further properties *)
(* ================================================================== *)

(** X9: the cursor line of the neovim text, for every recommendation the
    engine returns, sets [block] when myopia holds after auto-detection or
    blur or ghosting is set, and [ver25], the bar, otherwise; for any
    recommendation the line carries [ver25] for a bar cursor and the
    cursor's own name otherwise. *)
Theorem neovim_cursor_line :
  (forall r,
      contains (generateEditorConfig r "neovim")
        ("vim.opt.guicursor = " ++ JSON.dquote ++ "n-v-c:"
         ++ match cursorStyle r with
            | bar => "ver25"
            | block => "block"
            | underline => "underline"
            end
         ++ JSON.dquote ++ JSON.nl))
  /\ (forall conditions colorVision prescription currentSettings,
        let out := calculateRecommendations conditions colorVision
                     prescription currentSettings in
        contains (generateEditorConfig (snd out) "neovim")
          ("vim.opt.guicursor = " ++ JSON.dquote ++ "n-v-c:"
           ++ (if myopia (fst out) || blurOrGhosting conditions
               then "block" else "ver25")
           ++ JSON.dquote ++ JSON.nl)).
Proof.
  assert (H : forall r,
             contains (generateEditorConfig r "neovim")
               ("vim.opt.guicursor = " ++ JSON.dquote ++ "n-v-c:"
                ++ match cursorStyle r with
                   | bar => "ver25"
                   | block => "block"
                   | underline => "underline"
                   end
                ++ JSON.dquote ++ JSON.nl)).
  { intros r. rewrite neovim_text_eq. unfold neovim_text, contains.
    exists ("-- Vision-optimized settings" ++ JSON.nl
            ++ "vim.opt.guifont = " ++ JSON.dquote ++ font_of r ++ ":h"
            ++ JS.String_of_number (fontSize r) ++ JSON.dquote ++ JSON.nl
            ++ "vim.opt.linespace = "
            ++ JS.String_of_number
                 (JS.Math_round ((lineHeight r - 1) * fontSize r))
            ++ JSON.nl).
    exists (theme_line (theme_of r)
              (fun t => "vim.cmd(" ++ JSON.dquote ++ "colorscheme "
                        ++ colorscheme_name t ++ JSON.dquote ++ ")")).
    rewrite !append_assoc. destruct (cursorStyle r); reflexivity. }
  split; [ exact H | ].
  intros conditions colorVision prescription currentSettings out.
  specialize (H (snd out)).
  destruct (result_settings conditions colorVision prescription
              currentSettings) as (_ & _ & _ & E & _).
  destruct (autoDetect_other_flags conditions prescription) as (_ & B & _).
  fold out in E. rewrite E, cursorStyle_after_conditions, B in H.
  change (autoDetect conditions prescription) with (fst out) in H.
  destruct (myopia (fst out) || blurOrGhosting conditions); exact H.
Qed.

(** X10: the text for an editor, whichever identifier is given, is fixed
    by the four settings, the first suggested font and the first suggested
    theme: further fonts and themes, the explanations and the citations
    never reach it. *)
Theorem config_reads_first_font_and_theme :
  forall r r' editor,
    settings r = settings r' ->
    first (suggestedFonts r) = first (suggestedFonts r') ->
    first (suggestedThemes r) = first (suggestedThemes r') ->
    generateEditorConfig r editor = generateEditorConfig r' editor.
Proof.
  intros r r' editor Hs Hf Ht.
  unfold settings in Hs.
  assert (H1 : fontSize r = fontSize r') by congruence.
  assert (H2 : lineHeight r = lineHeight r') by congruence.
  assert (H3 : fontWeight r = fontWeight r') by congruence.
  assert (H4 : cursorStyle r = cursorStyle r') by congruence.
  unfold generateEditorConfig, vscode_object, zed_object, sublime_object,
    generic_object, neovim_text, jetbrains_text, line_padding, font_of,
    theme_of.
  rewrite H1, H2, H3, H4, Hf, Ht. reflexivity.
Qed.

(** X10 at the base values, with and without an explanation, for zed. *)
Lemma config_reads_first_font_and_theme_witness :
  generateEditorConfig (push_explanation initial REMINDER) "zed"
  = generateEditorConfig initial "zed".
Proof.
  apply (config_reads_first_font_and_theme
           (push_explanation initial REMINDER) initial "zed");
    reflexivity.
Defined.


(** X12: for every recommendation the engine returns, the line spacing
    written for neovim is a whole number from 8 to 15 and the line padding
    written for sublime a whole number from 4 to 8. *)
Theorem engine_spacings :
  forall conditions colorVision prescription currentSettings,
    let result := snd (calculateRecommendations conditions colorVision
                         prescription currentSettings) in
    (exists n,
        In n LINE_SPACINGS
        /\ contains (generateEditorConfig result "neovim")
             ("vim.opt.linespace = " ++ JS.String_of_number n ++ JSON.nl))
    /\ In (line_padding result) LINE_PADDINGS.
Proof.
  intros conditions colorVision prescription currentSettings result.
  destruct (result_settings conditions colorVision prescription
              currentSettings) as (E1 & E2 & _).
  destruct (after_conditions_values (autoDetect conditions prescription)
              (refraction prescription)) as (V1 & V2 & _).
  fold result in E1, E2. rewrite <- E1 in V1. rewrite <- E2 in V2.
  assert (H : In (JS.Math_round ((lineHeight result - 1) * fontSize result))
                LINE_SPACINGS
              /\ In (line_padding result) LINE_PADDINGS).
  { unfold line_padding. revert V1 V2.
    generalize (fontSize result), (lineHeight result).
    unfold FONT_SIZES, LINE_HEIGHTS. cbn [In]. intros f h Hf Hh.
    repeat match goal with
           | H : _ \/ _ |- _ => destruct H as [H | H]
           | H : False |- _ => destruct H
           end;
      rewrite <- Hf, <- Hh; vm_compute; intuition. }
  destruct H as (HS & HP). split; [ | exact HP ].
  exists (JS.Math_round ((lineHeight result - 1) * fontSize result)).
  split; [ exact HS | ].
  rewrite neovim_text_eq. unfold neovim_text, contains.
  exists ("-- Vision-optimized settings" ++ JSON.nl
          ++ "vim.opt.guifont = " ++ JSON.dquote ++ font_of result ++ ":h"
          ++ JS.String_of_number (fontSize result) ++ JSON.dquote
          ++ JSON.nl).
  eexists. rewrite !append_assoc. reflexivity.
Qed.

Lemma lower_char_not_upper c : is_upper (lower_char c) = false.
Proof. each_char c; reflexivity. Qed.

Lemma lower_char_fixed c : is_upper c = false -> lower_char c = c.
Proof. each_char c; intros H; try reflexivity; discriminate H. Qed.

Lemma none_upper_toLowerCase s : none is_upper (toLowerCase s) = true.
Proof.
  induction s as [ | c s IH]; [ reflexivity | ].
  unfold none in *. cbn [toLowerCase Read.all].
  now rewrite lower_char_not_upper, IH.
Qed.

Lemma toLowerCase_fixed s : none is_upper s = true -> toLowerCase s = s.
Proof.
  induction s as [ | c s IH]; [ reflexivity | ].
  unfold none in *. cbn [toLowerCase Read.all]. intros H.
  apply andb_prop in H. destruct H as [Hc Hs].
  apply negb_true_iff in Hc.
  now rewrite (lower_char_fixed c Hc), (IH Hs).
Qed.

Lemma length_toLowerCase s : String.length (toLowerCase s) = String.length s.
Proof. induction s as [ | c s IH]; simpl; [ reflexivity | now rewrite IH ]. Qed.

Lemma none_space_hyphenate s : forall in_run,
  none is_space (hyphenate in_run s) = true.
Proof.
  induction s as [ | c s IH]; intros in_run; [ reflexivity | ].
  cbn [hyphenate]. destruct (is_space c) eqn:E.
  - destruct in_run; [ apply IH | ].
    unfold none in *. cbn [Read.all]. now rewrite (IH true).
  - unfold none in *. cbn [Read.all]. now rewrite E, (IH false).
Qed.

Lemma none_upper_hyphenate s : forall in_run,
  none is_upper s = true -> none is_upper (hyphenate in_run s) = true.
Proof.
  induction s as [ | c s IH]; intros in_run H; [ reflexivity | ].
  unfold none in H. cbn [Read.all] in H. apply andb_prop in H.
  destruct H as [Hc Hs]. fold (none is_upper s) in Hs.
  cbn [hyphenate]. destruct (is_space c).
  - destruct in_run; [ now apply IH | ].
    unfold none. cbn [Read.all]. now apply IH.
  - unfold none. cbn [Read.all]. rewrite Hc. now apply IH.
Qed.

Lemma length_hyphenate s : forall in_run,
  (String.length (hyphenate in_run s) <= String.length s)%nat.
Proof.
  induction s as [ | c s IH]; intros in_run; [ apply le_n | ].
  cbn [hyphenate]. destruct (is_space c).
  - destruct in_run; cbn [String.length];
      [ specialize (IH true); lia | specialize (IH true); lia ].
  - cbn [String.length]. specialize (IH false). lia.
Qed.

Lemma hyphenate_fixed s : forall in_run,
  none is_space s = true -> hyphenate in_run s = s.
Proof.
  induction s as [ | c s IH]; intros in_run H; [ reflexivity | ].
  unfold none in H. cbn [Read.all] in H. apply andb_prop in H.
  destruct H as [Hc Hs]. apply negb_true_iff in Hc.
  cbn [hyphenate]. rewrite Hc. f_equal. now apply IH.
Qed.

(** X13: the colorscheme name written for neovim, for a theme name of
    ASCII characters (on which lower-casing and white space are modelled),
    has no white space and no upper-case letter, is no longer than the
    theme name, and is the theme name itself when that has neither. *)
Theorem colorscheme_name_normalised :
  forall theme,
    ascii_only theme = true ->
    none is_space (colorscheme_name theme) = true
    /\ none is_upper (colorscheme_name theme) = true
    /\ (String.length (colorscheme_name theme) <= String.length theme)%nat
    /\ (none is_space theme = true -> none is_upper theme = true ->
        colorscheme_name theme = theme).
Proof.
  intros theme _. unfold colorscheme_name. repeat apply conj.
  - apply none_space_hyphenate.
  - apply none_upper_hyphenate, none_upper_toLowerCase.
  - rewrite <- (length_toLowerCase theme). apply length_hyphenate.
  - intros Hs Hu. rewrite (toLowerCase_fixed theme Hu).
    now apply hyphenate_fixed.
Qed.

(** X13 at the first theme of the deuteranopia entry. *)
Lemma colorscheme_name_normalised_witness :
  none is_space (colorscheme_name "Solarized Dark") = true
  /\ none is_upper (colorscheme_name "Solarized Dark") = true.
Proof.
  destruct (colorscheme_name_normalised "Solarized Dark" eq_refl)
    as (H1 & H2 & _).
  split; assumption.
Defined.

(* ================================================================== *)
(** * Reading back: the generic dump and the summary *)
(* ================================================================== *)

Lemma unknown_editor_text r editor :
  ~ In editor SUPPORTED_EDITORS ->
  generateEditorConfig r editor = JSON.stringify (generic_object r).
Proof.
  intros He. unfold SUPPORTED_EDITORS in He. cbn [In] in He.
  unfold generateEditorConfig.
  repeat match goal with
         | |- context [String.eqb editor ?s] =>
             replace (String.eqb editor s) with false
               by (symmetry; apply String.eqb_neq; intuition)
         end.
  reflexivity.
Qed.

(** The text of the generic dump, member by member. *)
Lemma generic_text r :
  JSON.stringify (generic_object r)
  = ("{" ++ JSON.nl ++ "  ")
    ++ (JSON.quote "fontSize" ++ ": ")
    ++ JSON.number_text (fontSize r)
    ++ ("," ++ JSON.nl ++ "  ")
    ++ (JSON.quote "lineHeight" ++ ": ")
    ++ JSON.number_text (lineHeight r)
    ++ ("," ++ JSON.nl ++ "  ")
    ++ (JSON.quote "fontWeight" ++ ": ")
    ++ JSON.number_text (fontWeight r)
    ++ ("," ++ JSON.nl ++ "  ")
    ++ (JSON.quote "cursorStyle" ++ ": ")
    ++ JSON.quote (CursorStyle_text (cursorStyle r))
    ++ ("," ++ JSON.nl ++ "  ")
    ++ (JSON.quote "font" ++ ": ")
    ++ JSON.quote (font_of r)
    ++ match theme_of r with
       | Some t =>
           ("," ++ JSON.nl ++ "  ") ++ (JSON.quote "theme" ++ ": ")
           ++ JSON.quote t
       | None => EmptyString
       end
    ++ JSON.nl ++ "}".
Proof.
  unfold JSON.stringify, generic_object.
  destruct (theme_of r) as [t | ];
    cbn [JSON.serialize List.app JSON.join];
    rewrite ?append_assoc; cbn [append]; reflexivity.
Qed.

Lemma read_generic r :
  survives_text (fontSize r) -> survives_text (lineHeight r) ->
  survives_text (fontWeight r) ->
  Read.parse Read.generic (JSON.stringify (generic_object r))
  = Some (settings r).
Proof.
  intros Hs Hh Hw.
  rewrite generic_text. unfold Read.parse, Read.generic, Read.open_object,
    Read.key, Read.next_member.
  rewrite !bind_expect.
  rewrite (bind_number _ _ _ Hs); [ | reflexivity ].
  rewrite !bind_expect.
  rewrite (bind_number _ _ _ Hh); [ | reflexivity ].
  rewrite !bind_expect.
  rewrite (bind_number _ _ _ Hw); [ | reflexivity ].
  rewrite !bind_expect.
  rewrite bind_quoted_cursor.
  reflexivity.
Qed.

(** X14: the text written for an identifier outside the five can be read
    back: some reader returns the font size, line height, font weight and
    cursor style of every recommendation whose three numbers are finite
    and not [-0]. *)
Theorem generic_dump_round_trip :
  forall editor,
    ~ In editor SUPPORTED_EDITORS -> round_trip_on plain_numbers editor.
Proof.
  intros editor He. exists (Read.parse Read.generic).
  intros r (Hs & Hh & Hw). rewrite (unknown_editor_text r editor He).
  apply read_generic; now apply plain_survives.
Qed.

(** X14 at the identifier "emacs". *)
Lemma generic_dump_round_trip_witness : round_trip_on plain_numbers "emacs".
Proof.
  apply (generic_dump_round_trip "emacs").
  unfold SUPPORTED_EDITORS. cbn [In]. intuition discriminate.
Defined.

Lemma bind_number_string {A} x (k : float -> Read.reader A) rest :
  survives_text x -> stops Read.is_number_char rest ->
  Read.bind Read.number k (JS.String_of_number x ++ rest) = k x rest.
Proof.
  intros (Hf & Hc & Hr) Hs.
  unfold JS.String_of_number, Read.number, Read.bind, Read.token.
  now rewrite (span_app _ _ _ Hc Hs), Hr.
Qed.

Lemma read_cursor_text c :
  Read.cursor (CursorStyle_text c) = Some (c, EmptyString).
Proof. destruct c; reflexivity. Qed.

Lemma read_summary r :
  survives_text (fontSize r) -> survives_text (lineHeight r) ->
  survives_text (fontWeight r) ->
  Read.parse Read.summary (getRecommendationSummary r) = Some (settings r).
Proof.
  intros Hs Hh Hw.
  unfold getRecommendationSummary, Read.parse, Read.summary.
  rewrite bind_expect.
  rewrite (bind_number_string _ _ _ Hs); [ | reflexivity ].
  rewrite bind_expect.
  rewrite (bind_number_string _ _ _ Hh); [ | reflexivity ].
  rewrite bind_expect.
  rewrite (bind_number_string _ _ _ Hw); [ | reflexivity ].
  rewrite bind_expect.
  unfold Read.bind. rewrite read_cursor_text. reflexivity.
Qed.

(** X15: the summary line shows the four settings without loss: some
    reader returns them from the summary of every recommendation whose
    three numbers are finite and not [-0], and every recommendation the
    engine returns is one. *)
Theorem summary_round_trip :
  summary_round_trip_on plain_numbers
  /\ forall conditions colorVision prescription currentSettings,
       Read.parse Read.summary
         (getRecommendationSummary
            (snd (calculateRecommendations conditions colorVision
                    prescription currentSettings)))
       = Some (settings
                 (snd (calculateRecommendations conditions colorVision
                         prescription currentSettings))).
Proof.
  assert (H : forall r, plain_numbers r ->
                Read.parse Read.summary (getRecommendationSummary r)
                = Some (settings r)).
  { intros r (Hs & Hh & Hw). apply read_summary; now apply plain_survives. }
  split.
  - exists (Read.parse Read.summary). exact H.
  - intros. apply H, result_numbers_plain.
Qed.

(* ================================================================== *)
(** * The calibrator form *)
(* ================================================================== *)

(** X16: toggling a condition flips that flag and no other; toggling it
    twice gives the conditions back; two toggles commute. *)
Theorem toggle_condition_flips_one :
  forall key prev,
    get_condition (toggleCondition key prev) key
    = negb (get_condition prev key)
    /\ (forall other, other <> key ->
          get_condition (toggleCondition key prev) other
          = get_condition prev other)
    /\ toggleCondition key (toggleCondition key prev) = prev
    /\ (forall key',
          toggleCondition key (toggleCondition key' prev)
          = toggleCondition key' (toggleCondition key prev)).
Proof.
  intros key prev. repeat apply conj.
  - destruct key; reflexivity.
  - intros other H. destruct key, other; try reflexivity; contradiction.
  - destruct prev as [[ | ] [ | ] [ | ] [ | ] [ | ] [ | ] [ | ]];
      destruct key; reflexivity.
  - intros key'.
    destruct prev as [[ | ] [ | ] [ | ] [ | ] [ | ] [ | ] [ | ]];
      destruct key, key'; reflexivity.
Qed.

Lemma or_else_zero_not_nan x :
  is_nan (or_else x 0) = false /\ or_else x 0 <> neg_zero.
Proof.
  unfold or_else, ToBoolean.
  destruct (is_nan x) eqn:N; [ split; [ reflexivity | ] | ].
  - intros E. apply (f_equal Prim2SF) in E. vm_compute in E. discriminate E.
  - cbn [orb negb]. destruct (x =? 0)%float eqn:Z; cbn [negb].
    + split; [ reflexivity | ].
      intros E. apply (f_equal Prim2SF) in E. vm_compute in E. discriminate E.
    + split; [ exact N | ]. intros E. rewrite E in Z. vm_compute in Z.
      discriminate Z.
Qed.

(** X17: the form hands the engine no prescription exactly when neither
    sphere text parses; in the prescription it hands over otherwise, no
    field is NaN or [-0], and a field is the number parsed from its text
    unless that is NaN, [0] or [-0], when it is [0]. *)
Theorem parsed_prescription_has_no_nan :
  forall f,
    (parsedPrescription f = None
     <-> is_nan (rs f) = true /\ is_nan (ls f) = true)
    /\ forall p, parsedPrescription f = Some p ->
         Forall (fun x => is_nan x = false /\ x <> neg_zero) (fields p)
         /\ fields p
            = map (fun x => if is_nan x || (x =? 0)%float then 0%float else x)
                [rs f; rc f; ra f; ls f; lc f; la f].
Proof.
  intros f. unfold parsedPrescription. split.
  - destruct (is_nan (rs f)), (is_nan (ls f)); cbn [andb];
      split; try discriminate; try (intros (A & B); discriminate);
      intros; try split; reflexivity.
  - intros p H.
    destruct (is_nan (rs f) && is_nan (ls f)); [ discriminate H | ].
    injection H as <-. unfold fields.
    cbn [rightEye leftEye sphere cylinder axis map]. split.
    + repeat apply Forall_cons; try apply Forall_nil;
        apply or_else_zero_not_nan.
    + unfold or_else, ToBoolean.
      repeat match goal with
             | |- context [is_nan ?x || (?x =? 0)%float] =>
                 destruct (is_nan x || (x =? 0)%float)
             end; reflexivity.
Qed.

(** X17 with one sphere typed. *)
Lemma parsed_prescription_has_no_nan_witness :
  exists p,
    parsedPrescription ONE_SPHERE_TYPED = Some p
    /\ Forall (fun x => is_nan x = false /\ x <> neg_zero) (fields p).
Proof.
  eexists. split; [ reflexivity | ].
  apply (proj2 (parsed_prescription_has_no_nan ONE_SPHERE_TYPED) _ eq_refl).
Defined.

Lemma eqb_zero_cases x :
  (x =? 0)%float = true -> x = zero \/ x = neg_zero.
Proof.
  rewrite FloatAxioms.eqb_spec. unfold SFeqb. intros H.
  rewrite <- (FloatAxioms.SF2Prim_Prim2SF x).
  destruct (Prim2SF x) as [[ | ] | [ | ] | | [ | ] m e];
    try discriminate H; [ right | left ]; reflexivity.
Qed.

(** Two zero cylinders are no significant astigmatism. *)
Lemma zero_cylinders x y :
  (x =? 0)%float = true -> (y =? 0)%float = true ->
  (0.5 <=? JS.Math_abs ((x + y) / 2))%float = false.
Proof.
  intros Hx Hy.
  destruct (eqb_zero_cases x Hx) as [-> | ->],
    (eqb_zero_cases y Hy) as [-> | ->]; reflexivity.
Qed.

Lemma handleGenerate_flags conditions f :
  let stored := handleGenerate conditions f in
  let a := ((or_else (rs f) 0 + or_else (ls f) 0) / 2)%float in
  myopia stored = myopia conditions || (a <? -0.5)%float
  /\ hyperopia stored = hyperopia conditions || (0.5 <? a)%float
  /\ astigmatism stored
     = astigmatism conditions
       || ((0 <? or_else (ra f) 0)%float || (0 <? or_else (la f) 0)%float
           || negb (or_else (rc f) 0 =? 0)%float
           || negb (or_else (lc f) 0 =? 0)%float)
  /\ eyeStrain stored = eyeStrain conditions
  /\ blurOrGhosting stored = blurOrGhosting conditions
  /\ lightSensitivity stored = lightSensitivity conditions
  /\ visualCrowding stored = visualCrowding conditions.
Proof.
  cbv zeta. unfold handleGenerate.
  set (a := ((or_else (rs f) 0 + or_else (ls f) 0) / 2)%float).
  set (t := (_ || _ || _ || _)%bool).
  destruct conditions as [m h s e b l v].
  cbn [myopia hyperopia astigmatism].
  destruct (a <? -0.5)%float, (0.5 <? a)%float, t, m, h, s; repeat split.
Qed.

(** X18: the conditions [handleGenerate] stores keep every flag that was
    set and leave the four flags that are no refraction untouched; and the
    engine's own auto-detection, run on them with the prescription the
    form hands over, changes nothing: what the engine writes to the
    conditions is already stored. *)
Theorem generate_conditions_are_stable :
  forall conditions colorVision f currentSettings,
    let stored := handleGenerate conditions f in
    fst (recommendations stored colorVision f currentSettings) = stored
    /\ (forall key, get_condition conditions key = true ->
          get_condition stored key = true)
    /\ eyeStrain stored = eyeStrain conditions
    /\ blurOrGhosting stored = blurOrGhosting conditions
    /\ lightSensitivity stored = lightSensitivity conditions
    /\ visualCrowding stored = visualCrowding conditions.
Proof.
  intros conditions colorVision f currentSettings stored.
  destruct (handleGenerate_flags conditions f)
    as (M & H & A & E & B & L & V).
  cbv zeta in M, H, A, E, B, L, V. fold stored in M, H, A, E, B, L, V.
  repeat apply conj; try assumption.
  - unfold recommendations. cbn [calculateRecommendations fst].
    unfold parsedPrescription.
    destruct (is_nan (rs f) && is_nan (ls f)); [ reflexivity | ].
    set (p := {| rightEye := _; leftEye := _ |}).
    destruct (autoDetect_flags stored p)
      as (M' & H' & A' & E' & B' & L' & V').
    cbv zeta in M', H', A', E', B', L', V'.
    apply VisualConditions_ext; try assumption.
    + rewrite M', M.
      change (avgSphere (refraction (Some p)))
        with ((or_else (rs f) 0 + or_else (ls f) 0) / 2)%float.
      now rewrite <- orb_assoc, orb_diag.
    + rewrite H', H.
      change (avgSphere (refraction (Some p)))
        with ((or_else (rs f) 0 + or_else (ls f) 0) / 2)%float.
      now rewrite <- orb_assoc, orb_diag.
    + rewrite A'.
      change (hasSignificantAstigmatism (refraction (Some p)))
        with (0.5 <=? JS.Math_abs ((or_else (rc f) 0 + or_else (lc f) 0) / 2))%float.
      destruct (0.5 <=? _)%float eqn:T; [ | apply orb_false_r ].
      rewrite orb_true_r. rewrite A.
      destruct (or_else (rc f) 0 =? 0)%float eqn:Zr;
        [ | cbn [negb]; now rewrite !orb_true_r ].
      destruct (or_else (lc f) 0 =? 0)%float eqn:Zl;
        [ | cbn [negb]; now rewrite !orb_true_r ].
      rewrite (zero_cylinders _ _ Zr Zl) in T. discriminate T.
  - intros key Hk.
    destruct key; cbn [get_condition] in *;
      rewrite ?M, ?H, ?A, ?E, ?B, ?L, ?V, Hk; reflexivity.
Qed.
